(** * Suburb data access and market analytics: a shallow embedding

    The development follows the Python sources of the backend:

    - [repositories/composite_repository.py]: module [Composite], the
      coordinator that asks the remote adapter first and the local one next;
    - [repositories/file_repository.py]: module [FileRepo], the adapter over
      the snapshot files;
    - [services/data_aggregator.py]: module [Aggregator], the transforms to
      the frontend format and the market analytics.

    Conventions of the embedding.

    - Python values that travel between these layers are JSON-like and
      dynamically typed; they are the inductive type [Py.value].  A dict is
      the list of its items in insertion order; strings are byte strings
      (UTF-8), on which equality, substring and lexicographic order agree
      with Python's.
    - Numbers are exact rationals ([Q]), and the volatility, which needs a
      square root, is a real number.  [round] is rounding to nearest, ties
      to even.  Python computes on binary floats, whose results are near
      the exact ones but not always equal to them; the growth percentages,
      whose reported digits depend on it, take the float operations as a
      parameter ([Num.float_arith]).
    - A Python expression that may raise returns a [Py.result]; the
      coordinator, whose adapters may have effects, runs in a state monad
      over the outside world and a log of the adapter calls.  Calls to the
      logger are left out.
    - [datetime.strptime] is a parameter of the analytics; module [Calendar]
      provides the instance used by the examples. *)

From Stdlib Require Import List String Ascii ZArith QArith Qround Qabs Qminmax.
From Stdlib Require Import Bool Lia.
From Stdlib Require Import Reals Qreals Lra Psatz.
From Stdlib Require Import Sorted Permutation DecimalString.
Import ListNotations.

Set Warnings "-register-all".


Local Open Scope string_scope.
Local Open Scope Z_scope.
Local Open Scope Q_scope.

(* ================================================================= *)
(** ** Python values, truthiness and exceptions *)

Module Py.

(** JSON-like values.  A dict keeps its items in insertion order. *)
Inductive value : Type :=
| VNone
| VBool (b : bool)
| VNum (q : Q)
| VStr (s : string)
| VList (l : list value)
| VDict (d : list (string * value)).

(** Exceptions deriving from Python's [Exception].  [Unmodelled] marks a
    run that leaves the fragment of Python covered by the embedding (for
    instance [float] applied to a string); nothing is claimed about it. *)
Inductive exn : Type :=
| TypeError
| AttributeError
| KeyError
| ValueError
| IndexError
| OverflowError
| StopIteration
| OtherError (msg : string)
| Unmodelled.

Inductive result (A : Type) : Type :=
| Ok (a : A)
| Raise (e : exn).
Arguments Ok {A} a.
Arguments Raise {A} e.

Definition bind {A B} (r : result A) (k : A -> result B) : result B :=
  match r with
  | Ok a => k a
  | Raise e => Raise e
  end.

(** [bool(v)]: what [if v:] tests. *)
Definition truthy (v : value) : bool :=
  match v with
  | VNone => false
  | VBool b => b
  | VNum q => negb (Qeq_bool q 0)
  | VStr s => negb (s =? "")%string
  | VList l => match l with [] => false | _ => true end
  | VDict d => match d with [] => false | _ => true end
  end.

(** Dict access by key: the first item stored under [k]. *)
Fixpoint lookup (k : string) (d : list (string * value)) : option value :=
  match d with
  | [] => None
  | (k', v) :: d' => if (k' =? k)%string then Some v else lookup k d'
  end.

Definition is_dict (v : value) : bool :=
  match v with VDict _ => true | _ => false end.

Definition is_list (v : value) : bool :=
  match v with VList _ => true | _ => false end.

(** [v == VStr s] for the scalar comparisons the sources make. *)
Definition eq_str (v : value) (s : string) : bool :=
  match v with VStr s' => (s' =? s)%string | _ => false end.

(** [s in v] for a string [s]: key membership for a dict, element
    membership for a list, substring test for a string, [TypeError]
    otherwise. *)
Definition contains (v : value) (s : string) : result bool :=
  match v with
  | VDict d => Ok (match lookup s d with Some _ => true | None => false end)
  | VList l => Ok (existsb (fun x => eq_str x s) l)
  | VStr t => Ok (match String.index 0 s t with Some _ => true | None => false end)
  | _ => Raise TypeError
  end.

(** [v.get(k, dflt)]: only dicts have the method. *)
Definition get (v : value) (k : string) (dflt : value) : result value :=
  match v with
  | VDict d => Ok (match lookup k d with Some x => x | None => dflt end)
  | _ => Raise AttributeError
  end.

(** [v[k]] for a string key [k]. *)
Definition getitem (v : value) (k : string) : result value :=
  match v with
  | VDict d => match lookup k d with Some x => Ok x | None => Raise KeyError end
  | _ => Raise TypeError
  end.

(** [for x in v]: the elements of a list, the keys of a dict.  Iterating
    over a non-empty string (character by character) is outside the
    embedding. *)
Definition iterate (v : value) : result (list value) :=
  match v with
  | VList l => Ok l
  | VDict d => Ok (map (fun kv => VStr (fst kv)) d)
  | VStr s => if (s =? "")%string then Ok [] else Raise Unmodelled
  | _ => Raise TypeError
  end.

(** [v[:n]] as the list of its elements.  Slicing a non-empty string, or
    a dict (whose outcome depends on the Python version), is outside the
    embedding. *)
Definition slice_to (n : nat) (v : value) : result (list value) :=
  match v with
  | VList l => Ok (firstn n l)
  | VStr s => if (s =? "")%string then Ok [] else Raise Unmodelled
  | VDict _ => Raise Unmodelled
  | _ => Raise TypeError
  end.

(** [len(v)] for the values [iterate] accepts. *)
Definition len (v : value) : result nat :=
  match v with
  | VList l => Ok (List.length l)
  | VDict d => Ok (List.length d)
  | VStr s => if (s =? "")%string then Ok O else Raise Unmodelled
  | _ => Raise TypeError
  end.

(** Numbers, with [bool] as the subtype of [int] it is in Python. *)
Definition as_number (v : value) : option Q :=
  match v with
  | VNum q => Some q
  | VBool b => Some (if b then 1 else 0)
  | _ => None
  end.

(** Keys of the dicts the service builds: hashable values, compared as
    Python compares them ([True == 1]). *)
Definition hashable (v : value) : bool :=
  match v with VList _ | VDict _ => false | _ => true end.

Definition key_eqb (a b : value) : bool :=
  match a, b with
  | VNone, VNone => true
  | VStr s, VStr t => (s =? t)%string
  | _, _ =>
      match as_number a, as_number b with
      | Some x, Some y => Qeq_bool x y
      | _, _ => false
      end
  end.

(** [d[k] = f(d.get(k))]: an existing key keeps its place (and its key
    object), a new one goes last. *)
Fixpoint upsert {A : Type} (k : value) (f : option A -> A)
    (d : list (value * A)) : list (value * A) :=
  match d with
  | [] => [(k, f None)]
  | (k', a) :: d' =>
      if key_eqb k' k then (k', f (Some a)) :: d'
      else (k', a) :: upsert k f d'
  end.

(** [a + b]. *)
Definition add (a b : value) : result value :=
  match as_number a, as_number b with
  | Some x, Some y => Ok (VNum (x + y))
  | _, _ =>
      match a, b with
      | VStr s, VStr t => Ok (VStr (s ++ t))
      | VList l, VList m => Ok (VList (l ++ m))
      | _, _ => Raise TypeError
      end
  end.

End Py.
Import Py.

Declare Scope py_scope.
Notation "x <- c1 ;; c2" := (Py.bind c1 (fun x => c2))
  (at level 61, c1 at next level, right associativity) : py_scope.
Local Open Scope py_scope.

(* ================================================================= *)
(** ** The fallback coordinator ([CompositeSuburbRepository]) *)

Module Composite.

(** The method names handed to [getattr]. *)
Inductive method : Type :=
| M_search_suburbs
| M_get_suburb_info
| M_get_suburb_summary
| M_get_demographics
| M_get_amenities
| M_get_market_trends
| M_get_schools
| M_get_developments
| M_get_market_insights
| M_get_pocket_insights
| M_get_street_insights
| M_get_risk_factors
| M_get_school_catchments
| M_get_zoning
| M_get_similar_suburbs
| M_get_street_rankings.

(** Positional and keyword arguments of one call: the suburb identifier
    (the query, for a search) and the optional filters. *)
Record call_args : Type := mk_args {
  subject : string;
  geojson : option bool;
  metric : option (option string);
  property_type : option (option string)
}.

Definition args1 (s : string) : call_args := mk_args s None None None.

(** Call-count instrumentation: which adapter was asked for what. *)
Inductive event : Type :=
| ApiCall (m : method) (a : call_args)
| FileCall (m : method) (a : call_args).

Definition is_api_call (e : event) : bool :=
  match e with ApiCall _ _ => true | FileCall _ _ => false end.

Definition is_file_call (e : event) : bool :=
  match e with ApiCall _ _ => false | FileCall _ _ => true end.

Definition api_calls (log : list event) : nat :=
  List.length (filter is_api_call log).

Definition file_calls (log : list event) : nat :=
  List.length (filter is_file_call log).

(** One invocation of a domain operation of the coordinator. *)
Inductive request : Type :=
| Search (query : string)
| Info (suburb_id : string) (gj : bool)
| Summary (suburb_id : string)
| Demographics (suburb_id : string)
| Amenities (suburb_id : string)
| MarketTrends (suburb_id : string)
| Schools (suburb_id : string)
| Developments (suburb_id : string)
| MarketInsights (suburb_id : string) (mt pt : option string)
| PocketInsights (suburb_id : string) (gj : bool) (pt : option string)
| StreetInsights (suburb_id : string) (gj : bool) (pt : option string)
| RiskFactors (suburb_id : string) (gj : bool)
| SchoolCatchments (suburb_id : string) (gj : bool)
| Zoning (suburb_id : string) (gj : bool)
| SimilarSuburbs (suburb_id : string) (gj : bool)
| StreetRankings (suburb_id : string) (pt : option string).

(** The adapters are arbitrary: a method may read and change the
    outside world [W], and may return a value or raise. *)
Record repository (W : Type) : Type := {
  invoke : method -> call_args -> W -> result value * W
}.
Arguments invoke {W} r m a w.
Arguments Build_repository {W} invoke.

Section Coordinator.

Context {W : Type}.
Variable api_repo : repository W.
Variable file_repo : repository W.

(** Computations of the coordinator thread the world and the log. *)
Definition M (A : Type) : Type := W * list event -> A * (W * list event).

Definition ret {A} (a : A) : M A := fun s => (a, s).

Definition mbind {A B} (c : M A) (k : A -> M B) : M B :=
  fun s => let (a, s') := c s in k a s'.

Definition call_api (m : method) (a : call_args) : M (result value) :=
  fun '(w, log) =>
    let (r, w') := invoke api_repo m a w in (r, (w', (log ++ [ApiCall m a])%list)).

Definition call_file (m : method) (a : call_args) : M (result value) :=
  fun '(w, log) =>
    let (r, w') := invoke file_repo m a w in (r, (w', (log ++ [FileCall m a])%list)).

(** The second [try] block of [_try_api_then_file]. *)
Definition file_fallback (m : method) (a : call_args) : M (result value) :=
  mbind (call_file m a) (fun r =>
    match r with
    | Ok v => if truthy v then ret (Ok v) else ret (Ok VNone)
    | Raise _ => ret (Ok VNone)
    end).

Definition _try_api_then_file (m : method) (a : call_args)
  : M (result value) :=
  mbind (call_api m a) (fun r =>
    match r with
    | Ok v => if truthy v then ret (Ok v) else file_fallback m a
    | Raise _ => file_fallback m a
    end).

Definition search_suburbs (query : string) : M (result value) :=
  mbind (_try_api_then_file M_search_suburbs (args1 query)) (fun r =>
    match r with
    | Ok v => if truthy v then ret (Ok v) else ret (Ok (VList []))
    | Raise e => ret (Raise e)
    end).

Definition get_suburb_info (suburb_id : string) (gj : bool) :=
  _try_api_then_file M_get_suburb_info (mk_args suburb_id (Some gj) None None).

Definition get_suburb_summary (suburb_id : string) :=
  _try_api_then_file M_get_suburb_summary (args1 suburb_id).

Definition get_demographics (suburb_id : string) :=
  _try_api_then_file M_get_demographics (args1 suburb_id).

Definition get_amenities (suburb_id : string) :=
  _try_api_then_file M_get_amenities (args1 suburb_id).

Definition get_market_trends (suburb_id : string) :=
  _try_api_then_file M_get_market_trends (args1 suburb_id).

Definition get_schools (suburb_id : string) :=
  _try_api_then_file M_get_schools (args1 suburb_id).

Definition get_developments (suburb_id : string) :=
  _try_api_then_file M_get_developments (args1 suburb_id).

Definition get_market_insights (suburb_id : string)
    (mt pt : option string) :=
  _try_api_then_file M_get_market_insights
    (mk_args suburb_id None (Some mt) (Some pt)).

Definition get_pocket_insights (suburb_id : string) (gj : bool)
    (pt : option string) :=
  _try_api_then_file M_get_pocket_insights
    (mk_args suburb_id (Some gj) None (Some pt)).

Definition get_street_insights (suburb_id : string) (gj : bool)
    (pt : option string) :=
  _try_api_then_file M_get_street_insights
    (mk_args suburb_id (Some gj) None (Some pt)).

Definition get_risk_factors (suburb_id : string) (gj : bool) :=
  _try_api_then_file M_get_risk_factors (mk_args suburb_id (Some gj) None None).

Definition get_school_catchments (suburb_id : string) (gj : bool) :=
  _try_api_then_file M_get_school_catchments
    (mk_args suburb_id (Some gj) None None).

Definition get_zoning (suburb_id : string) (gj : bool) :=
  _try_api_then_file M_get_zoning (mk_args suburb_id (Some gj) None None).

Definition get_similar_suburbs (suburb_id : string) (gj : bool) :=
  _try_api_then_file M_get_similar_suburbs
    (mk_args suburb_id (Some gj) None None).

(** The class body defines [get_street_rankings] twice.  This is the
    first definition, which the second one replaces. *)
Definition get_street_rankings_shadowed (suburb_id : string)
    (pt : option string) :=
  _try_api_then_file M_get_street_rankings
    (mk_args suburb_id None None (Some pt)).

(** The definition in force: both adapters are called outside any
    [try] block, so what they raise reaches the caller. *)
Definition get_street_rankings (suburb_id : string) (pt : option string)
  : M (result value) :=
  let a := mk_args suburb_id None None (Some pt) in
  mbind (call_api M_get_street_rankings a) (fun r =>
    match r with
    | Ok v => if truthy v then ret (Ok v) else call_file M_get_street_rankings a
    | Raise e => ret (Raise e)
    end).

Definition perform (rq : request) : M (result value) :=
  match rq with
  | Search q => search_suburbs q
  | Info s gj => get_suburb_info s gj
  | Summary s => get_suburb_summary s
  | Demographics s => get_demographics s
  | Amenities s => get_amenities s
  | MarketTrends s => get_market_trends s
  | Schools s => get_schools s
  | Developments s => get_developments s
  | MarketInsights s mt pt => get_market_insights s mt pt
  | PocketInsights s gj pt => get_pocket_insights s gj pt
  | StreetInsights s gj pt => get_street_insights s gj pt
  | RiskFactors s gj => get_risk_factors s gj
  | SchoolCatchments s gj => get_school_catchments s gj
  | Zoning s gj => get_zoning s gj
  | SimilarSuburbs s gj => get_similar_suburbs s gj
  | StreetRankings s pt => get_street_rankings s pt
  end.

(** The adapter method a request reaches, and with which arguments. *)
Definition method_of (rq : request) : method :=
  match rq with
  | Search _ => M_search_suburbs
  | Info _ _ => M_get_suburb_info
  | Summary _ => M_get_suburb_summary
  | Demographics _ => M_get_demographics
  | Amenities _ => M_get_amenities
  | MarketTrends _ => M_get_market_trends
  | Schools _ => M_get_schools
  | Developments _ => M_get_developments
  | MarketInsights _ _ _ => M_get_market_insights
  | PocketInsights _ _ _ => M_get_pocket_insights
  | StreetInsights _ _ _ => M_get_street_insights
  | RiskFactors _ _ => M_get_risk_factors
  | SchoolCatchments _ _ => M_get_school_catchments
  | Zoning _ _ => M_get_zoning
  | SimilarSuburbs _ _ => M_get_similar_suburbs
  | StreetRankings _ _ => M_get_street_rankings
  end.

Definition args_of (rq : request) : call_args :=
  match rq with
  | Search q => args1 q
  | Info s gj => mk_args s (Some gj) None None
  | Summary s | Demographics s | Amenities s | MarketTrends s
  | Schools s | Developments s => args1 s
  | MarketInsights s mt pt => mk_args s None (Some mt) (Some pt)
  | PocketInsights s gj pt | StreetInsights s gj pt =>
      mk_args s (Some gj) None (Some pt)
  | RiskFactors s gj | SchoolCatchments s gj | Zoning s gj
  | SimilarSuburbs s gj => mk_args s (Some gj) None None
  | StreetRankings s pt => mk_args s None None (Some pt)
  end.

Definition is_street_rankings (rq : request) : bool :=
  match rq with StreetRankings _ _ => true | _ => false end.

End Coordinator.

End Composite.


(* ================================================================= *)
(** ** The local adapter ([FileSuburbRepository]) *)

Module FileRepo.

(** What opening and parsing one snapshot file can lead to. *)
Inductive file_state : Type :=
| Missing                (* FileNotFoundError *)
| Malformed              (* json.JSONDecodeError *)
| Unreadable             (* any other Exception *)
| Parsed (v : value).

Definition file_system : Type := string -> file_state.

(** The file is absent, does not parse, or cannot be read. *)
Definition unavailable (st : file_state) : Prop :=
  st = Missing \/ st = Malformed \/ st = Unreadable.

Definition _load_file (fs : file_system) (filename : string) : value :=
  match fs filename with
  | Parsed data => data
  | Missing => VNone
  | Malformed => VNone
  | Unreadable => VNone
  end.

(** [str.lower] on ASCII letters; other bytes are left as they are. *)
Definition lower_ascii (c : ascii) : ascii :=
  let n := nat_of_ascii c in
  if (andb (Nat.leb 65 n) (Nat.leb n 90)) then ascii_of_nat (n + 32) else c.

Fixpoint lower (s : string) : string :=
  match s with
  | EmptyString => EmptyString
  | String c s' => String (lower_ascii c) (lower s')
  end.

Definition substring_of (needle hay : string) : bool :=
  match String.index 0 needle hay with Some _ => true | None => false end.

(** The list comprehension of [search_suburbs]: keep the entries whose
    lower-cased name contains the lower-cased query. *)
Fixpoint filter_by_name (query_lower : string) (suburbs : list value)
  : result (list value) :=
  match suburbs with
  | [] => Ok []
  | s :: rest =>
      name <- get s "name" (VStr "") ;;
      match name with
      | VStr n =>
          rest' <- filter_by_name query_lower rest ;;
          Ok (if substring_of query_lower (lower n) then s :: rest' else rest')
      | _ => Raise AttributeError
      end
  end.

(** A snapshot whose ["suburbs"] entry is not a list is outside the
    embedding. *)
Definition search_suburbs (fs : file_system) (query : string) : result value :=
  let data := _load_file fs "suburbs.json" in
  if negb (truthy data) then Ok (VList [])
  else
    suburbs <- get data "suburbs" (VList []) ;;
    match suburbs with
    | VList l =>
        l' <- (if negb (query =? "")%string
               then filter_by_name (lower query) l else Ok l) ;;
        Ok (VList (firstn 10 l'))
    | _ => Raise Unmodelled
    end.

Definition get_suburb_info (fs : file_system) (suburb_id : string) (gj : bool)
  : result value :=
  let data := _load_file fs "suburb_info.json" in
  if truthy data then get data suburb_id VNone else Ok VNone.

Definition get_suburb_summary (fs : file_system) (suburb_id : string)
  : result value :=
  let data := _load_file fs "suburb_summary.json" in
  if truthy data then get data suburb_id VNone else Ok VNone.

(** [next(iter(data.keys()))]. *)
Definition first_key (data : value) : result string :=
  match data with
  | VDict ((k, _) :: _) => Ok k
  | VDict [] => Raise StopIteration
  | _ => Raise AttributeError
  end.

(** The body shared, word for word, by [get_demographics], [get_amenities],
    [get_market_trends], [get_schools] and [get_developments]: the entry of
    [suburb_id] when there is one, else the first entry of the snapshot,
    else the empty structure of the domain. *)
Definition entry_or_first (data : value) (suburb_id : string)
    (empty_structure : value) : result value :=
  present <- (if truthy data then contains data suburb_id else Ok false) ;;
  if present then
    x <- getitem data suburb_id ;;
    Ok (VDict [(suburb_id, x)])
  else if truthy data then
    k <- first_key data ;;
    x <- getitem data k ;;
    Ok (VDict [(suburb_id, x)])
  else
    Ok (VDict [(suburb_id, empty_structure)]).

Definition zero : value := VNum 0.

Definition get_demographics (fs : file_system) (suburb_id : string)
  : result value :=
  entry_or_first (_load_file fs "demographics.json") suburb_id
    (VDict [("ageDistribution", VList []); ("ethnicity", VList [])]).

Definition get_amenities (fs : file_system) (suburb_id : string)
  : result value :=
  entry_or_first (_load_file fs "amenities.json") suburb_id
    (VDict [("categories", VList []); ("total", zero)]).

Definition get_market_trends (fs : file_system) (suburb_id : string)
  : result value :=
  entry_or_first (_load_file fs "market_trends.json") suburb_id
    (VDict [("priceHistory", VList []); ("quarterlyGrowth", zero);
            ("rentalYield", zero); ("daysOnMarket", zero)]).

Definition get_schools (fs : file_system) (suburb_id : string)
  : result value :=
  entry_or_first (_load_file fs "schools.json") suburb_id
    (VDict [("schools", VList []); ("total", zero)]).

Definition get_developments (fs : file_system) (suburb_id : string)
  : result value :=
  entry_or_first (_load_file fs "developments.json") suburb_id
    (VDict [("developments", VList []); ("total", zero); ("showing", zero)]).

(** The body shared by the insight-style operations: the entry of
    [suburb_id], or [dflt] under the same key. *)
Definition entry_or_default (data : value) (suburb_id : string)
    (dflt : value) : result value :=
  if truthy data then
    x <- get data suburb_id dflt ;;
    Ok (VDict [(suburb_id, x)])
  else Ok (VDict [(suburb_id, dflt)]).

Definition get_market_insights (fs : file_system) (suburb_id : string)
    (mt pt : option string) : result value :=
  entry_or_default (_load_file fs "market_insights.json") suburb_id (VDict []).

Definition get_pocket_insights (fs : file_system) (suburb_id : string)
    (gj : bool) (pt : option string) : result value :=
  entry_or_default (_load_file fs "pocket_insights.json") suburb_id (VDict []).

Definition get_street_insights (fs : file_system) (suburb_id : string)
    (gj : bool) (pt : option string) : result value :=
  entry_or_default (_load_file fs "street_insights.json") suburb_id (VDict []).

Definition get_risk_factors (fs : file_system) (suburb_id : string)
    (gj : bool) : result value :=
  entry_or_default (_load_file fs "risk_factors.json") suburb_id (VDict []).

Definition get_school_catchments (fs : file_system) (suburb_id : string)
    (gj : bool) : result value :=
  entry_or_default (_load_file fs "school_catchments.json") suburb_id (VList []).

Definition get_zoning (fs : file_system) (suburb_id : string) (gj : bool)
  : result value :=
  entry_or_default (_load_file fs "zoning.json") suburb_id (VDict []).

Definition get_similar_suburbs (fs : file_system) (suburb_id : string)
    (gj : bool) : result value :=
  entry_or_default (_load_file fs "similar_suburbs.json") suburb_id (VList []).

Definition get_street_rankings (fs : file_system) (suburb_id : string)
    (pt : option string) : result value :=
  Ok VNone.

(** One domain operation of the adapter, by request. *)
Definition perform (fs : file_system) (rq : Composite.request) : result value :=
  match rq with
  | Composite.Search q => search_suburbs fs q
  | Composite.Info s gj => get_suburb_info fs s gj
  | Composite.Summary s => get_suburb_summary fs s
  | Composite.Demographics s => get_demographics fs s
  | Composite.Amenities s => get_amenities fs s
  | Composite.MarketTrends s => get_market_trends fs s
  | Composite.Schools s => get_schools fs s
  | Composite.Developments s => get_developments fs s
  | Composite.MarketInsights s mt pt => get_market_insights fs s mt pt
  | Composite.PocketInsights s gj pt => get_pocket_insights fs s gj pt
  | Composite.StreetInsights s gj pt => get_street_insights fs s gj pt
  | Composite.RiskFactors s gj => get_risk_factors fs s gj
  | Composite.SchoolCatchments s gj => get_school_catchments fs s gj
  | Composite.Zoning s gj => get_zoning fs s gj
  | Composite.SimilarSuburbs s gj => get_similar_suburbs fs s gj
  | Composite.StreetRankings s pt => get_street_rankings fs s pt
  end.

(** The snapshot file an operation reads ([None]: it reads no file). *)
Definition snapshot_of (rq : Composite.request) : option string :=
  match rq with
  | Composite.Search _ => Some "suburbs.json"
  | Composite.Info _ _ => Some "suburb_info.json"
  | Composite.Summary _ => Some "suburb_summary.json"
  | Composite.Demographics _ => Some "demographics.json"
  | Composite.Amenities _ => Some "amenities.json"
  | Composite.MarketTrends _ => Some "market_trends.json"
  | Composite.Schools _ => Some "schools.json"
  | Composite.Developments _ => Some "developments.json"
  | Composite.MarketInsights _ _ _ => Some "market_insights.json"
  | Composite.PocketInsights _ _ _ => Some "pocket_insights.json"
  | Composite.StreetInsights _ _ _ => Some "street_insights.json"
  | Composite.RiskFactors _ _ => Some "risk_factors.json"
  | Composite.SchoolCatchments _ _ => Some "school_catchments.json"
  | Composite.Zoning _ _ => Some "zoning.json"
  | Composite.SimilarSuburbs _ _ => Some "similar_suburbs.json"
  | Composite.StreetRankings _ _ => None
  end.

(** What each operation answers when it has nothing to read: the
    [return] statements after the [if data] tests. *)
Definition no_data (rq : Composite.request) : value :=
  match rq with
  | Composite.Search _ => VList []
  | Composite.Info _ _ | Composite.Summary _ | Composite.StreetRankings _ _ =>
      VNone
  | Composite.Demographics s =>
      VDict [(s, VDict [("ageDistribution", VList []); ("ethnicity", VList [])])]
  | Composite.Amenities s =>
      VDict [(s, VDict [("categories", VList []); ("total", zero)])]
  | Composite.MarketTrends s =>
      VDict [(s, VDict [("priceHistory", VList []); ("quarterlyGrowth", zero);
                        ("rentalYield", zero); ("daysOnMarket", zero)])]
  | Composite.Schools s =>
      VDict [(s, VDict [("schools", VList []); ("total", zero)])]
  | Composite.Developments s =>
      VDict [(s, VDict [("developments", VList []); ("total", zero);
                        ("showing", zero)])]
  | Composite.MarketInsights s _ _ | Composite.PocketInsights s _ _
  | Composite.StreetInsights s _ _ | Composite.RiskFactors s _
  | Composite.Zoning s _ => VDict [(s, VDict [])]
  | Composite.SchoolCatchments s _ | Composite.SimilarSuburbs s _ =>
      VDict [(s, VList [])]
  end.

(** The five operations that substitute the first entry of the snapshot. *)
Definition substitutes (rq : Composite.request) : bool :=
  match rq with
  | Composite.Demographics _ | Composite.Amenities _
  | Composite.MarketTrends _ | Composite.Schools _
  | Composite.Developments _ => true
  | _ => false
  end.

End FileRepo.

(* ================================================================= *)
(** ** Numbers: [round], [int], [float] and fixed-point formatting *)

Module Num.

Definition Qltb (x y : Q) : bool := negb (Qle_bool y x).

(** Nearest integer, ties to the even one (Python's [round]). *)
Definition round_half_even (x : Q) : Z :=
  let f := Qfloor x in
  match ((x - inject_Z f) ?= (1 # 2))%Q with
  | Lt => f
  | Gt => (f + 1)%Z
  | Eq => if Z.even f then f else (f + 1)%Z
  end.

(** [10 ** n]. *)
Fixpoint scale (n : nat) : positive :=
  match n with O => 1%positive | S k => (10 * scale k)%positive end.

(** [round(x, n)], in lowest terms. *)
Definition round_to (n : nat) (x : Q) : Q :=
  Qred (round_half_even (x * inject_Z (Zpos (scale n))) # scale n).

(** Binary floating point.  The prices are Python floats, and so are the
    results of [-], [/], [*] and [round(x, n)] on them: each is a number
    the machine represents, near the exact result but not always equal to
    it ([(102675 - 100000) / 100000 * 100] falls just below 2.675 and
    rounds to 2.67).  Where the digits reported depend on it, the four
    operations are a parameter of the analytics.  All that is assumed of
    them is how they treat zero, as IEEE 754 arithmetic does.  A float is
    written as the rational it denotes, and what [round] returns for zero
    as [0]. *)
Record float_arith : Type := {
  fsub : Q -> Q -> Q;
  fdiv : Q -> Q -> Q;
  fmul : Q -> Q -> Q;
  fround : nat -> Q -> Q;
  fsub_same : forall x y, x == y -> fsub x y == 0;
  fdiv_zero : forall x y, x == 0 -> ~ y == 0 -> fdiv x y == 0;
  fmul_zero : forall x y, x == 0 -> fmul x y == 0;
  fround_zero : forall n x, x == 0 -> fround n x = 0
}.

(** Arithmetic without rounding errors: the operations of [Q], and
    [round_to]. *)
Definition exact_arith : float_arith.
Proof.
  refine {| fsub := Qminus; fdiv := Qdiv; fmul := Qmult; fround := round_to |}.
  - intros x y E. rewrite E. ring.
  - intros x y E N. rewrite E. field. exact N.
  - intros x y E. rewrite E. ring.
  - intros n x E. unfold round_to, round_half_even.
    assert (Z : x * inject_Z (Zpos (scale n)) == 0) by (rewrite E; ring).
    rewrite (Qfloor_comp _ _ Z). change (Qfloor 0) with 0%Z.
    assert (C : (x * inject_Z (Zpos (scale n)) - inject_Z 0 ?= 1 # 2)
                = (0 - inject_Z 0 ?= 1 # 2)).
    { apply Qcompare_comp; [now rewrite Z | reflexivity]. }
    rewrite C. apply (Qred_complete (0 # scale n) 0). reflexivity.
Defined.

(** [int(x)]: truncation towards zero. *)
Definition py_int (x : Q) : Z :=
  if Qle_bool 0 x then Qfloor x else Qceiling x.

(** [float(v)].  Parsing a string as a number is outside the embedding. *)
Definition py_float (v : value) : result Q :=
  match v with
  | VNum q => Ok q
  | VBool b => Ok (if b then 1 else 0)
  | VStr _ => Raise Unmodelled
  | _ => Raise TypeError
  end.

Definition digits (n : Z) : string :=
  NilZero.string_of_uint (N.to_uint (Z.to_N n)).

Fixpoint pad_left (width : nat) (s : string) : string :=
  if (Nat.leb width (String.length s)) then s
  else match width with
       | O => s
       | S w => pad_left w (String "0" s)
       end.

(** [f"{x:.nf}"] for a non-negative [x]. *)
Definition format_fixed (n : nat) (x : Q) : string :=
  let r := round_half_even (x * inject_Z (Zpos (scale n))) in
  let ip := (r / Zpos (scale n))%Z in
  let fp := (r mod Zpos (scale n))%Z in
  match n with
  | O => digits ip
  | S _ => digits ip ++ "." ++ pad_left n (digits fp)
  end.

End Num.
Import Num.

(* ================================================================= *)
(** ** The aggregation service: market analytics *)

Module Aggregator.

(** One element of a price series: the dict built by
    [_extract_price_series]. *)
Record PricePoint : Type := mk_point {
  date : string;
  suburb : Q;
  cr : Q;
  sa3 : Q
}.

(** *** [_extract_price_series] *)

Definition field (item : value) (k : string) (dflt : value) : value :=
  match item with
  | VDict d => match lookup k d with Some x => x | None => dflt end
  | _ => dflt
  end.

(** The test guarding [continue]: metric [sell_price], type [house]. *)
Definition wanted (item : value) : bool :=
  eq_str (field item "metric" VNone) "sell_price"
  && eq_str (field item "property_type" VNone) "house".

Definition seen (d : string) (price_by_date : list PricePoint) : bool :=
  existsb (fun p => (date p =? d)%string) price_by_date.

(** The conversions of one record: [float(...)] of the three values, then
    the date as a dict key.  A truthy date that is not a string is either
    unhashable ([TypeError]) or a number, which the embedding does not
    follow. *)
Definition point_of (item : value) : result PricePoint :=
  suburb_price <- py_float (field item "value" (VNum 0)) ;;
  cr_value <- get (field item "cr" (VDict [])) "value" (VNum 0) ;;
  cr_price <- py_float cr_value ;;
  sa3_value <- get (field item "sa3" (VDict [])) "value" (VNum 0) ;;
  sa3_price <- py_float sa3_value ;;
  match field item "date" (VStr "") with
  | VStr s => Ok (mk_point s suburb_price cr_price sa3_price)
  | VList _ | VDict _ => Raise TypeError
  | _ => Raise Unmodelled
  end.

(** The records that get past the three [continue] statements. *)
Definition kept (item : value) : bool :=
  is_dict item && wanted item && truthy (field item "date" (VStr "")).

(** One turn of the loop over [results].  [price_by_date] holds the values
    of the dict of the same name, in insertion order. *)
Definition extract_step (price_by_date : list PricePoint) (item : value)
  : result (list PricePoint) :=
  if negb (kept item) then Ok price_by_date
  else
    p <- point_of item ;;
    Ok (if seen (date p) price_by_date then price_by_date
        else (price_by_date ++ [p])%list).

Fixpoint extract_loop (price_by_date : list PricePoint) (results : list value)
  : result (list PricePoint) :=
  match results with
  | [] => Ok price_by_date
  | item :: rest =>
      acc <- extract_step price_by_date item ;;
      extract_loop acc rest
  end.

(** [sorted(..., key=lambda x: x['date'])]: a stable sort on the date
    strings. *)
Fixpoint insert_by_date (p : PricePoint) (l : list PricePoint)
  : list PricePoint :=
  match l with
  | [] => [p]
  | q :: l' =>
      if (date p <=? date q)%string then p :: q :: l'
      else q :: insert_by_date p l'
  end.

Fixpoint sorted_by_date (l : list PricePoint) : list PricePoint :=
  match l with
  | [] => []
  | p :: l' => insert_by_date p (sorted_by_date l')
  end.

(** Iterating over something that is not a list: the keys of a dict and
    the characters of a string are not dicts, so every turn is skipped. *)
Definition _extract_price_series (results : value)
  : result (list PricePoint) :=
  match results with
  | VList l =>
      price_by_date <- extract_loop [] l ;;
      Ok (sorted_by_date price_by_date)
  | VDict _ | VStr _ => Ok []
  | _ => Raise TypeError
  end.

(** *** [_calculate_current_metrics] *)

Record metrics : Type := mk_metrics {
  price : Z;
  growth_1y : Q;
  growth_5y : Q;
  growth_total : Q
}.

(** [datetime - timedelta(days=n)] on the day number of a date: the
    result must not fall before [datetime.min]. *)
Definition minus_days (day n : Z) : result Z :=
  if (day - n <? 1)%Z then Raise OverflowError else Ok (day - n)%Z.

Section CurrentMetrics.

(** The float operations behind [-], [/], [*] and [round]. *)
Variable arith : float_arith.

(** [datetime.strptime(s, '%Y-%m-%d')], as the proleptic Gregorian day
    number of the date it parses ([ValueError] when it does not parse). *)
Variable strptime : string -> result Z.

(** The two [for ... break] loops: the first point on or after [since]
    with a positive price, else [dflt]. *)
Fixpoint scan_baseline (since : Z) (series : list PricePoint) (dflt : Q)
  : result Q :=
  match series with
  | [] => Ok dflt
  | data_point :: rest =>
      point_date <- strptime (date data_point) ;;
      if (since <=? point_date)%Z && Qltb 0 (suburb data_point)
      then Ok (suburb data_point)
      else scan_baseline since rest dflt
  end.

Definition growth (current_price base : Q) : Q :=
  if Qltb 0 base
  then fmul arith (fdiv arith (fsub arith current_price base) base) 100
  else 0.

Definition _calculate_current_metrics (series : list PricePoint)
  : result metrics :=
  match series with
  | [] => Ok (mk_metrics 0 0 0 0)
  | first :: _ =>
      let latest := last series first in
      let current_price := suburb latest in
      current_date <- strptime (date latest) ;;
      one_year_ago <- minus_days current_date 365 ;;
      five_years_ago <- minus_days current_date (365 * 5) ;;
      price_1y_ago <- scan_baseline one_year_ago series current_price ;;
      price_5y_ago <- scan_baseline five_years_ago series current_price ;;
      let price_earliest :=
        if Qltb 0 (suburb first) then suburb first else current_price in
      Ok (mk_metrics (py_int current_price)
            (fround arith 2 (growth current_price price_1y_ago))
            (fround arith 2 (growth current_price price_5y_ago))
            (fround arith 2 (growth current_price price_earliest)))
  end.

End CurrentMetrics.

(** *** [_calculate_regional_comparison] *)

Record region : Type := mk_region {
  region_price : Z;
  difference : Q;
  status : string
}.

Record comparison : Type := mk_comparison {
  cmp_cr : region;
  cmp_sa3 : region
}.

Definition region_diff (suburb_price region_value : Q) : Q :=
  if Qltb 0 region_value
  then (suburb_price - region_value) / region_value * 100 else 0.

Definition below_or_above (diff : Q) : string :=
  if Qltb diff 0 then "below" else "above".

Definition _calculate_regional_comparison (series : list PricePoint)
  : comparison :=
  match series with
  | [] => mk_comparison (mk_region 0 0 "below") (mk_region 0 0 "below")
  | first :: _ =>
      let latest := last series first in
      let suburb_price := suburb latest in
      let cr_price := cr latest in
      let sa3_price := sa3 latest in
      let cr_diff := region_diff suburb_price cr_price in
      let sa3_diff := region_diff suburb_price sa3_price in
      mk_comparison
        (mk_region (py_int cr_price) (round_to 1 cr_diff) (below_or_above cr_diff))
        (mk_region (py_int sa3_price) (round_to 1 sa3_diff) (below_or_above sa3_diff))
  end.

(** *** [_calculate_volatility] *)

Definition positive_prices (series : list PricePoint) : list Q :=
  map suburb (filter (fun p => Qltb 0 (suburb p)) series).

Definition total (xs : list Q) : Q := fold_right Qplus 0 xs.

Definition count (xs : list Q) : Q := inject_Z (Z.of_nat (List.length xs)).

(** [statistics.mean]. *)
Definition mean (xs : list Q) : Q := total xs / count xs.

Definition sum_sq_dev (xs : list Q) : Q :=
  total (map (fun x => (x - mean xs) * (x - mean xs)) xs).

(** [statistics.variance]: the sample variance, with [n - 1] degrees of
    freedom. *)
Definition variance (xs : list Q) : Q := sum_sq_dev xs / (count xs - 1).

(** [statistics.stdev]: the square root of the sample variance. *)
Definition stdev (xs : list Q) : R := sqrt (Q2R (variance xs)).

Definition _calculate_volatility (prices : list Q) : R :=
  if (List.length prices <? 2)%nat then 0%R
  else if Qeq_bool (mean prices) 0 then 0%R
  else (stdev prices / Q2R (mean prices))%R.

(** The comparisons [volatility < t] and [volatility > t] against a
    rational bound are decided on squares, without the square root. *)
Definition volatility_ltb (prices : list Q) (t : Q) : bool :=
  if (List.length prices <? 2)%nat then Qltb 0 t
  else
    let m := mean prices in
    let v := variance prices in
    if Qeq_bool m 0 then Qltb 0 t
    else if Qltb 0 m then Qltb 0 t && Qltb v (t * t * (m * m))
    else Qltb 0 t || Qltb (t * t * (m * m)) v.

Definition volatility_gtb (prices : list Q) (t : Q) : bool :=
  if (List.length prices <? 2)%nat then Qltb t 0
  else
    let m := mean prices in
    let v := variance prices in
    if Qeq_bool m 0 then Qltb t 0
    else if Qltb 0 m then Qltb t 0 || Qltb (t * t * (m * m)) v
    else Qltb t 0 && Qltb v (t * t * (m * m)).

(** *** [_detect_trend] *)

Definition _detect_trend (recent_series : list PricePoint) : string :=
  if (List.length recent_series <? 2)%nat then "stable"
  else
    let prices := positive_prices recent_series in
    match prices with
    | first_price :: _ :: _ =>
        let last_price := last prices first_price in
        let change_pct :=
          if Qltb 0 first_price
          then (last_price - first_price) / first_price * 100 else 0 in
        if Qltb 2 change_pct then "rising"
        else if Qltb change_pct (-2) then "declining"
        else "stable"
    | _ => "stable"
    end.

(** *** [_calculate_investment_score] *)

Record analysis : Type := mk_analysis {
  score : Q;
  volatility : string;
  trend : string;
  insights : list string
}.

(** [min(a, b)]: the first of the smallest. *)
Definition py_min (a b : Q) : Q := if Qltb b a then b else a.

(** [series[-6:] if len(series) >= 6 else series]. *)
Definition recent_data (series : list PricePoint) : list PricePoint :=
  if (6 <=? List.length series)%nat
  then skipn (List.length series - 6) series else series.

Definition growth_ratio (series : list PricePoint) : Q :=
  match series with
  | [] => 1
  | first :: _ =>
      if Qltb 0 (suburb first)
      then suburb (last series first) / suburb first else 1
  end.

Definition growth_score (series : list PricePoint) : Q :=
  py_min (growth_ratio series) 3 * 3.33.

Definition value_score (cr_diff : Q) : Q :=
  if Qltb cr_diff (-10) then 10
  else if Qltb cr_diff (-5) then 8
  else if Qltb cr_diff 0 then 6
  else 4.

Definition stability_score (prices : list Q) : Q :=
  if volatility_ltb prices 0.1 then 10
  else if volatility_ltb prices 0.15 then 7
  else 5.

Definition value_insight (cr_diff : Q) : list string :=
  if Qltb cr_diff (-10) then
    ["Excellent value - " ++ format_fixed 1 (Qabs cr_diff)
       ++ "% below regional average"]
  else if Qltb cr_diff (-5) then
    ["Good value - " ++ format_fixed 1 (Qabs cr_diff)
       ++ "% below regional average"]
  else [].

Definition trend_insight (t : string) : list string :=
  if (t =? "rising")%string then ["Positive price momentum in recent months"]
  else if (t =? "declining")%string then ["Price declining in recent months"]
  else [].

Definition volatility_insight (prices : list Q) : list string :=
  if volatility_ltb prices 0.1 then ["Stable market with low volatility"]
  else if volatility_gtb prices 0.2 then ["High price volatility - higher risk"]
  else [].

Definition growth_insight (ratio : Q) : list string :=
  if Qltb 2 ratio then
    ["Strong long-term growth of " ++ format_fixed 0 ((ratio - 1) * 100) ++ "%"]
  else [].

Definition volatility_bucket (prices : list Q) : string :=
  if volatility_ltb prices 0.15 then "low"
  else if volatility_ltb prices 0.25 then "medium"
  else "high".

Definition _calculate_investment_score (series : list PricePoint)
    (cmp : comparison) : analysis :=
  match series with
  | [] => mk_analysis 0 "low" "stable" []
  | _ :: _ =>
      let prices := positive_prices series in
      let t := _detect_trend (recent_data series) in
      let cr_diff := difference (cmp_cr cmp) in
      let total_score :=
        growth_score series * 0.4 + value_score cr_diff * 0.3
        + stability_score prices * 0.3 in
      mk_analysis (round_to 1 total_score)
        (volatility_bucket prices)
        t
        (value_insight cr_diff ++ trend_insight t
           ++ volatility_insight prices ++ growth_insight (growth_ratio series))%list
  end.

(** *** [_transform_market_trends_data] and [get_market_trends] *)

Definition num (z : Z) : value := VNum (inject_Z z).

Definition point_value (p : PricePoint) : value :=
  VDict [("date", VStr (date p)); ("suburb", VNum (suburb p));
         ("cr", VNum (cr p)); ("sa3", VNum (sa3 p))].

Definition region_value (r : region) : value :=
  VDict [("price", num (region_price r)); ("difference", VNum (difference r));
         ("status", VStr (status r))].

Definition comparison_value (c : comparison) : value :=
  VDict [("cr", region_value (cmp_cr c)); ("sa3", region_value (cmp_sa3 c))].

Definition no_growth : value :=
  VDict [("1year", num 0); ("5year", num 0); ("total", num 0)].

Definition no_comparison : value :=
  VDict [("cr", VDict [("price", num 0); ("difference", num 0);
                       ("status", VStr "below")]);
         ("sa3", VDict [("price", num 0); ("difference", num 0);
                        ("status", VStr "below")])].

Definition no_analytics : value :=
  VDict [("volatility", VStr "low"); ("trend", VStr "stable");
         ("insights", VList [])].

(** The structure returned when there is no ["results"] key. *)
Definition trends_without_results : value :=
  VDict [("priceHistory", VList []); ("currentPrice", num 0);
         ("priceGrowth", no_growth); ("regionalComparison", no_comparison);
         ("investmentScore", num 0); ("analytics", no_analytics)].

(** The structure returned when no price point could be extracted. *)
Definition trends_without_history : value :=
  VDict [("priceHistory", VList []); ("rentHistory", VList []);
         ("currentPrice", num 0);
         ("priceGrowth", no_growth); ("regionalComparison", no_comparison);
         ("investmentScore", num 0); ("analytics", no_analytics)].

(** [results[0]] when [results] is a non-empty list whose first element
    is a list, else [results]. *)
Definition unnest (results : value) : value :=
  match results with
  | VList (VList inner :: _) => VList inner
  | _ => results
  end.

(** [k in v] guarded by [v] being truthy, as in [if not v or k not in v]. *)
Definition truthy_with (v : value) (k : string) : result bool :=
  if truthy v then contains v k else Ok false.

Section MarketTrends.

Variable arith : float_arith.
Variable strptime : string -> result Z.

Definition _transform_market_trends_data (raw_data : value) : result value :=
  has_results <- truthy_with raw_data "results" ;;
  if negb has_results then Ok trends_without_results
  else
    results <- getitem raw_data "results" ;;
    price_history <- _extract_price_series (unnest results) ;;
    match price_history with
    | [] => Ok trends_without_history
    | _ :: _ =>
        current_data <- _calculate_current_metrics arith strptime price_history ;;
        let regional_comparison := _calculate_regional_comparison price_history in
        let investment_analysis :=
          _calculate_investment_score price_history regional_comparison in
        Ok (VDict
          [("priceHistory", VList (map point_value price_history));
           ("rentHistory", VList []);
           ("currentPrice", num (price current_data));
           ("priceGrowth",
              VDict [("1year", VNum (growth_1y current_data));
                     ("5year", VNum (growth_5y current_data));
                     ("total", VNum (growth_total current_data))]);
           ("regionalComparison", comparison_value regional_comparison);
           ("investmentScore", VNum (score investment_analysis));
           ("analytics",
              VDict [("volatility", VStr (volatility investment_analysis));
                     ("trend", VStr (trend investment_analysis));
                     ("insights",
                        VList (map VStr (insights investment_analysis)))])])
    end.

(** The body of [get_market_trends] once [data] has been fetched from the
    repository. *)
Definition get_market_trends (data : value) (suburb_id : string)
  : result value :=
  present <- truthy_with data suburb_id ;;
  if negb present then Ok data
  else
    raw_data <- getitem data suburb_id ;;
    frontend <- contains raw_data "priceHistory" ;;
    if frontend then Ok data
    else
      transformed <- _transform_market_trends_data raw_data ;;
      Ok (VDict [(suburb_id, transformed)]).

End MarketTrends.

(** *** [_transform_demographics_data] and [get_demographics] *)

(** [round(v * k, 1)] for a number [v]; any other operand ends in a
    [TypeError], at the product or at [round]. *)
Definition scaled_round (v : value) (k : Q) : result value :=
  match as_number v with
  | Some q => Ok (VNum (round_to 1 (q * k)))
  | None => Raise TypeError
  end.

Definition age_entry (age percentage : value) : value :=
  VDict [("age", age); ("population", num 0); ("percentage", percentage)].

Fixpoint age_loop (age_groups : list (value * value)) (brackets : list value)
  : result (list (value * value)) :=
  match brackets with
  | [] => Ok age_groups
  | bracket :: rest =>
      gender <- get bracket "gender" VNone ;;
      if eq_str gender "persons" then
        age <- get bracket "age" (VStr "") ;;
        proportion <- get bracket "proportion" (num 0) ;;
        percentage <- scaled_round proportion 100 ;;
        if hashable age
        then age_loop (upsert age (fun _ => age_entry age percentage) age_groups) rest
        else Raise TypeError
      else age_loop age_groups rest
  end.

Fixpoint ethnicities_loop (ethnicities : list value) : result (list value) :=
  match ethnicities with
  | [] => Ok []
  | eth :: rest =>
      name_dflt <- get eth "name" (VStr "") ;;
      name <- get eth "ethnicity" name_dflt ;;
      pct_dflt <- get eth "percentage" (num 0) ;;
      proportion <- get eth "proportion" pct_dflt ;;
      percentage <- scaled_round proportion 100 ;;
      rest' <- ethnicities_loop rest ;;
      Ok (VDict [("name", name); ("percentage", percentage)] :: rest')
  end.

(** [ethnicity_totals[eth_name] += proportion] over the items of one
    [ethnicity] dict. *)
Fixpoint add_proportions (totals : list (string * Q))
    (name : string) (proportion : Q) : list (string * Q) :=
  match totals with
  | [] => [(name, 0 + proportion)]
  | (n, t) :: rest =>
      if (n =? name)%string then (n, t + proportion) :: rest
      else (n, t) :: add_proportions rest name proportion
  end.

Fixpoint items_loop (totals : list (string * Q)) (items : list (string * value))
  : result (list (string * Q)) :=
  match items with
  | [] => Ok totals
  | (eth_name, proportion) :: rest =>
      match as_number proportion with
      | Some q => items_loop (add_proportions totals eth_name q) rest
      | None => Raise TypeError
      end
  end.

Fixpoint areas_loop (totals : list (string * Q)) (count : nat)
    (results : list value) : result (list (string * Q) * nat) :=
  match results with
  | [] => Ok (totals, count)
  | r :: rest =>
      has_eth <- contains r "ethnicity" ;;
      if has_eth then
        eth <- getitem r "ethnicity" ;;
        match eth with
        | VDict items =>
            totals' <- items_loop totals items ;;
            areas_loop totals' (S count) rest
        | _ => areas_loop totals count rest
        end
      else areas_loop totals count rest
  end.

(** [list.sort(key=..., reverse=True)]: stable, largest first. *)
Fixpoint insert_desc {A : Type} (key : A -> Q) (x : A) (l : list A) : list A :=
  match l with
  | [] => [x]
  | y :: l' =>
      if Qle_bool (key y) (key x) then x :: y :: l'
      else y :: insert_desc key x l'
  end.

Fixpoint sort_desc {A : Type} (key : A -> Q) (l : list A) : list A :=
  match l with
  | [] => []
  | x :: l' => insert_desc key x (sort_desc key l')
  end.

Definition average_pct (count : nat) (nt : string * Q) : string * Q :=
  (fst nt, round_to 1 (snd nt / inject_Z (Z.of_nat count) * 100)).

Definition ethnicity_entry (np : string * Q) : value :=
  VDict [("name", VStr (fst np)); ("percentage", VNum (snd np))].

Definition _transform_demographics_data (raw_data : value) : result value :=
  if negb (truthy raw_data) then Ok (VDict [])
  else
    has_age <- contains raw_data "age_brackets" ;;
    age_distribution <-
      (if has_age then
         brackets <- getitem raw_data "age_brackets" ;;
         items <- iterate brackets ;;
         groups <- age_loop [] items ;;
         Ok (map snd groups)
       else Ok []) ;;
    has_eth <- contains raw_data "ethnicities" ;;
    ethnicity <-
      (if has_eth then
         ethnicities <- getitem raw_data "ethnicities" ;;
         top <- slice_to 10 ethnicities ;;
         ethnicities_loop top
       else
         has_results <- contains raw_data "results" ;;
         if has_results then
           results <- getitem raw_data "results" ;;
           areas <- iterate results ;;
           tc <- areas_loop [] O areas ;;
           let (totals, count) := tc in
           if (0 <? count)%nat then
             Ok (map ethnicity_entry
                   (firstn 10 (sort_desc snd (map (average_pct count) totals))))
           else Ok []
         else Ok []) ;;
    Ok (VDict [("ageDistribution", VList age_distribution);
               ("ethnicity", VList ethnicity)]).

Definition get_demographics (data : value) (suburb_id : string)
  : result value :=
  present <- truthy_with data suburb_id ;;
  if negb present then Ok data
  else
    raw_data <- getitem data suburb_id ;;
    frontend <- contains raw_data "ageDistribution" ;;
    if frontend then Ok data
    else
      transformed <- _transform_demographics_data raw_data ;;
      Ok (VDict [(suburb_id, transformed)]).

(** *** [_transform_amenities_data] and [get_amenities] *)

Fixpoint tally (category_counts : list (value * nat)) (results : list value)
  : result (list (value * nat)) :=
  match results with
  | [] => Ok category_counts
  | item :: rest =>
      category <- get item "category" (VStr "Other") ;;
      if hashable category
      then tally (upsert category
                    (fun c => match c with Some n => S n | None => 1%nat end)
                    category_counts) rest
      else Raise TypeError
  end.

Definition of_nat (n : nat) : Q := inject_Z (Z.of_nat n).

Definition category_entry (total : nat) (cc : value * nat) : value :=
  VDict [("name", fst cc);
         ("count", VNum (of_nat (snd cc)));
         ("percentage",
            VNum (round_to 1 (if (0 <? total)%nat
                              then of_nat (snd cc) / of_nat total * 100
                              else 0)))].

Definition _transform_amenities_data (raw_data : value) : result value :=
  if negb (truthy raw_data)
  then Ok (VDict [("categories", VList []); ("total", num 0)])
  else
    has_results <- contains raw_data "results" ;;
    if has_results then
      results <- getitem raw_data "results" ;;
      items <- iterate results ;;
      category_counts <- tally [] items ;;
      total <- len results ;;
      Ok (VDict
        [("categories",
            VList (map (category_entry total)
                     (sort_desc (fun cc => of_nat (snd cc)) category_counts)));
         ("total", VNum (of_nat total))])
    else Ok raw_data.

(** The test shared by [get_amenities], [get_schools] and
    [get_developments]: [key] holds a list that is empty or whose first
    element contains [marker]. *)
Definition frontend_list (raw_data : value) (key marker : string)
  : result bool :=
  has_key <- contains raw_data key ;;
  if has_key then
    entries <- getitem raw_data key ;;
    match entries with
    | VList [] => Ok true
    | VList (first :: _) => contains first marker
    | _ => Ok false
    end
  else Ok false.

Definition get_amenities (data : value) (suburb_id : string) : result value :=
  present <- truthy_with data suburb_id ;;
  if negb present then Ok data
  else
    raw_data <- getitem data suburb_id ;;
    frontend <- frontend_list raw_data "categories" "name" ;;
    if frontend then Ok data
    else
      transformed <- _transform_amenities_data raw_data ;;
      Ok (VDict [(suburb_id, transformed)]).

(** *** [_transform_schools_data] and [get_schools] *)

Definition optional (item : list (string * value)) (source target : string)
  : list (string * value) :=
  match lookup source item with
  | Some v => [(target, v)]
  | None => []
  end.

(** The two fields derived from ["naplan"]; the rating is [naplan * 5]
    rounded to one decimal. *)
Definition naplan_fields (item : list (string * value))
  : result (list (string * value)) :=
  match lookup "naplan" item with
  | Some v =>
      rating <- scaled_round v 5 ;;
      Ok [("naplanScore", v); ("rating", rating)]
  | None => Ok []
  end.

Definition students_field (item : value) : result (list (string * value)) :=
  let boys := field item "boys" (num 0) in
  let girls := field item "girls" (num 0) in
  if truthy boys || truthy girls then
    total <- add boys girls ;;
    Ok [("students", VDict [("boys", boys); ("girls", girls); ("total", total)])]
  else Ok [].

Definition school_entry (item : value) : result value :=
  match item with
  | VDict d =>
      naplan <- naplan_fields d ;;
      students <- students_field item ;;
      Ok (VDict
        ([("name", field item "name" (VStr ""));
          ("type", field item "school_level_type" (VStr "Unknown"));
          ("sector", field item "school_sector_type" (VStr "Unknown"))]
         ++ naplan
         ++ optional d "naplan_rank" "naplanRank"
         ++ optional d "socioeconomic" "socioeconomicScore"
         ++ optional d "socioeconomic_rank" "socioeconomicRank"
         ++ optional d "attendance_rate" "attendanceRate"
         ++ students)%list)
  | _ => Raise TypeError
  end.

Fixpoint schools_loop (results : list value) : result (list value) :=
  match results with
  | [] => Ok []
  | item :: rest =>
      if is_dict item then
        school <- school_entry item ;;
        rest' <- schools_loop rest ;;
        Ok (school :: rest')
      else schools_loop rest
  end.

Definition _transform_schools_data (raw_data : value) : result value :=
  if negb (truthy raw_data)
  then Ok (VDict [("schools", VList []); ("total", num 0)])
  else
    has_results <- contains raw_data "results" ;;
    if has_results then
      results <- getitem raw_data "results" ;;
      items <- iterate results ;;
      schools <- schools_loop items ;;
      Ok (VDict [("schools", VList schools);
                 ("total", VNum (of_nat (List.length schools)))])
    else Ok raw_data.

Definition get_schools (data : value) (suburb_id : string) : result value :=
  present <- truthy_with data suburb_id ;;
  if negb present then Ok data
  else
    raw_data <- getitem data suburb_id ;;
    frontend <- frontend_list raw_data "schools" "name" ;;
    if frontend then Ok data
    else
      transformed <- _transform_schools_data raw_data ;;
      Ok (VDict [(suburb_id, transformed)]).

(** *** [_transform_developments_data] and [get_developments] *)

(** [item.get(k1, item.get(k2, dflt))] and its three-key form. *)
Definition prefer (item : value) (keys : list string) (dflt : value) : value :=
  fold_right (fun k d => field item k d) dflt keys.

Definition development_entry (idx : nat) (item : value) : value :=
  VDict
    [("id", field item "id" (VStr ("dev-" ++ digits (Z.of_nat idx))));
     ("name", prefer item ["description"; "name"]
                (VStr "Development Application"));
     ("type", prefer item ["category"; "development_type"] (VStr "Residential"));
     ("status", field item "status" (VStr "Unknown"));
     ("units", field item "units" (num 0));
     ("address", prefer item ["area_name"; "address"] (VStr ""));
     ("applicant", field item "applicant" (VStr "Unknown"));
     ("submittedDate",
        prefer item ["date"; "lodgement_date"; "submitted_date"] (VStr ""))].

(** The loop over [enumerate(results[:50])], from index [idx] on. *)
Fixpoint developments_loop (idx : nat) (results : list value) : list value :=
  match results with
  | [] => []
  | item :: rest =>
      if is_dict item
      then development_entry idx item :: developments_loop (S idx) rest
      else developments_loop (S idx) rest
  end.

Definition _transform_developments_data (raw_data : value) : result value :=
  if negb (truthy raw_data)
  then Ok (VDict [("developments", VList []); ("total", num 0);
                  ("showing", num 0)])
  else
    has_results <- contains raw_data "results" ;;
    if has_results then
      results <- getitem raw_data "results" ;;
      shown <- slice_to 50 results ;;
      let developments := developments_loop 0 shown in
      total <- len results ;;
      Ok (VDict [("developments", VList developments);
                 ("total", VNum (of_nat total));
                 ("showing", VNum (of_nat (List.length developments)))])
    else Ok raw_data.

Definition get_developments (data : value) (suburb_id : string)
  : result value :=
  present <- truthy_with data suburb_id ;;
  if negb present then Ok data
  else
    raw_data <- getitem data suburb_id ;;
    frontend <- frontend_list raw_data "developments" "id" ;;
    if frontend then Ok data
    else
      transformed <- _transform_developments_data raw_data ;;
      Ok (VDict [(suburb_id, transformed)]).

(** *** The five canonicalisations, by domain *)

(** The shape the five [get_] functions above share: pass [data] through
    when the identifier is absent or its entry is already in frontend
    format, else transform the entry. *)
Definition get_with (frontend : value -> result bool)
    (transform : value -> result value) (data : value) (suburb_id : string)
  : result value :=
  present <- truthy_with data suburb_id ;;
  if negb present then Ok data
  else
    raw_data <- getitem data suburb_id ;;
    is_frontend <- frontend raw_data ;;
    if is_frontend then Ok data
    else
      transformed <- transform raw_data ;;
      Ok (VDict [(suburb_id, transformed)]).

Inductive domain : Type :=
| DemographicsDomain
| AmenitiesDomain
| SchoolsDomain
| DevelopmentsDomain
| MarketTrendsDomain.

Definition canonicalize (arith : float_arith) (strptime : string -> result Z)
    (dom : domain) (suburb_id : string) (data : value) : result value :=
  match dom with
  | DemographicsDomain => get_demographics data suburb_id
  | AmenitiesDomain => get_amenities data suburb_id
  | SchoolsDomain => get_schools data suburb_id
  | DevelopmentsDomain => get_developments data suburb_id
  | MarketTrendsDomain => get_market_trends arith strptime data suburb_id
  end.

End Aggregator.

(* ================================================================= *)
(** ** A calendar for the examples *)

(** The analytics are parametric in [strptime].  The examples instantiate
    it with this reader of zero-padded [YYYY-MM-DD] dates, which returns
    the proleptic Gregorian day number ([date.toordinal]). *)

Module Calendar.

Definition is_leap (y : Z) : bool :=
  ((y mod 4 =? 0) && (negb (y mod 100 =? 0) || (y mod 400 =? 0)))%Z.

Definition days_before_year (y : Z) : Z :=
  let p := (y - 1)%Z in (p * 365 + p / 4 - p / 100 + p / 400)%Z.

Definition days_in_month (y m : Z) : Z :=
  (if m =? 2 then (if is_leap y then 29 else 28)
   else if (m =? 4) || (m =? 6) || (m =? 9) || (m =? 11) then 30
   else 31)%Z.

Fixpoint days_before_month (y : Z) (m : nat) : Z :=
  match m with
  | O => 0
  | S k =>
      match k with
      | O => 0
      | S _ => (days_before_month y k + days_in_month y (Z.of_nat k))%Z
      end
  end.

Definition digit (c : ascii) : option Z :=
  let n := nat_of_ascii c in
  if (48 <=? n)%nat && (n <=? 57)%nat then Some (Z.of_nat (n - 48)) else None.

Fixpoint number (acc : Z) (cs : list ascii) : option Z :=
  match cs with
  | [] => Some acc
  | c :: rest =>
      match digit c with
      | Some d => number (acc * 10 + d)%Z rest
      | None => None
      end
  end.

Definition ordinal (y m d : Z) : result Z :=
  if ((1 <=? y) && (1 <=? m) && (m <=? 12) && (1 <=? d)
      && (d <=? days_in_month y m))%Z
  then Ok (days_before_year y + days_before_month y (Z.to_nat m) + d)%Z
  else Raise ValueError.

Definition iso_strptime (s : string) : result Z :=
  match list_ascii_of_string s with
  | [y1; y2; y3; y4; "-"%char; m1; m2; "-"%char; d1; d2] =>
      match number 0 [y1; y2; y3; y4], number 0 [m1; m2], number 0 [d1; d2] with
      | Some y, Some m, Some d => ordinal y m d
      | _, _, _ => Raise ValueError
      end
  | _ => Raise ValueError
  end.

End Calendar.

(* ================================================================= *)
(** ** Reference definitions, after the words of the specification *)

Module Spec.

Import Aggregator.

(** Population variance and population coefficient of variation: the
    squared deviations are divided by the number of values. *)
Definition population_variance (xs : list Q) : Q := sum_sq_dev xs / count xs.

Definition population_cv (xs : list Q) : R :=
  (sqrt (Q2R (population_variance xs)) / Q2R (mean xs))%R.

(** Sample coefficient of variation: the squared deviations are divided
    by one less than the number of values. *)
Definition sample_cv (xs : list Q) : R :=
  (sqrt (Q2R (sum_sq_dev xs / (count xs - 1))) / Q2R (mean xs))%R.

(** [(current - base) / base * 100] rounded to 2 decimals, with a zero
    base giving 0. *)
Definition growth_pct (arith : float_arith) (current base : Q) : Q :=
  if Qeq_bool base 0 then 0
  else fround arith 2
         (fmul arith (fdiv arith (fsub arith current base) base) 100).

(** The baseline of a growth figure over [window] days: the value of the
    first point, from the earliest on, dated on or after the last day
    minus [window] and priced above 0; failing that, the current price. *)
Definition eligible (day_of : PricePoint -> Z) (latest : PricePoint)
    (window : Z) (p : PricePoint) : bool :=
  (day_of latest - window <=? day_of p)%Z && Qltb 0 (suburb p).

Definition baseline (day_of : PricePoint -> Z) (series : list PricePoint)
    (latest : PricePoint) (window : Z) : Q :=
  match find (eligible day_of latest window) series with
  | Some p => suburb p
  | None => suburb latest
  end.

(** The key-resolution policy, for one operation of the local adapter: on
    a non-empty snapshot without the requested identifier, the answer is
    the first entry of the snapshot under the requested identifier. *)
Definition substitution_policy (rq : Composite.request) : Prop :=
  forall (fs : FileRepo.file_system) (f k : string) (v : value)
         (rest : list (string * value)),
    FileRepo.snapshot_of rq = Some f ->
    fs f = FileRepo.Parsed (VDict ((k, v) :: rest)) ->
    lookup (Composite.subject (Composite.args_of rq)) ((k, v) :: rest) = None ->
    FileRepo.perform fs rq
    = Ok (VDict [(Composite.subject (Composite.args_of rq), v)]).

(** The date a raw record carries. *)
Definition record_date (item : value) : value := field item "date" (VStr "").

(** [p] is the point of the first kept record of [items] that carries its
    date. *)
Definition first_kept_record (items : list value) (p : PricePoint) : Prop :=
  exists pre item post,
    items = (pre ++ item :: post)%list
    /\ kept item = true
    /\ point_of item = Ok p
    /\ forall o, In o pre -> kept o = true -> record_date o <> VStr (date p).

(** Every kept record of [items] has its date among the points. *)
Definition represented (items : list value) (points : list PricePoint) : Prop :=
  forall item, In item items -> kept item = true ->
    exists p, In p points /\ record_date item = VStr (date p).

(** What holds of [price_by_date] once the records [processed] have gone
    through the loop of [_extract_price_series]. *)
Definition loop_invariant (processed : list value) (acc : list PricePoint)
  : Prop :=
  NoDup (map date acc)
  /\ (forall p, In p acc -> first_kept_record processed p)
  /\ represented processed acc.

(** Ascending order on the date strings, weak and strict. *)
Definition date_le (p q : PricePoint) : Prop :=
  (date p <=? date q)%string = true.

Definition date_lt (p q : PricePoint) : Prop :=
  (date p <? date q)%string = true.

(** The price multiple of a series: last value over first value. *)
Definition multiple (first latest : PricePoint) : Q :=
  suburb latest / suburb first.

End Spec.

(* ================================================================= *)
(** ** Concrete inputs used by the examples *)

Module Examples.

Import Composite.

(** A remote adapter that always answers, counting the requests it has
    served in the world. *)
Definition answer : value := VDict [("results", VList [VStr "x"])].

Definition api_up : repository nat :=
  Build_repository (fun _ _ w => (Ok answer, S w)).

(** A remote adapter whose every method raises. *)
Definition api_down : repository nat :=
  Build_repository (fun _ _ w => (Raise (OtherError "connection refused"), S w)).

(** A local adapter without data. *)
Definition file_empty : repository nat :=
  Build_repository (fun _ _ w => (Ok VNone, w)).

(** A snapshot holding one suburb, and a file system in which every
    snapshot file is that one. *)
Definition carlton : value := VDict [("population", VNum 18535)].

Definition snapshot : list (string * value) := [("carlton-3053", carlton)].

Definition fs_carlton : FileRepo.file_system :=
  fun _ => FileRepo.Parsed (VDict snapshot).

Definition fs_missing : FileRepo.file_system := fun _ => FileRepo.Missing.

(** A raw [sell_price]/[house] record. *)
Definition record (d : string) (v c s : Q) : value :=
  VDict [("metric", VStr "sell_price"); ("property_type", VStr "house");
         ("date", VStr d); ("value", VNum v);
         ("cr", VDict [("value", VNum c)]); ("sa3", VDict [("value", VNum s)])].

Definition tripled : list Aggregator.PricePoint :=
  [Aggregator.mk_point "2015-06-30" 100 0 0;
   Aggregator.mk_point "2020-06-30" 300 0 0].

Definition zero_start : list Aggregator.PricePoint :=
  [Aggregator.mk_point "2015-06-30" 0 0 0;
   Aggregator.mk_point "2020-06-30" 300 0 0].

Definition negative_start : list Aggregator.PricePoint :=
  [Aggregator.mk_point "2015-06-30" (-100) 0 0;
   Aggregator.mk_point "2020-06-30" 300 0 0].

Definition two_years : list Aggregator.PricePoint :=
  [Aggregator.mk_point "2019-01-01" 400000 0 0;
   Aggregator.mk_point "2020-06-01" 500000 0 0;
   Aggregator.mk_point "2021-01-01" 550000 520000 0].

Definition day_of (p : Aggregator.PricePoint) : Z :=
  match Calendar.iso_strptime (Aggregator.date p) with
  | Ok d => d
  | Raise _ => 0
  end.

Definition raw_trends : value :=
  VDict [("carlton-3053",
          VDict [("results",
                  VList [VList [record "2021-01-01" 550000 520000 530000;
                                record "2020-01-01" 500000 480000 490000]])])].

End Examples.

(* ================================================================= *)
(** ** The aggregation service: suburb details, summaries, rankings *)

Module Service.

Import Aggregator.

(** *** The suburb name of an identifier *)

(** [str.split], [str.isdigit] and [str.title] are followed on ASCII
    strings; an identifier with other bytes is outside the embedding. *)
Definition is_ascii (s : string) : bool :=
  forallb (fun c => (nat_of_ascii c <? 128)%nat) (list_ascii_of_string s).

(** [s.split(sep)]: the pieces between the separators, at least one. *)
Fixpoint split (sep : ascii) (s : string) : list string :=
  match s with
  | EmptyString => [EmptyString]
  | String c s' =>
      if Ascii.eqb c sep then EmptyString :: split sep s'
      else
        match split sep s' with
        | piece :: pieces => String c piece :: pieces
        | [] => [String c EmptyString]
        end
  end.

Definition is_digit (c : ascii) : bool :=
  let n := nat_of_ascii c in (48 <=? n)%nat && (n <=? 57)%nat.

Definition is_lower (c : ascii) : bool :=
  let n := nat_of_ascii c in (97 <=? n)%nat && (n <=? 122)%nat.

Definition is_upper (c : ascii) : bool :=
  let n := nat_of_ascii c in (65 <=? n)%nat && (n <=? 90)%nat.

(** [s.isdigit()]: not empty, digits only. *)
Definition isdigit (s : string) : bool :=
  negb (s =? "")%string && forallb is_digit (list_ascii_of_string s).

Definition upper_ascii (c : ascii) : ascii :=
  if is_lower c then ascii_of_nat (nat_of_ascii c - 32) else c.

(** [s.title()]: a character is upper-cased when the one before it is
    not a letter, lower-cased when it is. *)
Fixpoint title_from (previous_is_cased : bool) (s : string) : string :=
  match s with
  | EmptyString => EmptyString
  | String c s' =>
      String (if previous_is_cased then FileRepo.lower_ascii c else upper_ascii c)
        (title_from (is_lower c || is_upper c) s')
  end.

Definition title (s : string) : string := title_from false s.

(** The first lines of [_aggregate_suburb_data] (and the whole of
    [ApiSuburbRepository._extract_suburb_name]): drop a trailing all-digit
    token, join the tokens with spaces, title-case. *)
Definition name_parts (suburb_id : string) : list string :=
  let parts := split "-" suburb_id in
  if (1 <? List.length parts)%nat && isdigit (last parts EmptyString)
  then removelast parts else parts.

Definition suburb_name (suburb_id : string) : result string :=
  if is_ascii suburb_id
  then Ok (title (String.concat " " (name_parts suburb_id)))
  else Raise Unmodelled.

(** *** [_aggregate_suburb_data] and [get_suburb_details] *)

(** [int(v)].  Parsing a string as an integer is outside the embedding. *)
Definition int_of (v : value) : result Z :=
  match v with
  | VNum q => Ok (py_int q)
  | VBool b => Ok (if b then 1 else 0)%Z
  | VStr _ => Raise Unmodelled
  | _ => Raise TypeError
  end.

(** One turn of the loop over [market_results[0]]: the pair is
    ([medianHousePrice], [medianRent]). *)
Definition price_step (prices : Z * Z) (item : value) : result (Z * Z) :=
  if is_dict item then
    if eq_str (field item "metric" VNone) "sell_price" then
      house <- int_of (field item "value" (num 0)) ;;
      Ok (house, snd prices)
    else if eq_str (field item "metric" VNone) "rent_price" then
      rent <- int_of (field item "value" (num 0)) ;;
      Ok (fst prices, rent)
    else Ok prices
  else Ok prices.

Fixpoint price_loop (prices : Z * Z) (items : list value) : result (Z * Z) :=
  match items with
  | [] => Ok prices
  | item :: rest =>
      prices' <- price_step prices item ;;
      price_loop prices' rest
  end.

(** The state and postcode found in the info payload. *)
Definition merge_info (info_data : value) : result (value * value) :=
  has_information <- truthy_with info_data "information" ;;
  if has_information then
    info <- getitem info_data "information" ;;
    geo_div <- get info "geo_divisions" (VDict []) ;;
    state <- get geo_div "state" (VStr "") ;;
    postcode <- get geo_div "poa" (VStr "") ;;
    Ok (state, postcode)
  else Ok (VStr "", VStr "").

(** The summary payload is walked but nothing is taken from it. *)
Definition merge_summary (summary_data : value) : result unit :=
  has_results <- truthy_with summary_data "results" ;;
  if has_results then
    summary_results <- getitem summary_data "results" ;;
    Ok tt
  else Ok tt.

Definition merge_market (market_data : value) : result (Z * Z) :=
  has_results <- truthy_with market_data "results" ;;
  if has_results then
    market_results <- getitem market_data "results" ;;
    match market_results with
    | VList (VList (item :: items) :: _) => price_loop (0, 0)%Z (item :: items)
    | _ => Ok (0, 0)%Z
    end
  else Ok (0, 0)%Z.

Definition _aggregate_suburb_data (suburb_id : string)
    (info_data summary_data market_data : value) : result value :=
  name <- suburb_name suburb_id ;;
  geo <- merge_info info_data ;;
  _ <- merge_summary summary_data ;;
  prices <- merge_market market_data ;;
  Ok (VDict [("id", VStr suburb_id); ("name", VStr name);
             ("state", fst geo); ("postcode", snd geo);
             ("medianHousePrice", num (fst prices));
             ("medianRent", num (snd prices));
             ("population", num 0); ("medianAge", num 0);
             ("schoolsCount", num 0); ("amenitiesCount", num 0);
             ("developmentApps", num 0)]).

(** The body of [get_suburb_details] once the three payloads have been
    fetched. *)
Definition get_suburb_details (suburb_id : string)
    (info_data summary_data market_data : value) : result value :=
  if negb (truthy info_data) && negb (truthy summary_data)
     && negb (truthy market_data)
  then Ok VNone
  else _aggregate_suburb_data suburb_id info_data summary_data market_data.

(** *** [get_suburb_summary] and [get_street_rankings] *)

(** The body of [get_suburb_summary] once [data] has been fetched. *)
Definition get_suburb_summary (data : value) (suburb_id : string)
  : result value :=
  if negb (truthy data) then Ok VNone
  else
    present <- contains data suburb_id ;;
    if present then Ok data else Ok (VDict [(suburb_id, data)]).

(** The body of [get_street_rankings] once the street insights have been
    fetched. *)
Definition get_street_rankings (insights : value) (suburb_id : string)
  : result value :=
  present <- truthy_with insights suburb_id ;;
  if negb present then Ok (VList [])
  else
    raw_data <- get insights suburb_id (VDict []) ;;
    match raw_data with
    | VDict d =>
        match lookup "results" d with
        | Some (VList (VList [] :: _)) => Ok (VList [])
        | Some (VList (VList (x :: inner) :: _)) => Ok (VList (x :: inner))
        | Some (VList (x :: rest)) => Ok (VList (x :: rest))
        | _ => Ok (VList [])
        end
    | VList _ => Ok raw_data
    | _ => Ok (VList [])
    end.

End Service.

(* ================================================================= *)
(** ** The local adapter behind the coordinator *)

Module Wiring.

Import Composite.

(** Calling a method of the local adapter by name: absent keyword
    arguments take the defaults of the method's signature. *)
Definition flag (a : call_args) : bool :=
  match geojson a with Some b => b | None => true end.

Definition filter_of (o : option (option string)) : option string :=
  match o with Some x => x | None => None end.

Definition request_of (m : method) (a : call_args) : request :=
  match m with
  | M_search_suburbs => Search (subject a)
  | M_get_suburb_info => Info (subject a) (flag a)
  | M_get_suburb_summary => Summary (subject a)
  | M_get_demographics => Demographics (subject a)
  | M_get_amenities => Amenities (subject a)
  | M_get_market_trends => MarketTrends (subject a)
  | M_get_schools => Schools (subject a)
  | M_get_developments => Developments (subject a)
  | M_get_market_insights =>
      MarketInsights (subject a) (filter_of (metric a))
        (filter_of (property_type a))
  | M_get_pocket_insights =>
      PocketInsights (subject a) (flag a) (filter_of (property_type a))
  | M_get_street_insights =>
      StreetInsights (subject a) (flag a) (filter_of (property_type a))
  | M_get_risk_factors => RiskFactors (subject a) (flag a)
  | M_get_school_catchments => SchoolCatchments (subject a) (flag a)
  | M_get_zoning => Zoning (subject a) (flag a)
  | M_get_similar_suburbs => SimilarSuburbs (subject a) (flag a)
  | M_get_street_rankings =>
      StreetRankings (subject a) (filter_of (property_type a))
  end.

(** [FileSuburbRepository] as an adapter of the coordinator: it reads
    the file system [fs] and leaves the world as it is. *)
Definition file_repository {W : Type} (fs : FileRepo.file_system)
  : repository W :=
  Build_repository
    (fun m a w => (FileRepo.perform fs (request_of m a), w)).

(** The operations of the local adapter that answer with a dict keyed by
    the requested identifier. *)
Definition keyed (rq : request) : bool :=
  match rq with
  | Search _ | Info _ _ | Summary _ | StreetRankings _ _ => false
  | _ => true
  end.

End Wiring.

(* ================================================================= *)
(** ** Further reference definitions and inputs *)

Module Spec2.

Import Aggregator.

(** Keys that are pairwise different as Python compares them. *)
Definition distinct_keys {A : Type} (d : list (value * A)) : Prop :=
  ForallOrdPairs (fun x y => key_eqb (fst x) (fst y) = false) d.

(** Largest key first. *)
Definition descending {A : Type} (key : A -> Q) (l : list A) : Prop :=
  StronglySorted (fun x y => key y <= key x) l.

(** The raw record a price point comes from. *)
Definition to_record (p : PricePoint) : value :=
  Examples.record (date p) (suburb p) (cr p) (sa3 p).

(** The last [sell_price] (resp. [rent_price]) entry of a list. *)
Definition tagged (metric : string) (item : value) : bool :=
  is_dict item && eq_str (field item "metric" VNone) metric.

Definition last_tagged (metric : string) (items : list value) : option value :=
  find (tagged metric) (rev items).

(** The prices in another unit. *)
Definition scaled (k : Q) (xs : list Q) : list Q := map (Qmult k) xs.

(** An adapter outcome that the coordinator counts as "no data": an
    exception or a falsy value. *)
Definition silent (r : result value) : bool :=
  match r with
  | Ok v => negb (truthy v)
  | Raise _ => true
  end.

(** An adapter outcome that is an empty or absent result: [None], an
    empty list, an empty object. *)
Definition empty_answer (r : result value) : bool :=
  match r with
  | Ok v => negb (truthy v)
  | Raise _ => false
  end.

(** A value that holds no record: an empty list or object, or an object
    whose fields are all empty lists or zeros. *)
Definition holds_no_records (x : value) : bool :=
  match x with
  | VDict d => forallb (fun kv => negb (truthy (snd kv))) d
  | _ => negb (truthy x)
  end.

(** What a guarded operation of the coordinator answers when neither
    adapter has data. *)
Definition nothing (rq : Composite.request) : value :=
  match rq with
  | Composite.Search _ => VList []
  | _ => VNone
  end.

(** The fields of a development in the frontend format, in order. *)
Definition development_keys : list string :=
  ["id"; "name"; "type"; "status"; "units"; "address"; "applicant";
   "submittedDate"].

Definition keys_of (v : value) : option (list string) :=
  match v with VDict d => Some (map fst d) | _ => None end.

End Spec2.

Module Examples2.

Import Composite.

Definition suburbs_snapshot : FileRepo.file_system :=
  fun _ => FileRepo.Parsed
    (VDict [("suburbs",
             VList [VDict [("name", VStr "Carlton")];
                    VDict [("name", VStr "Carlton North")];
                    VDict [("name", VStr "Fitzroy")]])]).

Definition array_snapshot : FileRepo.file_system :=
  fun _ => FileRepo.Parsed (VList [VStr "carlton-3053"]).

Definition api_silent : repository nat :=
  Build_repository (fun _ _ w => (Ok VNone, S w)).

Definition file_answer : value := VDict [("carlton-3053", Examples.carlton)].

Definition file_up : repository nat :=
  Build_repository (fun _ _ w => (Ok file_answer, w)).

Definition rising : list Aggregator.PricePoint :=
  [Aggregator.mk_point "2020-01-01" 500000 520000 0;
   Aggregator.mk_point "2020-02-01" 0 0 0;
   Aggregator.mk_point "2020-03-01" 515001 520000 0].

Definition market_payload : value :=
  VDict [("results",
          VList [VList [VDict [("metric", VStr "sell_price"); ("value", VNum 800000)];
                        VDict [("metric", VStr "rent_price"); ("value", VNum 650)];
                        VDict [("metric", VStr "sell_price"); ("value", VNum 950000.7)]]])].

Definition amenities_payload : value :=
  VDict [("results",
          VList [VDict [("category", VStr "Cafe")];
                 VDict [("category", VStr "Park")];
                 VDict [("name", VStr "Corner shop")];
                 VDict [("category", VStr "Park")]])].

Definition developments_payload : value :=
  VDict [("results",
          VList [VDict [("description", VStr "Two dwellings")];
                 VStr "withdrawn";
                 VDict [("id", VStr "DA-7"); ("units", VNum 12)]])].

Definition demographics_payload : value :=
  VDict [("ethnicities",
          VList [VDict [("ethnicity", VStr "English"); ("proportion", VNum 0.25)];
                 VDict [("name", VStr "Chinese"); ("percentage", VNum 0.125)]])].

Definition schools_payload : value :=
  VDict [("results",
          VList [VDict [("name", VStr "Carlton Primary"); ("naplan", VNum 18.5)];
                 VNone;
                 VDict [("name", VStr "Princes Hill"); ("boys", VNum 300);
                        ("girls", VNum 310)]])].

Definition school_without_score : value :=
  VDict [("name", VStr "Carlton Primary"); ("naplan", VNone)].

Definition street_payload : value :=
  VDict [("carlton-3053",
          VDict [("results",
                  VList [VList [VDict [("street", VStr "Drummond Street")];
                                VDict [("street", VStr "Rathdowne Street")]]])])].

Definition summary_payload : value :=
  VDict [("summary", VStr "Inner-city suburb"); ("score", VNum 8)].

Definition info_payload : value :=
  VDict [("information",
          VDict [("geo_divisions",
                  VDict [("state", VStr "VIC"); ("poa", VStr "3053")])])].

End Examples2.

(* ================================================================= *)
(** * Properties *)

(** ** The fallback coordinator *)

Section CoordinatorFacts.

Import Composite.

Context {W : Type}.
Variables api_repo file_repo : repository W.

Local Abbreviation run rq w := (perform api_repo file_repo rq (w, [])).

Lemma file_fallback_run (m : method) (a : call_args) (w : W) (log : list event) :
  exists v w',
    file_fallback file_repo m a (w, log)
    = (Ok v, (w', (log ++ [FileCall m a])%list)).
Proof.
  unfold file_fallback, mbind, call_file, ret.
  destruct (invoke file_repo m a w) as [[v|e] w'].
  - destruct (truthy v); eauto.
  - eauto.
Qed.

(** [_try_api_then_file] always returns: one remote call, then at most
    one local call. *)
Lemma try_api_then_file_run (m : method) (a : call_args) (w : W) :
  exists v w' log,
    _try_api_then_file api_repo file_repo m a (w, []) = (Ok v, (w', log))
    /\ (log = [ApiCall m a] \/ log = [ApiCall m a; FileCall m a]).
Proof.
  unfold _try_api_then_file, mbind, call_api, ret.
  destruct (invoke api_repo m a w) as [[v|e] w1]; simpl.
  - destruct (truthy v).
    + eauto 6.
    + destruct (file_fallback_run m a w1 [ApiCall m a]) as (v' & w' & E).
      rewrite E. eauto 6.
  - destruct (file_fallback_run m a w1 [ApiCall m a]) as (v' & w' & E).
    rewrite E. eauto 6.
Qed.

Lemma try_api_then_file_hit (m : method) (a : call_args) (w w1 : W) (v : value) :
  invoke api_repo m a w = (Ok v, w1) ->
  truthy v = true ->
  _try_api_then_file api_repo file_repo m a (w, []) = (Ok v, (w1, [ApiCall m a])).
Proof.
  intros E T. unfold _try_api_then_file, mbind, call_api, ret.
  rewrite E. simpl. now rewrite T.
Qed.

(** In [_try_api_then_file] an exception of the remote adapter counts as
    "no data": the outcome is the one obtained had the adapter returned
    [None]. *)
Lemma remote_exception_is_no_data (m : method) (a : call_args) (w w1 : W)
    (e : exn) (log : list event) :
  invoke api_repo m a w = (Raise e, w1) ->
  _try_api_then_file api_repo file_repo m a (w, log)
  = _try_api_then_file (Build_repository (fun _ _ _ => (Ok VNone, w1)))
      file_repo m a (w, log).
Proof.
  intros E. unfold _try_api_then_file, mbind, call_api. simpl. now rewrite E.
Qed.

(** Likewise for the local adapter. *)
Lemma local_exception_is_no_data (m : method) (a : call_args) (w w1 : W)
    (e : exn) (log : list event) :
  invoke file_repo m a w = (Raise e, w1) ->
  file_fallback file_repo m a (w, log)
  = file_fallback (Build_repository (fun _ _ _ => (Ok VNone, w1))) m a (w, log).
Proof.
  intros E. unfold file_fallback, mbind, call_file. simpl. now rewrite E.
Qed.

(** Every operation but [get_street_rankings] goes through
    [_try_api_then_file]. *)
Lemma perform_guarded (rq : request) :
  is_street_rankings rq = false ->
  rq = Search (subject (args_of rq))
  \/ perform api_repo file_repo rq
     = _try_api_then_file api_repo file_repo (method_of rq) (args_of rq).
Proof.
  destruct rq; simpl; intros H; try discriminate; auto.
Qed.

(** Apart from [get_street_rankings], no operation of the coordinator
    raises, whatever the adapters do. *)
Lemma guarded_operations_never_raise (rq : request) (w : W) :
  is_street_rankings rq = false ->
  exists v, fst (run rq w) = Ok v.
Proof.
  intros H. destruct (perform_guarded rq H) as [E | E].
  - rewrite E. simpl. unfold search_suburbs, mbind.
    destruct (try_api_then_file_run M_search_suburbs
                (args1 (subject (args_of rq))) w) as (v & w' & log & R & _).
    rewrite R. destruct (truthy v); simpl; eauto.
  - rewrite E.
    destruct (try_api_then_file_run (method_of rq) (args_of rq) w)
      as (v & w' & log & R & _).
    rewrite R. simpl. eauto.
Qed.

Lemma street_rankings_log (s : string) (pt : option string) (w : W) :
  let a := mk_args s None None (Some pt) in
  let log := snd (snd (run (StreetRankings s pt) w)) in
  log = [ApiCall M_get_street_rankings a]
  \/ log = [ApiCall M_get_street_rankings a; FileCall M_get_street_rankings a].
Proof.
  simpl. unfold get_street_rankings, mbind, call_api, call_file, ret.
  destruct (invoke api_repo _ _ w) as [[v|e] w1]; simpl; auto.
  destruct (truthy v); simpl; auto.
  destruct (invoke file_repo _ _ w1) as [r w2]; simpl; auto.
Qed.

Lemma perform_log (rq : request) (w : W) :
  let log := snd (snd (run rq w)) in
  log = [ApiCall (method_of rq) (args_of rq)]
  \/ log = [ApiCall (method_of rq) (args_of rq);
            FileCall (method_of rq) (args_of rq)].
Proof.
  destruct (is_street_rankings rq) eqn:S.
  - destruct rq; try discriminate. apply street_rankings_log.
  - destruct (perform_guarded rq S) as [E | E].
    + rewrite E. simpl. unfold search_suburbs, mbind.
      destruct (try_api_then_file_run M_search_suburbs
                  (args1 (subject (args_of rq))) w) as (v & w' & log & R & L).
      rewrite R. destruct rq; try discriminate.
      destruct (truthy v); simpl; exact L.
    + rewrite E.
      destruct (try_api_then_file_run (method_of rq) (args_of rq) w)
        as (v & w' & log & R & L).
      rewrite R. simpl. exact L.
Qed.

Lemma perform_hit (rq : request) (w w1 : W) (v : value) :
  invoke api_repo (method_of rq) (args_of rq) w = (Ok v, w1) ->
  truthy v = true ->
  run rq w = (Ok v, (w1, [ApiCall (method_of rq) (args_of rq)])).
Proof.
  intros E T.
  destruct (is_street_rankings rq) eqn:S.
  - destruct rq; try discriminate. simpl in *.
    unfold get_street_rankings, mbind, call_api, ret.
    rewrite E. simpl. now rewrite T.
  - destruct (perform_guarded rq S) as [Q | Q].
    + rewrite Q. simpl. unfold search_suburbs, mbind.
      rewrite Q in E. simpl in E.
      rewrite (try_api_then_file_hit _ _ _ _ _ E T).
      rewrite T. destruct rq; try discriminate. reflexivity.
    + rewrite Q. now apply try_api_then_file_hit.
Qed.

(** C2. For every operation of the coordinator: at most one remote call
    and at most one local call are made; and when the remote adapter
    returns a non-empty (truthy) result, that result is returned and the
    local adapter is not called at all. *)
Theorem fallback_ordering (rq : request) (w : W) :
  (api_calls (snd (snd (run rq w))) <= 1)%nat
  /\ (file_calls (snd (snd (run rq w))) <= 1)%nat
  /\ forall v w1,
       invoke api_repo (method_of rq) (args_of rq) w = (Ok v, w1) ->
       truthy v = true ->
       fst (run rq w) = Ok v /\ file_calls (snd (snd (run rq w))) = 0%nat.
Proof.
  split; [|split].
  - destruct (perform_log rq w) as [L | L]; rewrite L; cbv; lia.
  - destruct (perform_log rq w) as [L | L]; rewrite L; cbv; lia.
  - intros v w1 E T. rewrite (perform_hit rq w w1 v E T). simpl. auto.
Qed.

End CoordinatorFacts.

(** C1. The definition of [get_street_rankings] in force calls the
    adapters outside any [try] block: when the remote adapter raises, the
    coordinator raises too, where the definition it replaces would have
    returned "no data". *)
Theorem street_rankings_propagates_exception :
  fst (Composite.perform Examples.api_down Examples.file_empty
         (Composite.StreetRankings "carlton-3053" None) (0%nat, []))
  = Raise (OtherError "connection refused")
  /\ fst (Composite.get_street_rankings_shadowed Examples.api_down
            Examples.file_empty "carlton-3053" None (0%nat, []))
     = Ok VNone.
Proof. split; reflexivity. Qed.

Lemma fallback_ordering_witness :
  fst (Composite.perform Examples.api_up Examples.file_empty
         (Composite.Demographics "carlton-3053") (0%nat, []))
  = Ok Examples.answer
  /\ Composite.file_calls
       (snd (snd (Composite.perform Examples.api_up Examples.file_empty
                    (Composite.Demographics "carlton-3053") (0%nat, []))))
     = 0%nat.
Proof.
  exact (proj2 (proj2 (fallback_ordering Examples.api_up Examples.file_empty
                         (Composite.Demographics "carlton-3053") 0%nat))
           Examples.answer 1%nat eq_refl eq_refl).
Defined.

(** ** The local adapter *)

Section FileRepoFacts.

Import Composite FileRepo.

Lemma load_unavailable (fs : file_system) (f : string) :
  unavailable (fs f) -> _load_file fs f = VNone.
Proof.
  unfold unavailable, _load_file. intros [E | [E | E]]; now rewrite E.
Qed.

Lemma entry_or_first_falsy (data : value) (id : string) (e : value) :
  truthy data = false -> entry_or_first data id e = Ok (VDict [(id, e)]).
Proof. intros T. unfold entry_or_first. now rewrite T. Qed.

Lemma entry_or_default_falsy (data : value) (id : string) (e : value) :
  truthy data = false -> entry_or_default data id e = Ok (VDict [(id, e)]).
Proof. intros T. unfold entry_or_default. now rewrite T. Qed.

(** Every operation answers [no_data] as soon as what it loaded is falsy. *)
Lemma perform_falsy (fs : file_system) (rq : request) :
  (forall f, snapshot_of rq = Some f -> truthy (_load_file fs f) = false) ->
  perform fs rq = Ok (no_data rq).
Proof.
  intros H.
  destruct rq; simpl in *;
    try (specialize (H _ eq_refl));
    unfold search_suburbs, get_suburb_info, get_suburb_summary,
      get_demographics, get_amenities, get_market_trends, get_schools,
      get_developments, get_market_insights, get_pocket_insights,
      get_street_insights, get_risk_factors, get_school_catchments,
      get_zoning, get_similar_suburbs, get_street_rankings;
    try rewrite H; simpl;
    try (now apply entry_or_first_falsy);
    try (now apply entry_or_default_falsy);
    reflexivity.
Qed.

(** An unavailable snapshot file and one that parses to an empty (falsy)
    value lead to the same [return] statement. *)
Lemma unavailable_snapshot_answer
    (fs fs_empty : file_system) (rq : request) :
  (forall f, snapshot_of rq = Some f -> unavailable (fs f)) ->
  (forall f, snapshot_of rq = Some f ->
             exists v, fs_empty f = Parsed v /\ truthy v = false) ->
  perform fs rq = Ok (no_data rq) /\ perform fs rq = perform fs_empty rq.
Proof.
  intros Hu He.
  assert (A : perform fs rq = Ok (no_data rq)).
  { apply perform_falsy. intros f Hf.
    now rewrite (load_unavailable fs f (Hu f Hf)). }
  assert (B : perform fs_empty rq = Ok (no_data rq)).
  { apply perform_falsy. intros f Hf.
    destruct (He f Hf) as (v & E & T). unfold _load_file. now rewrite E. }
  split; [exact A | now rewrite A, B].
Qed.

(** C6, amended. For every operation of the local adapter: when its
    snapshot file is absent, fails to parse or cannot be read, the
    operation returns what it returns on a snapshot that parses to an empty
    value.  For [search_suburbs], [get_suburb_info], [get_suburb_summary]
    and [get_street_rankings] that is an empty or absent result; for the
    twelve other operations it is an object with the requested identifier
    as its only key, hence not empty, whose value holds no record. *)
Theorem unavailable_snapshot_gives_default
    (fs fs_empty : file_system) (rq : request) :
  (forall f, snapshot_of rq = Some f -> unavailable (fs f)) ->
  (forall f, snapshot_of rq = Some f ->
             exists v, fs_empty f = Parsed v /\ truthy v = false) ->
  perform fs rq = perform fs_empty rq
  /\ (Wiring.keyed rq = false -> Spec2.empty_answer (perform fs rq) = true)
  /\ (Wiring.keyed rq = true ->
      exists x,
        perform fs rq = Ok (VDict [(subject (args_of rq), x)])
        /\ Spec2.empty_answer (perform fs rq) = false
        /\ Spec2.holds_no_records x = true).
Proof.
  intros Hu He.
  destruct (unavailable_snapshot_answer fs fs_empty rq Hu He) as [A B].
  split; [exact B|]. rewrite A. clear A B Hu He.
  split; intros K; destruct rq; try discriminate K; cbn;
    try reflexivity; eexists; repeat split.
Qed.

Lemma entry_or_first_absent (id k : string) (v e : value)
    (rest : list (string * value)) :
  lookup id ((k, v) :: rest) = None ->
  entry_or_first (VDict ((k, v) :: rest)) id e = Ok (VDict [(id, v)]).
Proof.
  intros L. unfold entry_or_first. simpl truthy. cbv iota.
  unfold contains. rewrite L. simpl. now rewrite String.eqb_refl.
Qed.

(** C5, amended. For the five operations that substitute ([get_demographics],
    [get_amenities], [get_market_trends], [get_schools], [get_developments]):
    on a non-empty snapshot without the requested identifier, the adapter
    returns the data of the first entry of the snapshot, under the requested
    identifier. *)
Theorem substituting_operations_use_first_entry (rq : request) :
  substitutes rq = true -> Spec.substitution_policy rq.
Proof.
  intros S fs f k v rest Hf Hfs L.
  destruct rq; try discriminate S; simpl in *;
    injection Hf as <-;
    unfold get_demographics, get_amenities, get_market_trends, get_schools,
      get_developments, _load_file;
    rewrite Hfs; now apply entry_or_first_absent.
Qed.

End FileRepoFacts.

(** C5, as stated, fails: [get_suburb_info] answers [None] for an
    identifier the snapshot does not hold. *)
Lemma suburb_info_does_not_substitute :
  FileRepo.perform Examples.fs_carlton (Composite.Info "fitzroy-3065" true)
  = Ok VNone
  /\ ~ Spec.substitution_policy (Composite.Info "fitzroy-3065" true).
Proof.
  split; [reflexivity|].
  intros P.
  specialize (P Examples.fs_carlton "suburb_info.json" "carlton-3053"
                Examples.carlton [] eq_refl eq_refl eq_refl).
  discriminate P.
Qed.

Lemma substituting_operations_use_first_entry_witness :
  FileRepo.perform Examples.fs_carlton (Composite.Demographics "fitzroy-3065")
  = Ok (VDict [("fitzroy-3065", Examples.carlton)]).
Proof.
  exact (substituting_operations_use_first_entry
           (Composite.Demographics "fitzroy-3065") eq_refl
           Examples.fs_carlton "demographics.json" "carlton-3053"
           Examples.carlton [] eq_refl eq_refl eq_refl).
Defined.

(** C6, as stated, fails: with the snapshot file missing,
    [get_demographics] answers a non-empty object, which the coordinator
    hands on as data, where a local adapter without data makes the
    coordinator answer [None]. *)
Lemma missing_snapshot_is_not_empty :
  FileRepo.perform Examples.fs_missing (Composite.Demographics "carlton-3053")
  = Ok (VDict [("carlton-3053",
                VDict [("ageDistribution", VList []); ("ethnicity", VList [])])])
  /\ Spec2.empty_answer
       (FileRepo.perform Examples.fs_missing
          (Composite.Demographics "carlton-3053")) = false
  /\ fst (Composite.perform Examples.api_down
            (Wiring.file_repository Examples.fs_missing)
            (Composite.Demographics "carlton-3053") (0%nat, []))
     = Ok (VDict [("carlton-3053",
                   VDict [("ageDistribution", VList []);
                          ("ethnicity", VList [])])])
  /\ fst (Composite.perform Examples.api_down Examples.file_empty
            (Composite.Demographics "carlton-3053") (0%nat, []))
     = Ok VNone.
Proof. repeat split. Qed.

Lemma unavailable_snapshot_gives_default_witness :
  FileRepo.perform Examples.fs_missing (Composite.Amenities "carlton-3053")
  = FileRepo.perform (fun _ => FileRepo.Parsed (VDict []))
      (Composite.Amenities "carlton-3053")
  /\ exists x,
       FileRepo.perform Examples.fs_missing (Composite.Amenities "carlton-3053")
       = Ok (VDict [("carlton-3053", x)])
       /\ Spec2.empty_answer
            (FileRepo.perform Examples.fs_missing
               (Composite.Amenities "carlton-3053")) = false
       /\ Spec2.holds_no_records x = true.
Proof.
  destruct (unavailable_snapshot_gives_default Examples.fs_missing
              (fun _ => FileRepo.Parsed (VDict []))
              (Composite.Amenities "carlton-3053")) as (S & _ & K).
  - intros f _. left. reflexivity.
  - intros f _. exists (VDict []). split; reflexivity.
  - split; [exact S | exact (K eq_refl)].
Defined.

(** ** Numbers *)

Lemma Qltb_lt (x y : Q) : Qltb x y = true <-> x < y.
Proof.
  unfold Qltb. rewrite negb_true_iff. split.
  - intros H. apply Qnot_le_lt. intros L.
    apply Qle_bool_iff in L. congruence.
  - intros H. destruct (Qle_bool y x) eqn:E; [|reflexivity].
    apply Qle_bool_iff in E. exfalso. exact (Qlt_not_le _ _ H E).
Qed.

Lemma Qltb_ge (x y : Q) : Qltb x y = false <-> y <= x.
Proof.
  unfold Qltb. rewrite negb_false_iff. apply Qle_bool_iff.
Qed.

Lemma Qltb_comp (x x' y y' : Q) : x == x' -> y == y' -> Qltb x y = Qltb x' y'.
Proof. intros Ex Ey. unfold Qltb. now rewrite Ex, Ey. Qed.

Lemma round_half_even_comp (x y : Q) :
  x == y -> round_half_even x = round_half_even y.
Proof.
  intros E. unfold round_half_even.
  rewrite (Qfloor_comp _ _ E).
  assert (C : (x - inject_Z (Qfloor y) ?= 1 # 2) = (y - inject_Z (Qfloor y) ?= 1 # 2)).
  { apply Qcompare_comp; [now rewrite E | reflexivity]. }
  now rewrite C.
Qed.

(** Rounding does not depend on how its argument is written. *)
Lemma round_to_comp (n : nat) (x y : Q) : x == y -> round_to n x = round_to n y.
Proof.
  intros E. unfold round_to.
  rewrite (round_half_even_comp (x * inject_Z (Zpos (scale n)))
             (y * inject_Z (Zpos (scale n)))); [reflexivity | now rewrite E].
Qed.

Lemma round_to_0 (n : nat) (x : Q) : x == 0 -> round_to n x = 0.
Proof.
  intros E. rewrite (round_to_comp n x 0 E). unfold round_to.
  replace (round_half_even (0 * inject_Z (Z.pos (scale n)))) with 0%Z.
  - apply (Qred_complete (0 # scale n) 0). reflexivity.
  - rewrite (round_half_even_comp (0 * inject_Z (Z.pos (scale n))) 0).
    + reflexivity.
    + ring.
Qed.

Lemma py_int_0 (x : Q) : x == 0 -> py_int x = 0%Z.
Proof.
  intros E. unfold py_int.
  rewrite (Qleb_comp 0 0 (reflexivity _) x 0 E).
  rewrite (Qfloor_comp _ _ E). reflexivity.
Qed.

(** ** Regional comparison *)

Section RegionalFacts.

Import Aggregator.

Lemma region_of_zero (suburb_price region_value : Q) :
  region_value == 0 ->
  mk_region (py_int region_value)
    (round_to 1 (region_diff suburb_price region_value))
    (below_or_above (region_diff suburb_price region_value))
  = mk_region 0 0 "above".
Proof.
  intros E. unfold region_diff.
  assert (L : Qltb 0 region_value = false).
  { apply Qltb_ge. rewrite E. apply Qle_refl. }
  rewrite L, (py_int_0 _ E). reflexivity.
Qed.

(** C10. On the empty series both comparisons are price 0, difference 0,
    status "below"; on a non-empty series a zero region value at the latest
    point gives price 0, difference 0 and the opposite status, "above". *)
Theorem empty_series_below_zero_region_above :
  _calculate_regional_comparison []
  = mk_comparison (mk_region 0 0 "below") (mk_region 0 0 "below")
  /\ forall (first : PricePoint) (rest : list PricePoint),
       let latest := last (first :: rest) first in
       (cr latest == 0 ->
        cmp_cr (_calculate_regional_comparison (first :: rest))
        = mk_region 0 0 "above")
       /\ (sa3 latest == 0 ->
           cmp_sa3 (_calculate_regional_comparison (first :: rest))
           = mk_region 0 0 "above").
Proof.
  split; [reflexivity|].
  intros first rest latest. unfold _calculate_regional_comparison.
  fold latest. cbv zeta. split; intros E; simpl; now apply region_of_zero.
Qed.

End RegionalFacts.

Lemma empty_series_below_zero_region_above_witness :
  Aggregator.cmp_cr (Aggregator._calculate_regional_comparison Examples.tripled)
  = Aggregator.mk_region 0 0 "above".
Proof.
  exact (proj1 (proj2 empty_series_below_zero_region_above
                  (Aggregator.mk_point "2015-06-30" 100 0 0)
                  [Aggregator.mk_point "2020-06-30" 300 0 0])
           (Qeq_refl 0)).
Defined.

(** ** Growth sub-score *)

Section GrowthScoreFacts.

Import Aggregator.

Lemma py_min_Qmin (a b : Q) : py_min a b == Qmin a b.
Proof.
  unfold py_min. destruct (Qltb b a) eqn:E.
  - apply Qltb_lt in E. symmetry. apply Q.min_r. now apply Qlt_le_weak.
  - apply Qltb_ge in E. symmetry. now apply Q.min_l.
Qed.

Lemma growth_ratio_positive (first : PricePoint) (rest : list PricePoint) :
  0 < suburb first ->
  growth_ratio (first :: rest)
  = Spec.multiple first (last (first :: rest) first).
Proof.
  intros H. unfold growth_ratio, Spec.multiple.
  now rewrite (proj2 (Qltb_lt _ _) H).
Qed.

Lemma growth_ratio_guarded (first : PricePoint) (rest : list PricePoint) :
  suburb first <= 0 -> growth_ratio (first :: rest) = 1.
Proof.
  intros H. unfold growth_ratio. now rewrite (proj2 (Qltb_ge _ _) H).
Qed.

(** The sub-score by cases, with the constant of the code. *)
Lemma growth_score_cases (first : PricePoint) (rest : list PricePoint) :
  let series := first :: rest in
  let multiple := Spec.multiple first (last series first) in
  (0 < suburb first ->
     growth_score series == Qmin multiple 3 * 3.33
     /\ (multiple <= 3 -> growth_score series == multiple * 3.33)
     /\ (3 <= multiple -> growth_score series == 3 * 3.33))
  /\ (suburb first <= 0 -> growth_score series == 1 * 3.33).
Proof.
  intros series multiple. split.
  - intros H. unfold growth_score, series.
    rewrite (growth_ratio_positive first rest H). fold series multiple.
    rewrite py_min_Qmin. split; [reflexivity | split]; intros L.
    + rewrite (Q.min_l _ _ L). reflexivity.
    + rewrite (Q.min_r _ _ L). reflexivity.
  - intros H. unfold growth_score, series.
    rewrite (growth_ratio_guarded first rest H). reflexivity.
Qed.

(** C4, amended. The growth sub-score of a non-empty series is
    proportional to [min(multiple, 3)], with one positive factor for all
    series: a multiple below 3 scales linearly and a multiple of 3 or more
    receives the sub-score of a multiple of exactly 3.  The multiple is
    last value over first value when the first value is positive, and is
    taken to be 1 when it is not. *)
Theorem growth_score_is_proportional :
  exists points_per_multiple : Q,
    0 < points_per_multiple
    /\ forall (first : PricePoint) (rest : list PricePoint),
         let series := first :: rest in
         let multiple := Spec.multiple first (last series first) in
         (0 < suburb first ->
            growth_score series == Qmin multiple 3 * points_per_multiple
            /\ (multiple <= 3 ->
                growth_score series == multiple * points_per_multiple)
            /\ (3 <= multiple ->
                growth_score series == 3 * points_per_multiple))
         /\ (suburb first <= 0 ->
             growth_score series == 1 * points_per_multiple).
Proof.
  exists 3.33. split; [reflexivity|]. apply growth_score_cases.
Qed.

End GrowthScoreFacts.

(** C4, as stated, fails where the first value is not positive.  A series
    that starts at 0 has no multiple last/first, and receives the sub-score
    of a multiple of 1.  A series that starts at -100 and ends at 300 has
    multiple -3, and receives the sub-score of a multiple of 1 as well, not
    [min(-3, 3) * 3.33]. *)
Lemma growth_score_is_not_as_claimed :
  (Aggregator.growth_score Examples.zero_start == 1 * 3.33
   /\ ~ Aggregator.growth_score Examples.zero_start
        == Qmin (Spec.multiple (Aggregator.mk_point "2015-06-30" 0 0 0)
                   (last Examples.zero_start
                      (Aggregator.mk_point "2015-06-30" 0 0 0))) 3 * 3.33
   /\ ~ exists r : Q, r * 0 == 300)
  /\ (Spec.multiple (Aggregator.mk_point "2015-06-30" (-100) 0 0)
        (last Examples.negative_start
           (Aggregator.mk_point "2015-06-30" (-100) 0 0)) == -3
      /\ Aggregator.growth_score Examples.negative_start == 1 * 3.33
      /\ ~ Aggregator.growth_score Examples.negative_start
           == Qmin (-3) 3 * 3.33).
Proof.
  split.
  - split; [reflexivity | split; [discriminate|]].
    intros (r & E). rewrite Qmult_0_r in E. discriminate E.
  - split; [reflexivity | split; [reflexivity | discriminate]].
Qed.

Lemma growth_score_is_proportional_witness :
  exists points_per_multiple : Q,
    0 < points_per_multiple
    /\ Aggregator.growth_score Examples.tripled
       == Qmin (Spec.multiple (Aggregator.mk_point "2015-06-30" 100 0 0)
                  (Aggregator.mk_point "2020-06-30" 300 0 0)) 3
          * points_per_multiple.
Proof.
  destruct growth_score_is_proportional as (k & P & H).
  exists k. split; [exact P|].
  exact (proj1 (proj1 (H (Aggregator.mk_point "2015-06-30" 100 0 0)
                         [Aggregator.mk_point "2020-06-30" 300 0 0])
                  eq_refl)).
Defined.

(** ** Growth baselines *)

Lemma last_in_cons {A : Type} (x : A) (l : list A) (d : A) :
  In (last (x :: l) d) (x :: l).
Proof.
  revert x. induction l as [|y l IH]; intros x; [now left|].
  right. exact (IH y).
Qed.

Section GrowthFacts.

Import Aggregator.

Variable arith : float_arith.
Variable strptime : string -> result Z.

(** The day number of each point of the series under study. *)
Variable day_of : PricePoint -> Z.

Lemma scan_baseline_find (since : Z) (dflt : Q) (series : list PricePoint) :
  (forall p, In p series -> strptime (date p) = Ok (day_of p)) ->
  scan_baseline strptime since series dflt
  = Ok (match find (fun p => (since <=? day_of p)%Z && Qltb 0 (suburb p)) series with
        | Some p => suburb p
        | None => dflt
        end).
Proof.
  induction series as [|p rest IH]; intros H; simpl; [reflexivity|].
  rewrite (H p (or_introl eq_refl)). simpl.
  destruct ((since <=? day_of p)%Z && Qltb 0 (suburb p)); [reflexivity|].
  apply IH. intros q Hq. apply H. now right.
Qed.

(** A baseline is a positive price or the current price itself. *)
Lemma baseline_cases (series : list PricePoint) (latest : PricePoint)
    (window : Z) :
  0 < Spec.baseline day_of series latest window
  \/ Spec.baseline day_of series latest window = suburb latest.
Proof.
  unfold Spec.baseline.
  destruct (find _ series) as [p|] eqn:F; [left | now right].
  apply find_some in F. destruct F as [_ F].
  unfold Spec.eligible in F. apply andb_true_iff in F.
  now apply Qltb_lt.
Qed.

(** Equal prices show no growth, whatever the float operations. *)
Lemma growth_of_equal (current base : Q) :
  base == current -> fround arith 2 (growth arith current base) = 0.
Proof.
  intros E. apply fround_zero. unfold growth.
  destruct (Qltb 0 base) eqn:P; [|reflexivity].
  apply Qltb_lt in P. apply fmul_zero, fdiv_zero.
  - apply fsub_same. now symmetry.
  - intros Z. rewrite Z in P. discriminate P.
Qed.

(** The guard [base > 0] of the code and the guard "base is not zero" of
    the specification agree on every baseline the code can pick. *)
Lemma growth_growth_pct (current base : Q) :
  0 < base \/ base = current ->
  fround arith 2 (growth arith current base)
  = Spec.growth_pct arith current base.
Proof.
  intros H. unfold Spec.growth_pct.
  destruct (Qeq_bool base 0) eqn:E.
  - apply Qeq_bool_eq in E. apply fround_zero. unfold growth.
    destruct (Qltb 0 base) eqn:L; [|reflexivity].
    apply Qltb_lt in L. rewrite E in L. now apply Qlt_irrefl in L.
  - destruct (Qltb 0 base) eqn:L.
    + unfold growth. now rewrite L.
    + destruct H as [H | ->].
      * apply Qltb_lt in H. congruence.
      * rewrite growth_of_equal by reflexivity. symmetry.
        apply fround_zero, fmul_zero, fdiv_zero.
        -- now apply fsub_same.
        -- now apply Qeq_bool_neq.
Qed.

(** C7. On a non-empty series whose dates parse (and whose last date is
    at least 1825 days after [datetime.min]), the 1-year and 5-year growth
    are the percentage [(current - base) / base * 100] rounded to 2
    decimals (0 for a zero base), computed with the float operations
    whatever they are, where the base is the value of the first point,
    scanning from the earliest, dated on or after the last date minus 365
    (resp. 1825) days and priced above 0; with no such point the base is
    the current price and the growth is 0. *)
Theorem growth_uses_first_eligible_point
    (first : PricePoint) (rest : list PricePoint) :
  let series := first :: rest in
  let latest := last series first in
  let current := suburb latest in
  (forall p, In p series -> strptime (date p) = Ok (day_of p)) ->
  (1 <= day_of latest - 1825)%Z ->
  exists m,
    _calculate_current_metrics arith strptime series = Ok m
    /\ growth_1y m
       = Spec.growth_pct arith current (Spec.baseline day_of series latest 365)
    /\ growth_5y m
       = Spec.growth_pct arith current (Spec.baseline day_of series latest 1825)
    /\ (find (Spec.eligible day_of latest 365) series = None ->
        Spec.baseline day_of series latest 365 = current /\ growth_1y m = 0)
    /\ (find (Spec.eligible day_of latest 1825) series = None ->
        Spec.baseline day_of series latest 1825 = current /\ growth_5y m = 0).
Proof.
  intros series latest current Hparse Hmin.
  assert (Hlatest : In latest series) by apply last_in_cons.
  unfold _calculate_current_metrics, series. fold series. fold latest.
  rewrite (Hparse latest Hlatest). cbn [bind]. unfold minus_days.
  replace (day_of latest - 365 <? 1)%Z with false by (symmetry; apply Z.ltb_ge; lia).
  replace (day_of latest - 365 * 5 <? 1)%Z with false by (symmetry; apply Z.ltb_ge; lia).
  cbn [bind].
  rewrite (scan_baseline_find (day_of latest - 365) (suburb latest) series Hparse).
  rewrite (scan_baseline_find (day_of latest - 365 * 5) (suburb latest) series Hparse).
  cbn [bind]. eexists. split; [reflexivity|]. cbn [growth_1y growth_5y].
  change (365 * 5)%Z with 1825%Z.
  change (fun p => (day_of latest - 365 <=? day_of p)%Z && Qltb 0 (suburb p))
    with (Spec.eligible day_of latest 365).
  change (fun p => (day_of latest - 1825 <=? day_of p)%Z && Qltb 0 (suburb p))
    with (Spec.eligible day_of latest 1825).
  fold (Spec.baseline day_of series latest 365).
  fold (Spec.baseline day_of series latest 1825).
  fold current.
  assert (G : forall window,
             fround arith 2
               (growth arith current (Spec.baseline day_of series latest window))
             = Spec.growth_pct arith current
                 (Spec.baseline day_of series latest window)).
  { intros window. apply growth_growth_pct, baseline_cases. }
  assert (Z : forall window,
             find (Spec.eligible day_of latest window) series = None ->
             Spec.baseline day_of series latest window = current
             /\ fround arith 2
                  (growth arith current
                     (Spec.baseline day_of series latest window)) = 0).
  { intros window F. unfold Spec.baseline. rewrite F. split; [reflexivity|].
    now apply growth_of_equal. }
  repeat split; try apply G; apply Z; assumption.
Qed.

End GrowthFacts.

Lemma growth_uses_first_eligible_point_witness :
  exists m,
    Aggregator._calculate_current_metrics exact_arith Calendar.iso_strptime
      Examples.two_years
    = Ok m
    /\ Aggregator.growth_1y m
       = Spec.growth_pct exact_arith 550000
           (Spec.baseline Examples.day_of Examples.two_years
              (Aggregator.mk_point "2021-01-01" 550000 520000 0) 365).
Proof.
  destruct (growth_uses_first_eligible_point exact_arith Calendar.iso_strptime
              Examples.day_of
              (Aggregator.mk_point "2019-01-01" 400000 0 0)
              [Aggregator.mk_point "2020-06-01" 500000 0 0;
               Aggregator.mk_point "2021-01-01" 550000 520000 0])
    as (m & E & G1 & _).
  - intros p [<- | [<- | [<- | []]]]; reflexivity.
  - vm_compute. discriminate.
  - exists m. split; [exact E | exact G1].
Defined.

Example two_years_growth :
  Aggregator._calculate_current_metrics exact_arith Calendar.iso_strptime
    Examples.two_years
  = Ok (Aggregator.mk_metrics 550000 10 (75 # 2) (75 # 2)).
Proof. reflexivity. Qed.

(** ** Volatility *)

Section VolatilityFacts.

Import Aggregator.

Lemma Q2R_inject_Z (z : Z) : Q2R (inject_Z z) = IZR z.
Proof. unfold Q2R, inject_Z. simpl. field. Qed.

Lemma Q2R_count (xs : list Q) : Q2R (count xs) = INR (List.length xs).
Proof. unfold count. now rewrite Q2R_inject_Z, INR_IZR_INZ. Qed.

Lemma total_squares_nonneg (f : Q -> Q) (xs : list Q) :
  0 <= total (map (fun x => f x * f x) xs).
Proof.
  induction xs as [|x xs IH]; simpl.
  - apply Qle_refl.
  - rewrite <- (Qplus_0_l 0). apply Qplus_le_compat; [|exact IH].
    destruct (Qlt_le_dec (f x) 0) as [N | P].
    + setoid_replace (f x * f x) with ((- f x) * (- f x)) by ring.
      apply Qmult_le_0_compat; apply (Qopp_le_compat (f x) 0);
        now apply Qlt_le_weak.
    + now apply Qmult_le_0_compat.
Qed.

Lemma sum_sq_dev_nonneg (xs : list Q) : 0 <= sum_sq_dev xs.
Proof. apply (total_squares_nonneg (fun x => x - mean xs)). Qed.

Lemma count_minus_1_pos (xs : list Q) :
  (2 <= List.length xs)%nat -> 0 < count xs - 1.
Proof.
  intros H. unfold count.
  apply Rlt_Qlt. rewrite Q2R_minus, Q2R_inject_Z.
  rewrite RMicromega.Q2R_0, RMicromega.Q2R_1.
  assert (Z2 : (2 <= Z.of_nat (List.length xs))%Z) by lia.
  apply IZR_le in Z2. lra.
Qed.

Lemma volatility_defined (prices : list Q) :
  (2 <= List.length prices)%nat -> ~ mean prices == 0 ->
  _calculate_volatility prices
  = (sqrt (Q2R (variance prices)) / Q2R (mean prices))%R.
Proof.
  intros L M. unfold _calculate_volatility, stdev.
  replace (List.length prices <? 2)%nat with false
    by (symmetry; apply Nat.ltb_ge; exact L).
  destruct (Qeq_bool (mean prices) 0) eqn:E; [|reflexivity].
  apply Qeq_bool_eq in E. contradiction.
Qed.

Lemma volatility_undefined (prices : list Q) :
  (List.length prices < 2)%nat \/ mean prices == 0 ->
  _calculate_volatility prices = 0%R.
Proof.
  intros H. unfold _calculate_volatility.
  destruct (List.length prices <? 2)%nat eqn:L; [reflexivity|].
  apply Nat.ltb_ge in L. destruct H as [H | H]; [lia|].
  now rewrite (Qeq_eq_bool _ _ H).
Qed.

(** The sample figure is the population figure scaled by
    [sqrt (n / (n - 1))]. *)
Lemma sample_cv_population_cv (xs : list Q) :
  (2 <= List.length xs)%nat ->
  Spec.sample_cv xs
  = (sqrt (INR (List.length xs) / (INR (List.length xs) - 1))
     * Spec.population_cv xs)%R.
Proof.
  intros L. unfold Spec.sample_cv, Spec.population_cv, Spec.population_variance.
  pose proof (count_minus_1_pos xs L) as P.
  assert (C : 0 < count xs).
  { apply Qlt_trans with (count xs - 1); [exact P|].
    rewrite <- (Qplus_0_r (count xs)) at 2. apply Qplus_lt_r. reflexivity. }
  assert (N1 : ~ count xs - 1 == 0) by (intros E; rewrite E in P; discriminate P).
  assert (N0 : ~ count xs == 0) by (intros E; rewrite E in C; discriminate C).
  rewrite (Q2R_div _ _ N1), (Q2R_div _ _ N0), Q2R_minus, RMicromega.Q2R_1.
  rewrite Q2R_count.
  apply Qlt_Rlt in P. apply Qlt_Rlt in C.
  rewrite Q2R_minus, RMicromega.Q2R_1, RMicromega.Q2R_0, Q2R_count in P.
  rewrite RMicromega.Q2R_0, Q2R_count in C.
  pose proof (Qle_Rle _ _ (sum_sq_dev_nonneg xs)) as S.
  rewrite RMicromega.Q2R_0 in S.
  set (n := INR (List.length xs)) in *. set (ss := Q2R (sum_sq_dev xs)) in *.
  replace (ss / (n - 1))%R with ((n / (n - 1)) * (ss / n))%R by (field; lra).
  rewrite sqrt_mult.
  - unfold Rdiv. ring.
  - apply Rlt_le, Rdiv_lt_0_compat; lra.
  - apply Rle_mult_inv_pos; lra.
Qed.

(** C3, amended. The volatility function returns the sample coefficient
    of variation of the prices it is given (sample standard deviation, with
    [n - 1] in the denominator, divided by the mean), which is the
    population coefficient of variation scaled by [sqrt (n / (n - 1))]; it
    returns 0 when there are fewer than 2 prices or the mean is 0; in
    particular the volatility of [100, 100, 100] and of the empty list
    is 0. *)
Theorem volatility_is_sample_cv (prices : list Q) :
  ((2 <= List.length prices)%nat -> ~ mean prices == 0 ->
     _calculate_volatility prices = Spec.sample_cv prices
     /\ _calculate_volatility prices
        = (sqrt (INR (List.length prices) / (INR (List.length prices) - 1))
           * Spec.population_cv prices)%R)
  /\ ((List.length prices < 2)%nat \/ mean prices == 0 ->
      _calculate_volatility prices = 0%R)
  /\ _calculate_volatility [100; 100; 100] = 0%R
  /\ _calculate_volatility [] = 0%R.
Proof.
  split; [|split; [|split]].
  - intros L M.
    assert (E : _calculate_volatility prices = Spec.sample_cv prices)
      by (rewrite (volatility_defined prices L M); reflexivity).
    split; [exact E|]. rewrite E. now apply sample_cv_population_cv.
  - apply volatility_undefined.
  - rewrite volatility_defined; [| simpl; lia | discriminate].
    replace (Q2R (variance [100; 100; 100])) with 0%R.
    + rewrite sqrt_0. unfold Rdiv. ring.
    + rewrite <- RMicromega.Q2R_0. apply Qeq_eqR. reflexivity.
  - reflexivity.
Qed.

(** *** The comparisons on squares decide the comparisons on the
    volatility itself *)

Lemma sqrt_quotient (V M : R) :
  (0 <= V)%R -> M <> 0%R ->
  exists q, (sqrt V / M)%R = q /\ (q * q * (M * M))%R = V
            /\ (0 <= q * M)%R.
Proof.
  intros HV HM. exists (sqrt V / M)%R. split; [reflexivity|]. split.
  - replace (sqrt V / M * (sqrt V / M) * (M * M))%R
      with (sqrt V * sqrt V)%R by (field; exact HM).
    now apply sqrt_sqrt.
  - replace (sqrt V / M * M)%R with (sqrt V) by (field; exact HM).
    apply sqrt_pos.
Qed.

Lemma square_lt (a b : R) : (0 <= a)%R -> (a < b)%R -> (a * a < b * b)%R.
Proof. intros. nra. Qed.

Lemma lt_nonneg_squares (q M T : R) :
  (0 <= q)%R -> M <> 0%R ->
  (q < T)%R <-> (0 < T)%R /\ (q * q * (M * M) < T * T * (M * M))%R.
Proof.
  intros Q HM. assert (K : (0 < M * M)%R) by nra. split.
  - intros H. assert (0 < T)%R by lra. split; [lra|].
    apply Rmult_lt_compat_r; [exact K|]. now apply square_lt.
  - intros [P H]. apply Rmult_lt_reg_r in H; [|exact K].
    destruct (Rlt_le_dec q T) as [L | L]; [exact L | exfalso].
    assert (T * T <= q * q)%R by (apply Rmult_le_compat; lra).
    lra.
Qed.

Lemma lt_nonpos_squares (q M T : R) :
  (q <= 0)%R -> M <> 0%R ->
  (q < T)%R <-> (0 < T)%R \/ (T * T * (M * M) < q * q * (M * M))%R.
Proof.
  intros Q HM. assert (K : (0 < M * M)%R) by nra. split.
  - intros H. destruct (Rlt_le_dec 0 T) as [P | N]; [now left | right].
    apply Rmult_lt_compat_r; [exact K|].
    replace (T * T)%R with ((- T) * (- T))%R by ring.
    replace (q * q)%R with ((- q) * (- q))%R by ring.
    apply square_lt; lra.
  - intros [P | H]; [lra|]. apply Rmult_lt_reg_r in H; [|exact K].
    destruct (Rlt_le_dec q T) as [L | L]; [exact L | exfalso].
    assert (- q <= - T)%R by lra.
    assert ((- q) * (- q) <= (- T) * (- T))%R by (apply Rmult_le_compat; lra).
    lra.
Qed.

Lemma sqrt_div_lt_pos (V M T : R) :
  (0 <= V)%R -> (0 < M)%R ->
  (sqrt V / M < T)%R <-> (0 < T)%R /\ (V < T * T * (M * M))%R.
Proof.
  intros HV HM.
  destruct (sqrt_quotient V M HV) as (q & -> & <- & Hq); [lra|].
  apply lt_nonneg_squares; [nra | lra].
Qed.

Lemma sqrt_div_lt_neg (V M T : R) :
  (0 <= V)%R -> (M < 0)%R ->
  (sqrt V / M < T)%R <-> (0 < T)%R \/ (T * T * (M * M) < V)%R.
Proof.
  intros HV HM.
  destruct (sqrt_quotient V M HV) as (q & -> & <- & Hq); [lra|].
  apply lt_nonpos_squares; [nra | lra].
Qed.

Lemma sqrt_div_gt_pos (V M T : R) :
  (0 <= V)%R -> (0 < M)%R ->
  (T < sqrt V / M)%R <-> (T < 0)%R \/ (T * T * (M * M) < V)%R.
Proof.
  intros HV HM.
  destruct (sqrt_quotient V M HV) as (q & -> & <- & Hq); [lra|].
  assert (Q : (- q <= 0)%R) by nra.
  pose proof (lt_nonpos_squares (- q) M (- T) Q) as E.
  replace (- T * - T)%R with (T * T)%R in E by ring.
  replace (- q * - q)%R with (q * q)%R in E by ring.
  split; intros H.
  - destruct (proj1 (E ltac:(lra)) ltac:(lra)) as [P | P]; [left; lra | now right].
  - apply Ropp_lt_cancel. apply E; [lra|].
    destruct H as [H | H]; [left; lra | now right].
Qed.

Lemma sqrt_div_gt_neg (V M T : R) :
  (0 <= V)%R -> (M < 0)%R ->
  (T < sqrt V / M)%R <-> (T < 0)%R /\ (V < T * T * (M * M))%R.
Proof.
  intros HV HM.
  destruct (sqrt_quotient V M HV) as (q & -> & <- & Hq); [lra|].
  assert (Q : (0 <= - q)%R) by nra.
  pose proof (lt_nonneg_squares (- q) M (- T) Q) as E.
  replace (- T * - T)%R with (T * T)%R in E by ring.
  replace (- q * - q)%R with (q * q)%R in E by ring.
  split; intros H.
  - destruct (proj1 (E ltac:(lra)) ltac:(lra)) as [P P']. split; [lra | exact P'].
  - apply Ropp_lt_cancel. apply E; [lra|].
    destruct H as [H H']. split; [lra | exact H'].
Qed.

Lemma Qltb_Rlt (x y : Q) : Qltb x y = true <-> (Q2R x < Q2R y)%R.
Proof.
  rewrite Qltb_lt. split; [apply Qlt_Rlt | apply Rlt_Qlt].
Qed.

Lemma variance_nonneg (xs : list Q) :
  (2 <= List.length xs)%nat -> (0 <= Q2R (variance xs))%R.
Proof.
  intros L. rewrite <- RMicromega.Q2R_0. apply Qle_Rle. unfold variance.
  apply Qle_shift_div_l; [now apply count_minus_1_pos|].
  rewrite Qmult_0_l. apply sum_sq_dev_nonneg.
Qed.

Lemma mean_sign (xs : list Q) :
  Qeq_bool (mean xs) 0 = false ->
  (if Qltb 0 (mean xs) then (0 < Q2R (mean xs))%R else (Q2R (mean xs) < 0)%R).
Proof.
  intros E. apply Qeq_bool_neq in E.
  destruct (Qltb 0 (mean xs)) eqn:P.
  - apply Qltb_Rlt in P. now rewrite RMicromega.Q2R_0 in P.
  - apply Qltb_ge in P. rewrite <- RMicromega.Q2R_0. apply Qlt_Rlt.
    apply Qle_lteq in P. destruct P as [P | P]; [exact P | contradiction].
Qed.

Lemma volatility_ltb_spec (prices : list Q) (t : Q) :
  volatility_ltb prices t = true
  <-> (_calculate_volatility prices < Q2R t)%R.
Proof.
  unfold volatility_ltb, _calculate_volatility, stdev.
  destruct (List.length prices <? 2)%nat eqn:L.
  { rewrite Qltb_Rlt, RMicromega.Q2R_0. reflexivity. }
  apply Nat.ltb_ge in L.
  destruct (Qeq_bool (mean prices) 0) eqn:E.
  { rewrite Qltb_Rlt, RMicromega.Q2R_0. reflexivity. }
  pose proof (mean_sign prices E) as S.
  pose proof (variance_nonneg prices L) as V.
  destruct (Qltb 0 (mean prices)).
  - rewrite (sqrt_div_lt_pos _ _ (Q2R t) V S).
    rewrite andb_true_iff, !Qltb_Rlt, !Q2R_mult, RMicromega.Q2R_0.
    reflexivity.
  - rewrite (sqrt_div_lt_neg _ _ (Q2R t) V S).
    rewrite orb_true_iff, !Qltb_Rlt, !Q2R_mult, RMicromega.Q2R_0.
    reflexivity.
Qed.

Lemma volatility_gtb_spec (prices : list Q) (t : Q) :
  volatility_gtb prices t = true
  <-> (Q2R t < _calculate_volatility prices)%R.
Proof.
  unfold volatility_gtb, _calculate_volatility, stdev.
  destruct (List.length prices <? 2)%nat eqn:L.
  { rewrite Qltb_Rlt, RMicromega.Q2R_0. reflexivity. }
  apply Nat.ltb_ge in L.
  destruct (Qeq_bool (mean prices) 0) eqn:E.
  { rewrite Qltb_Rlt, RMicromega.Q2R_0. reflexivity. }
  pose proof (mean_sign prices E) as S.
  pose proof (variance_nonneg prices L) as V.
  destruct (Qltb 0 (mean prices)).
  - rewrite (sqrt_div_gt_pos _ _ (Q2R t) V S).
    rewrite orb_true_iff, !Qltb_Rlt, !Q2R_mult, RMicromega.Q2R_0.
    reflexivity.
  - rewrite (sqrt_div_gt_neg _ _ (Q2R t) V S).
    rewrite andb_true_iff, !Qltb_Rlt, !Q2R_mult, RMicromega.Q2R_0.
    reflexivity.
Qed.

End VolatilityFacts.

(** C3, as stated, fails: on two usable prices with a non-zero mean the
    function does not return the population coefficient of variation. *)
Lemma volatility_is_not_population_cv :
  (2 <= List.length [100; 200])%nat
  /\ ~ Aggregator.mean [100; 200] == 0
  /\ Aggregator._calculate_volatility [100; 200]
     <> Spec.population_cv [100; 200].
Proof.
  split; [simpl; lia | split; [discriminate|]].
  rewrite volatility_defined; [| simpl; lia | discriminate].
  unfold Spec.population_cv.
  replace (Q2R (Aggregator.variance [100; 200])) with 5000%R
    by (replace 5000%R with (Q2R 5000) by (unfold Q2R; simpl; field);
        apply Qeq_eqR; reflexivity).
  replace (Q2R (Spec.population_variance [100; 200])) with 2500%R
    by (replace 2500%R with (Q2R 2500) by (unfold Q2R; simpl; field);
        apply Qeq_eqR; reflexivity).
  replace (Q2R (Aggregator.mean [100; 200])) with 150%R
    by (replace 150%R with (Q2R 150) by (unfold Q2R; simpl; field);
        apply Qeq_eqR; reflexivity).
  intros E.
  assert (S : sqrt 5000 = sqrt 2500).
  { apply (Rmult_eq_reg_r (/ 150)); [exact E | apply Rinv_neq_0_compat; lra]. }
  apply sqrt_inj in S; lra.
Qed.

Lemma volatility_is_sample_cv_witness :
  Aggregator._calculate_volatility [100; 200] = Spec.sample_cv [100; 200].
Proof.
  apply (proj1 (volatility_is_sample_cv [100; 200])).
  - simpl. lia.
  - discriminate.
Defined.

(** ** Price-series extraction *)

(** *** The order on date strings *)

Lemma ascii_compare_lt_trans (a b c : ascii) :
  Ascii.compare a b = Lt -> Ascii.compare b c = Lt -> Ascii.compare a c = Lt.
Proof.
  unfold Ascii.compare. rewrite !N.compare_lt_iff. apply N.lt_trans.
Qed.

Lemma string_compare_lt_trans (s1 s2 s3 : string) :
  (s1 ?= s2)%string = Lt -> (s2 ?= s3)%string = Lt -> (s1 ?= s3)%string = Lt.
Proof.
  revert s2 s3. induction s1 as [|a s1 IH]; intros [|b s2] [|c s3]; simpl;
    try discriminate; try reflexivity.
  destruct (Ascii.compare a b) eqn:AB; try discriminate;
    destruct (Ascii.compare b c) eqn:BC; try discriminate; intros H1 H2.
  - apply Ascii.compare_eq_iff in AB, BC. subst.
    replace (Ascii.compare c c) with Eq; [now apply (IH s2)|].
    symmetry. unfold Ascii.compare. apply N.compare_refl.
  - apply Ascii.compare_eq_iff in AB. subst. now rewrite BC.
  - apply Ascii.compare_eq_iff in BC. subst. now rewrite AB.
  - now rewrite (ascii_compare_lt_trans a b c AB BC).
Qed.

Lemma string_compare_refl (s : string) : (s ?= s)%string = Eq.
Proof.
  pose proof (String.compare_antisym s s) as A.
  destruct (s ?= s)%string; [reflexivity | discriminate A | discriminate A].
Qed.

Lemma string_leb_cases (s t : string) :
  (s <=? t)%string = true <-> (s <? t)%string = true \/ s = t.
Proof.
  unfold String.leb, String.ltb. destruct (s ?= t)%string eqn:C.
  - split; [intros _ | reflexivity]. right. now apply String.compare_eq_iff.
  - split; [intros _ | reflexivity]. now left.
  - split; [discriminate|]. intros [H | ->]; [discriminate H|].
    rewrite string_compare_refl in C. discriminate C.
Qed.

Lemma string_leb_trans (s1 s2 s3 : string) :
  (s1 <=? s2)%string = true -> (s2 <=? s3)%string = true ->
  (s1 <=? s3)%string = true.
Proof.
  rewrite !string_leb_cases. intros [H1 | ->] [H2 | ->]; auto.
  left. unfold String.ltb in *.
  destruct (s1 ?= s2)%string eqn:C1; try discriminate.
  destruct (s2 ?= s3)%string eqn:C2; try discriminate.
  now rewrite (string_compare_lt_trans s1 s2 s3 C1 C2).
Qed.

Lemma string_gt_leb (s t : string) :
  (s <=? t)%string = false -> (t <=? s)%string = true.
Proof.
  intros H. destruct (String.leb_total s t) as [L | L]; congruence.
Qed.

(** *** The stable sort on dates *)

Section SortFacts.

Import Aggregator.

Lemma insert_by_date_perm (p : PricePoint) (l : list PricePoint) :
  Permutation (p :: l) (insert_by_date p l).
Proof.
  induction l as [|q l IH]; simpl; [reflexivity|].
  destruct (date p <=? date q)%string; [reflexivity|].
  rewrite perm_swap. now apply perm_skip.
Qed.

Lemma sorted_by_date_perm (l : list PricePoint) :
  Permutation l (sorted_by_date l).
Proof.
  induction l as [|p l IH]; simpl; [reflexivity|].
  rewrite <- insert_by_date_perm. now apply perm_skip.
Qed.

Lemma insert_by_date_sorted (p : PricePoint) (l : list PricePoint) :
  StronglySorted Spec.date_le l -> StronglySorted Spec.date_le (insert_by_date p l).
Proof.
  induction 1 as [|q l S IH F]; simpl.
  - repeat constructor.
  - destruct (date p <=? date q)%string eqn:C.
    + constructor; [now constructor|]. constructor; [exact C|].
      eapply Forall_impl; [|exact F]. intros r Hr.
      exact (string_leb_trans _ _ _ C Hr).
    + constructor; [exact IH|].
      rewrite <- (insert_by_date_perm p l). constructor; [|exact F].
      now apply string_gt_leb.
Qed.

Lemma sorted_by_date_sorted (l : list PricePoint) :
  StronglySorted Spec.date_le (sorted_by_date l).
Proof.
  induction l as [|p l IH]; simpl; [constructor|].
  now apply insert_by_date_sorted.
Qed.

(** Sorted with distinct dates is strictly sorted. *)
Lemma strictly_sorted (l : list PricePoint) :
  StronglySorted Spec.date_le l -> NoDup (map date l) -> StronglySorted Spec.date_lt l.
Proof.
  induction 1 as [|p l S IH F]; intros N; [constructor|].
  simpl in N. inversion N as [|d ds Hnot Hrest]; subst.
  constructor; [now apply IH|].
  rewrite Forall_forall in *. intros q Hq.
  destruct (proj1 (string_leb_cases _ _) (F q Hq)) as [L | E]; [exact L|].
  exfalso. apply Hnot. rewrite E. now apply in_map.
Qed.

End SortFacts.

(** *** The loop over the raw records *)

Section ExtractionFacts.

Import Aggregator.

Lemma point_of_date (item : value) (p : PricePoint) :
  point_of item = Ok p -> Spec.record_date item = VStr (date p).
Proof.
  unfold point_of, Spec.record_date.
  destruct (py_float (field item "value" (VNum 0))); [|discriminate].
  destruct (get (field item "cr" (VDict [])) "value" (VNum 0)) as [c|];
    [|discriminate].
  simpl bind. destruct (py_float c); [|discriminate].
  destruct (get (field item "sa3" (VDict [])) "value" (VNum 0)) as [s|];
    [|discriminate].
  simpl bind. destruct (py_float s); [|discriminate].
  simpl bind. destruct (field item "date" (VStr "")); try discriminate.
  intros [= <-]. reflexivity.
Qed.

Lemma seen_in (d : string) (acc : list PricePoint) :
  seen d acc = true <-> In d (map date acc).
Proof.
  unfold seen. rewrite existsb_exists, in_map_iff. split.
  - intros (p & Hp & E). apply String.eqb_eq in E. eauto.
  - intros (p & E & Hp). exists p. split; [exact Hp | now apply String.eqb_eq].
Qed.

(** Kept records are [sell_price] records of type [house]. *)
Lemma kept_wanted (item : value) :
  kept item = true ->
  field item "metric" VNone = VStr "sell_price"
  /\ field item "property_type" VNone = VStr "house".
Proof.
  unfold kept, wanted. rewrite !andb_true_iff. intros [[_ [M T]] _].
  unfold eq_str in M, T.
  destruct (field item "metric" VNone); try discriminate.
  destruct (field item "property_type" VNone); try discriminate.
  apply String.eqb_eq in M, T. now subst.
Qed.

Lemma first_kept_record_snoc (processed : list value) (item : value)
    (p : PricePoint) :
  Spec.first_kept_record processed p ->
  Spec.first_kept_record (processed ++ [item]) p.
Proof.
  intros (pre & it & post & E & K & P & F).
  exists pre, it, (post ++ [item])%list. repeat split; try assumption.
  rewrite E, <- app_assoc. reflexivity.
Qed.

Lemma extract_step_invariant (processed : list value)
    (acc out : list PricePoint) (item : value) :
  Spec.loop_invariant processed acc ->
  extract_step acc item = Ok out ->
  Spec.loop_invariant (processed ++ [item]) out.
Proof.
  intros (N & F & R). unfold extract_step.
  destruct (kept item) eqn:K; simpl.
  - destruct (point_of item) as [p|] eqn:P; [|discriminate]. simpl.
    pose proof (point_of_date item p P) as D.
    destruct (seen (date p) acc) eqn:S; intros [= <-].
    + split; [exact N|]. split.
      * intros q Hq. apply first_kept_record_snoc. now apply F.
      * intros it Hit Kit. apply in_app_or in Hit.
        destruct Hit as [Hit | [<- | []]]; [now apply R|].
        apply seen_in, in_map_iff in S. destruct S as (q & E & Hq).
        exists q. split; [exact Hq | now rewrite D, E].
    + assert (Fresh : ~ In (date p) (map date acc)).
      { intros I. apply seen_in in I. congruence. }
      split; [|split].
      * rewrite map_app. simpl. apply NoDup_app; [exact N | | ].
        -- repeat constructor. intros [].
        -- intros d Hd [<- | []]. contradiction.
      * intros q Hq. apply in_app_or in Hq.
        destruct Hq as [Hq | [<- | []]].
        -- apply first_kept_record_snoc. now apply F.
        -- exists processed, item, []. repeat split; try assumption.
           intros o Ho Ko Eo. destruct (R o Ho Ko) as (q & Hq & Eq).
           apply Fresh. rewrite Eo in Eq. injection Eq as ->.
           now apply in_map.
      * intros it Hit Kit. apply in_app_or in Hit.
        destruct Hit as [Hit | [<- | []]].
        -- destruct (R it Hit Kit) as (q & Hq & Eq).
           exists q. split; [apply in_or_app; now left | exact Eq].
        -- exists p. split; [apply in_or_app; right; now left | exact D].
  - intros [= <-]. split; [exact N|]. split.
    + intros q Hq. apply first_kept_record_snoc. now apply F.
    + intros it Hit Kit. apply in_app_or in Hit.
      destruct Hit as [Hit | [<- | []]]; [now apply R | congruence].
Qed.

Lemma extract_loop_invariant (items processed : list value)
    (acc out : list PricePoint) :
  Spec.loop_invariant processed acc ->
  extract_loop acc items = Ok out ->
  Spec.loop_invariant (processed ++ items) out.
Proof.
  revert processed acc. induction items as [|item items IH];
    intros processed acc I; simpl.
  - intros [= <-]. now rewrite app_nil_r.
  - destruct (extract_step acc item) as [acc'|] eqn:S; [|discriminate]. simpl.
    intros L. replace (processed ++ item :: items)%list
      with ((processed ++ [item]) ++ items)%list
      by (rewrite <- app_assoc; reflexivity).
    apply (IH _ acc'); [|exact L].
    now apply (extract_step_invariant processed acc).
Qed.

(** The loop returns as soon as every kept record converts. *)
Lemma extract_loop_returns (items : list value) (acc : list PricePoint) :
  (forall item, In item items -> kept item = true ->
                exists p, point_of item = Ok p) ->
  exists out, extract_loop acc items = Ok out.
Proof.
  revert acc. induction items as [|item items IH]; intros acc H; simpl.
  - eauto.
  - assert (S : exists acc', extract_step acc item = Ok acc').
    { unfold extract_step. destruct (kept item) eqn:K; simpl; [|eauto].
      destruct (H item (or_introl eq_refl) K) as (p & ->). simpl. eauto. }
    destruct S as (acc' & ->). simpl. apply IH.
    intros it Hit. apply H. now right.
Qed.

(** C8. Price-series extraction, on every list of raw records: the points
    returned are sorted by strictly ascending date string; each is the point
    of the first kept record carrying its date, a kept record being one of
    metric [sell_price] and type [house] (with a date); and every kept
    record's date is among the points.  The extraction returns whenever
    the kept records convert to points.  In particular two such records
    sharing a date yield exactly one point, with the values of the first. *)
Theorem price_series_first_per_date_sorted (items : list value) :
  (forall out, _extract_price_series (VList items) = Ok out ->
     StronglySorted Spec.date_lt out
     /\ (forall p, In p out ->
           Spec.first_kept_record items p
           /\ exists item, In item items /\ point_of item = Ok p
                /\ field item "metric" VNone = VStr "sell_price"
                /\ field item "property_type" VNone = VStr "house")
     /\ Spec.represented items out)
  /\ ((forall item, In item items -> kept item = true ->
                    exists p, point_of item = Ok p) ->
      exists out, _extract_price_series (VList items) = Ok out)
  /\ (forall (d : string) (v1 v2 c1 c2 s1 s2 : Q),
        d <> "" ->
        _extract_price_series
          (VList [Examples.record d v1 c1 s1; Examples.record d v2 c2 s2])
        = Ok [mk_point d v1 c1 s1]).
Proof.
  split; [|split].
  - intros out. unfold _extract_price_series.
    destruct (extract_loop [] items) as [acc|] eqn:L; [|discriminate]. simpl.
    intros [= <-].
    assert (I0 : Spec.loop_invariant [] []).
    { split; [constructor | split]; [intros p [] | intros it []]. }
    destruct (extract_loop_invariant items [] [] acc I0 L) as (N & F & R).
    simpl in F, R.
    pose proof (sorted_by_date_perm acc) as P.
    split; [|split].
    + apply strictly_sorted; [apply sorted_by_date_sorted|].
      eapply Permutation_NoDup; [|exact N]. now apply Permutation_map.
    + intros p Hp. apply Permutation_sym in P.
      pose proof (F p (Permutation_in p P Hp)) as FK. split; [exact FK|].
      destruct FK as (pre & item & post & E & K & Pt & _).
      exists item. split; [rewrite E; apply in_or_app; right; now left|].
      split; [exact Pt | now apply kept_wanted].
    + intros item Hitem K. destruct (R item Hitem K) as (p & Hp & E).
      exists p. split; [exact (Permutation_in p P Hp) | exact E].
  - intros H. unfold _extract_price_series.
    destruct (extract_loop_returns items [] H) as (acc & ->). simpl. eauto.
  - intros d v1 v2 c1 c2 s1 s2 Hd.
    assert (T : negb (d =? "")%string = true).
    { apply negb_true_iff, String.eqb_neq. exact Hd. }
    unfold _extract_price_series, extract_loop, extract_step, kept, point_of.
    simpl. rewrite T. simpl. rewrite String.eqb_refl. reflexivity.
Qed.

End ExtractionFacts.

Lemma price_series_first_per_date_sorted_witness :
  StronglySorted Spec.date_lt
    [Aggregator.mk_point "2020-01-01" 500000 480000 490000;
     Aggregator.mk_point "2021-01-01" 550000 520000 530000].
Proof.
  exact (proj1 (proj1 (price_series_first_per_date_sorted
                         [Examples.record "2021-01-01" 550000 520000 530000;
                          Examples.record "2020-01-01" 500000 480000 490000])
                  [Aggregator.mk_point "2020-01-01" 500000 480000 490000;
                   Aggregator.mk_point "2021-01-01" 550000 520000 530000]
                  eq_refl)).
Defined.

(** ** Canonicalisation *)

Lemma contains_first_key (k : string) (v : value) (d : list (string * value)) :
  contains (VDict ((k, v) :: d)) k = Ok true.
Proof. unfold contains. simpl. now rewrite String.eqb_refl. Qed.

Ltac bind_inv H :=
  match type of H with
  | Py.bind ?r _ = Ok _ =>
      let a := fresh "a" in
      let E := fresh "E" in
      destruct r as [a|] eqn:E; [cbn [Py.bind] in H | discriminate H]
  end.

Section ShapeFacts.

Import Aggregator.

Variable frontend : value -> result bool.
Variable transform : value -> result value.

(** What a transform must guarantee: its output is recognised as frontend
    format, or is left alone by a second pass. *)
Hypothesis transform_settles :
  forall raw t,
    frontend raw = Ok false -> transform raw = Ok t ->
    frontend t = Ok true \/ (frontend t = Ok false /\ transform t = Ok t).

Lemma get_with_idempotent (data out : value) (suburb_id : string) :
  get_with frontend transform data suburb_id = Ok out ->
  get_with frontend transform out suburb_id = Ok out.
Proof.
  intros H. unfold get_with in H.
  destruct (truthy_with data suburb_id) as [present|] eqn:T; [|discriminate H].
  cbn [bind] in H. destruct present; cbn [negb] in H.
  - destruct (getitem data suburb_id) as [raw|] eqn:G; [|discriminate H].
    cbn [bind] in H.
    destruct (frontend raw) as [[|]|] eqn:F; [| |discriminate H]; cbn [bind] in H.
    + injection H as <-. unfold get_with. rewrite T. cbn [bind negb].
      rewrite G. cbn [bind]. now rewrite F.
    + destruct (transform raw) as [t|] eqn:X; [|discriminate H].
      cbn [bind] in H. injection H as <-.
      unfold get_with, truthy_with. cbn [truthy].
      rewrite contains_first_key. cbn [bind negb].
      unfold getitem. cbn [lookup]. rewrite String.eqb_refl. cbn [bind].
      destruct (transform_settles raw t F X) as [S | [S1 S2]].
      * now rewrite S.
      * rewrite S1. cbn [bind]. now rewrite S2.
  - injection H as <-. unfold get_with. now rewrite T.
Qed.

End ShapeFacts.

Section CanonicalizationFacts.

Import Aggregator.

Variable arith : float_arith.
Variable strptime : string -> result Z.

Lemma market_trends_settles (raw t : value) :
  _transform_market_trends_data arith strptime raw = Ok t ->
  contains t "priceHistory" = Ok true.
Proof.
  unfold _transform_market_trends_data. intros H.
  bind_inv H. destruct a; cbn [negb] in H.
  - bind_inv H. bind_inv H. destruct a0 as [|p ps].
    + injection H as <-. reflexivity.
    + bind_inv H. injection H as <-. apply contains_first_key.
  - injection H as <-. reflexivity.
Qed.

Lemma demographics_settles (raw t : value) :
  _transform_demographics_data raw = Ok t ->
  t = VDict [] \/ contains t "ageDistribution" = Ok true.
Proof.
  unfold _transform_demographics_data. intros H.
  destruct (truthy raw); cbn [negb] in H.
  - right. do 4 bind_inv H. injection H as <-. apply contains_first_key.
  - left. now injection H as <-.
Qed.

Lemma amenities_settles (raw t : value) :
  _transform_amenities_data raw = Ok t ->
  frontend_list t "categories" "name" = Ok true \/ t = raw.
Proof.
  unfold _transform_amenities_data. intros H.
  destruct (truthy raw); cbn [negb] in H.
  - bind_inv H. destruct a.
    + left. do 4 bind_inv H. injection H as <-.
      unfold frontend_list. rewrite contains_first_key. cbn [bind].
      unfold getitem. cbn [lookup]. rewrite String.eqb_refl. cbn [bind].
      destruct (sort_desc _ a1) as [|cc rest]; [reflexivity|].
      cbn [map]. apply contains_first_key.
    + right. now injection H as <-.
  - left. injection H as <-. reflexivity.
Qed.

Lemma school_entry_named (item school : value) :
  school_entry item = Ok school -> contains school "name" = Ok true.
Proof.
  unfold school_entry. destruct item; try discriminate. intros H.
  do 2 bind_inv H. injection H as <-. apply contains_first_key.
Qed.

Lemma schools_loop_head (items : list value) (school : value)
    (rest : list value) :
  schools_loop items = Ok (school :: rest) ->
  contains school "name" = Ok true.
Proof.
  induction items as [|item items IH]; cbn [schools_loop]; [discriminate|].
  destruct (is_dict item); [|exact IH].
  intros H. do 2 bind_inv H. injection H as <- _.
  now apply (school_entry_named item).
Qed.

Lemma schools_settles (raw t : value) :
  _transform_schools_data raw = Ok t ->
  frontend_list t "schools" "name" = Ok true \/ t = raw.
Proof.
  unfold _transform_schools_data. intros H.
  destruct (truthy raw); cbn [negb] in H.
  - bind_inv H. destruct a.
    + left. do 3 bind_inv H. injection H as <-.
      unfold frontend_list. rewrite contains_first_key. cbn [bind].
      unfold getitem. cbn [lookup]. rewrite String.eqb_refl. cbn [bind].
      destruct a1 as [|school rest]; [reflexivity|].
      now apply (schools_loop_head a0 school rest).
    + right. now injection H as <-.
  - left. injection H as <-. reflexivity.
Qed.

Lemma developments_loop_head (idx : nat) (items : list value) :
  match developments_loop idx items with
  | [] => True
  | development :: _ => contains development "id" = Ok true
  end.
Proof.
  revert idx. induction items as [|item items IH]; intros idx;
    cbn [developments_loop]; [exact I|].
  destruct (is_dict item); [apply contains_first_key | apply IH].
Qed.

Lemma developments_settles (raw t : value) :
  _transform_developments_data raw = Ok t ->
  frontend_list t "developments" "id" = Ok true \/ t = raw.
Proof.
  unfold _transform_developments_data. intros H.
  destruct (truthy raw); cbn [negb] in H.
  - bind_inv H. destruct a.
    + left. do 3 bind_inv H. injection H as <-.
      unfold frontend_list. rewrite contains_first_key. cbn [bind].
      unfold getitem. cbn [lookup]. rewrite String.eqb_refl. cbn [bind].
      pose proof (developments_loop_head 0 a0) as D.
      destruct (developments_loop 0 a0); [reflexivity | exact D].
    + right. now injection H as <-.
  - left. injection H as <-. reflexivity.
Qed.

(** A second pass returns the output of the first, for each domain. *)
Lemma canonicalize_stable (dom : domain) (suburb_id : string) (x out : value) :
  canonicalize arith strptime dom suburb_id x = Ok out ->
  canonicalize arith strptime dom suburb_id out = Ok out.
Proof.
  destruct dom; cbn [canonicalize].
  - apply (get_with_idempotent
             (fun raw => contains raw "ageDistribution")
             _transform_demographics_data).
    intros raw t F X. destruct (demographics_settles raw t X) as [-> | S].
    + right. split; reflexivity.
    + now left.
  - apply (get_with_idempotent
             (fun raw => frontend_list raw "categories" "name")
             _transform_amenities_data).
    intros raw t F X. destruct (amenities_settles raw t X) as [S | ->].
    + now left.
    + right. now split.
  - apply (get_with_idempotent
             (fun raw => frontend_list raw "schools" "name")
             _transform_schools_data).
    intros raw t F X. destruct (schools_settles raw t X) as [S | ->].
    + now left.
    + right. now split.
  - apply (get_with_idempotent
             (fun raw => frontend_list raw "developments" "id")
             _transform_developments_data).
    intros raw t F X. destruct (developments_settles raw t X) as [S | ->].
    + now left.
    + right. now split.
  - apply (get_with_idempotent
             (fun raw => contains raw "priceHistory")
             (_transform_market_trends_data arith strptime)).
    intros raw t F X. left. now apply (market_trends_settles raw).
Qed.

(** C9. For every domain and every payload, canonicalising the output of
    a canonicalisation returns that output unchanged: composing the
    operation with itself (an exception of the first pass ending the
    composition) is the operation itself. *)
Theorem canonicalize_idempotent (dom : domain) (suburb_id : string) (x : value) :
  (once <- canonicalize arith strptime dom suburb_id x ;;
   canonicalize arith strptime dom suburb_id once)
  = canonicalize arith strptime dom suburb_id x.
Proof.
  destruct (canonicalize arith strptime dom suburb_id x) as [out|e] eqn:E;
    cbn [bind]; [|reflexivity].
  exact (canonicalize_stable dom suburb_id x out E).
Qed.

End CanonicalizationFacts.

(** On a raw payload the market-trends canonicalisation builds the
    frontend structure, which a second pass leaves as it is. *)
Example canonicalize_raw_trends :
  exists t,
    Aggregator.canonicalize exact_arith Calendar.iso_strptime
      Aggregator.MarketTrendsDomain
      "carlton-3053" Examples.raw_trends
    = Ok (VDict [("carlton-3053", t)])
    /\ contains t "priceHistory" = Ok true
    /\ contains t "results" = Ok false.
Proof. eexists. split; [reflexivity | split; reflexivity]. Qed.

(* ================================================================= *)
(** * Further properties *)

(** ** The coordinator: falling back *)

Section FallbackFacts.

Import Composite.

Context {W : Type}.
Variables api_repo file_repo : repository W.

Local Abbreviation run rq w := (perform api_repo file_repo rq (w, [])).

Lemma try_api_then_file_miss (m : method) (a : call_args) (w w1 : W)
    (r : result value) :
  invoke api_repo m a w = (r, w1) ->
  Spec2.silent r = true ->
  _try_api_then_file api_repo file_repo m a (w, [])
  = file_fallback file_repo m a (w1, [ApiCall m a]).
Proof.
  intros E S. unfold _try_api_then_file, mbind, call_api. rewrite E. simpl.
  destruct r as [v|e]; [|reflexivity].
  simpl in S. apply negb_true_iff in S. now rewrite S.
Qed.

(** X1. When the remote adapter has no data (it raises or returns a falsy
    value) and the local adapter, called on the world the remote call left
    behind, returns a truthy value, a guarded operation returns that value,
    after exactly one call to each adapter. *)
Theorem fallback_returns_local_data (rq : request) (w w1 w2 : W)
    (r : result value) (v : value) :
  is_street_rankings rq = false ->
  invoke api_repo (method_of rq) (args_of rq) w = (r, w1) ->
  Spec2.silent r = true ->
  invoke file_repo (method_of rq) (args_of rq) w1 = (Ok v, w2) ->
  truthy v = true ->
  run rq w
  = (Ok v, (w2, [ApiCall (method_of rq) (args_of rq);
                 FileCall (method_of rq) (args_of rq)])).
Proof.
  intros G E S F T.
  assert (R : _try_api_then_file api_repo file_repo (method_of rq) (args_of rq)
                (w, [])
              = (Ok v, (w2, [ApiCall (method_of rq) (args_of rq);
                             FileCall (method_of rq) (args_of rq)]))).
  { rewrite (try_api_then_file_miss _ _ _ _ _ E S).
    unfold file_fallback, mbind, call_file. rewrite F. simpl. now rewrite T. }
  destruct rq; try discriminate G; try exact R.
  simpl in *. unfold search_suburbs, mbind. rewrite R. now rewrite T.
Qed.

(** X2. When neither adapter has data (each raises or returns a falsy
    value), a guarded operation returns [None], and [search_suburbs] the
    empty list; no exception and no falsy value of an adapter comes
    through. *)
Theorem no_data_anywhere_gives_none (rq : request) (w w1 w2 : W)
    (r r' : result value) :
  is_street_rankings rq = false ->
  invoke api_repo (method_of rq) (args_of rq) w = (r, w1) ->
  Spec2.silent r = true ->
  invoke file_repo (method_of rq) (args_of rq) w1 = (r', w2) ->
  Spec2.silent r' = true ->
  fst (run rq w) = Ok (Spec2.nothing rq).
Proof.
  intros G E S F S'.
  assert (R : _try_api_then_file api_repo file_repo (method_of rq) (args_of rq)
                (w, [])
              = (Ok VNone, (w2, [ApiCall (method_of rq) (args_of rq);
                                 FileCall (method_of rq) (args_of rq)]))).
  { rewrite (try_api_then_file_miss _ _ _ _ _ E S).
    unfold file_fallback, mbind, call_file. rewrite F. simpl.
    destruct r' as [v|e]; [|reflexivity].
    simpl in S'. apply negb_true_iff in S'. now rewrite S'. }
  destruct rq; try discriminate G; simpl in *;
    try (unfold get_suburb_info, get_suburb_summary, get_demographics,
           get_amenities, get_market_trends, get_schools, get_developments,
           get_market_insights, get_pocket_insights, get_street_insights,
           get_risk_factors, get_school_catchments, get_zoning,
           get_similar_suburbs; now rewrite R).
  unfold search_suburbs, mbind. now rewrite R.
Qed.

End FallbackFacts.

Lemma fallback_returns_local_data_witness :
  Composite.perform Examples.api_down Examples2.file_up
    (Composite.Demographics "carlton-3053") (0%nat, [])
  = (Ok Examples2.file_answer,
     (1%nat, [Composite.ApiCall Composite.M_get_demographics
                (Composite.args1 "carlton-3053");
              Composite.FileCall Composite.M_get_demographics
                (Composite.args1 "carlton-3053")])).
Proof.
  exact (fallback_returns_local_data Examples.api_down Examples2.file_up
           (Composite.Demographics "carlton-3053") 0%nat 1%nat 1%nat
           (Raise (OtherError "connection refused")) Examples2.file_answer
           eq_refl eq_refl eq_refl eq_refl eq_refl).
Defined.

Lemma no_data_anywhere_gives_none_witness :
  fst (Composite.perform Examples2.api_silent Examples.file_empty
         (Composite.Search "carl") (0%nat, []))
  = Ok (VList []).
Proof.
  exact (no_data_anywhere_gives_none Examples2.api_silent Examples.file_empty
           (Composite.Search "carl") 0%nat 1%nat 1%nat (Ok VNone) (Ok VNone)
           eq_refl eq_refl eq_refl eq_refl eq_refl).
Defined.

(** ** The local adapter: entries, keys and malformed snapshots *)

Section FileRepoMoreFacts.

Import Composite FileRepo.

Lemma entry_or_first_present (id : string) (v e : value)
    (d : list (string * value)) :
  lookup id d = Some v ->
  entry_or_first (VDict d) id e = Ok (VDict [(id, v)]).
Proof.
  intros L. unfold entry_or_first.
  assert (T : truthy (VDict d) = true) by (destruct d; [discriminate L | reflexivity]).
  rewrite T. unfold contains. rewrite L. simpl. now rewrite L.
Qed.

(** X3. For the five operations that can substitute: when the snapshot
    holds an entry for the requested identifier, that entry is returned
    under the identifier, and nothing is substituted. *)
Theorem present_entry_is_returned (fs : file_system) (rq : request)
    (f : string) (d : list (string * value)) (v : value) :
  substitutes rq = true ->
  snapshot_of rq = Some f ->
  fs f = Parsed (VDict d) ->
  lookup (subject (args_of rq)) d = Some v ->
  perform fs rq = Ok (VDict [(subject (args_of rq), v)]).
Proof.
  intros S Hf Hfs L.
  destruct rq; try discriminate S; simpl in *;
    injection Hf as <-;
    unfold get_demographics, get_amenities, get_market_trends, get_schools,
      get_developments, _load_file;
    rewrite Hfs; now apply entry_or_first_present.
Qed.

Lemma entry_or_first_keyed (data : value) (id : string) (e out : value) :
  entry_or_first data id e = Ok out -> exists x, out = VDict [(id, x)].
Proof.
  unfold entry_or_first. intros H. bind_inv H. destruct a.
  - bind_inv H. injection H as <-. eauto.
  - destruct (truthy data).
    + do 2 bind_inv H. injection H as <-. eauto.
    + injection H as <-. eauto.
Qed.

Lemma entry_or_default_keyed (data : value) (id : string) (e out : value) :
  entry_or_default data id e = Ok out -> exists x, out = VDict [(id, x)].
Proof.
  unfold entry_or_default. intros H. destruct (truthy data).
  - bind_inv H. injection H as <-. eauto.
  - injection H as <-. eauto.
Qed.

(** X4. Twelve operations of the local adapter (all but [search_suburbs],
    [get_suburb_info], [get_suburb_summary] and [get_street_rankings])
    answer, whenever they return, with a dict of exactly one item whose key
    is the requested identifier, whatever the snapshot holds. *)
Theorem answers_are_keyed_by_request (fs : file_system) (rq : request)
    (out : value) :
  Wiring.keyed rq = true ->
  perform fs rq = Ok out ->
  exists x, out = VDict [(subject (args_of rq), x)]
            /\ truthy out = true.
Proof.
  intros K H.
  assert (E : exists x, out = VDict [(subject (args_of rq), x)]).
  { destruct rq; try discriminate K; simpl in *;
      solve [ eapply entry_or_first_keyed; exact H
            | eapply entry_or_default_keyed; exact H ]. }
  destruct E as (x & ->). eauto.
Qed.

Lemma entry_or_first_dict (d : list (string * value)) (id : string) (e : value) :
  exists v, entry_or_first (VDict d) id e = Ok v.
Proof.
  destruct (lookup id d) as [v|] eqn:L.
  - rewrite (entry_or_first_present id v e d L). eauto.
  - destruct d as [|[k v] rest].
    + unfold entry_or_first. simpl. eauto.
    + rewrite (entry_or_first_absent id k v e rest L). eauto.
Qed.

(** X5. No operation of the local adapter other than [search_suburbs]
    raises when its snapshot file is unavailable or parses to a JSON
    object. *)
Theorem object_snapshots_never_raise (fs : file_system) (rq : request) :
  (forall q, rq <> Search q) ->
  (forall f, snapshot_of rq = Some f ->
             unavailable (fs f) \/ exists d, fs f = Parsed (VDict d)) ->
  exists v, perform fs rq = Ok v.
Proof.
  intros NS H.
  assert (L : forall f, snapshot_of rq = Some f ->
                _load_file fs f = VNone \/ exists d, _load_file fs f = VDict d).
  { intros f Hf. destruct (H f Hf) as [U | (d & E)].
    - left. now apply load_unavailable.
    - right. exists d. unfold _load_file. now rewrite E. }
  clear H.
  destruct rq; simpl in *;
    try (exfalso; eapply NS; reflexivity);
    try (destruct (L _ eq_refl) as [E | (d & E)]);
    unfold get_suburb_info, get_suburb_summary, get_demographics,
      get_amenities, get_market_trends, get_schools, get_developments,
      get_market_insights, get_pocket_insights, get_street_insights,
      get_risk_factors, get_school_catchments, get_zoning,
      get_similar_suburbs, get_street_rankings;
    try rewrite E;
    try (apply entry_or_first_dict);
    try (unfold entry_or_first, entry_or_default; simpl; now eauto);
    try (unfold entry_or_default; destruct d; simpl; now eauto);
    try (destruct d; simpl; now eauto).
Qed.

(** X6. A snapshot that parses to a non-empty JSON array instead of an
    object makes every operation that reads it raise. *)
Theorem array_snapshots_raise (fs : file_system) (rq : request) (f : string)
    (x : value) (l : list value) :
  snapshot_of rq = Some f ->
  fs f = Parsed (VList (x :: l)) ->
  exists e, perform fs rq = Raise e.
Proof.
  intros Hf Hfs.
  destruct rq; simpl in *; try discriminate Hf; injection Hf as <-;
    unfold search_suburbs, get_suburb_info, get_suburb_summary,
      get_demographics, get_amenities, get_market_trends, get_schools,
      get_developments, get_market_insights, get_pocket_insights,
      get_street_insights, get_risk_factors, get_school_catchments,
      get_zoning, get_similar_suburbs, _load_file;
    rewrite Hfs;
    try (unfold entry_or_default; simpl; now eauto);
    try (simpl; now eauto);
    unfold entry_or_first; cbn [truthy contains bind];
    destruct (existsb _ (x :: l)); simpl; eauto.
Qed.

End FileRepoMoreFacts.

Lemma present_entry_is_returned_witness :
  FileRepo.perform Examples.fs_carlton (Composite.Schools "carlton-3053")
  = Ok (VDict [("carlton-3053", Examples.carlton)]).
Proof.
  exact (present_entry_is_returned Examples.fs_carlton
           (Composite.Schools "carlton-3053") "schools.json"
           Examples.snapshot Examples.carlton eq_refl eq_refl eq_refl eq_refl).
Defined.

Lemma answers_are_keyed_by_request_witness :
  exists x,
    VDict [("fitzroy-3065", VDict [])] = VDict [("fitzroy-3065", x)]
    /\ truthy (VDict [("fitzroy-3065", VDict [])]) = true.
Proof.
  exact (answers_are_keyed_by_request Examples.fs_carlton
           (Composite.Zoning "fitzroy-3065" true)
           (VDict [("fitzroy-3065", VDict [])]) eq_refl eq_refl).
Defined.

Lemma object_snapshots_never_raise_witness :
  exists v,
    FileRepo.perform Examples.fs_carlton (Composite.Info "fitzroy-3065" true)
    = Ok v.
Proof.
  apply (object_snapshots_never_raise Examples.fs_carlton
           (Composite.Info "fitzroy-3065" true)).
  - intros q. discriminate.
  - intros f _. right. exists Examples.snapshot. reflexivity.
Defined.

Lemma array_snapshots_raise_witness :
  exists e,
    FileRepo.perform Examples2.array_snapshot
      (Composite.Demographics "carlton-3053") = Raise e.
Proof.
  exact (array_snapshots_raise Examples2.array_snapshot
           (Composite.Demographics "carlton-3053") "demographics.json"
           (VStr "carlton-3053") [] eq_refl eq_refl).
Defined.

(** ** The local adapter: searching *)

Lemma in_firstn {A : Type} (n : nat) (l : list A) (x : A) :
  In x (firstn n l) -> In x l.
Proof.
  intros H. rewrite <- (firstn_skipn n l). apply in_or_app. now left.
Qed.

Section SearchFacts.

Import FileRepo.

Lemma filter_by_name_sound (query_lower : string) (suburbs kept : list value) :
  filter_by_name query_lower suburbs = Ok kept ->
  (List.length kept <= List.length suburbs)%nat
  /\ forall s, In s kept ->
       In s suburbs
       /\ exists n, get s "name" (VStr "") = Ok (VStr n)
                    /\ substring_of query_lower (lower n) = true.
Proof.
  revert kept. induction suburbs as [|s rest IH]; intros kept H.
  - injection H as <-. split; [simpl; lia | intros s []].
  - cbn [filter_by_name] in H. bind_inv H.
    destruct a; try discriminate H. bind_inv H.
    destruct (IH a eq_refl) as [Len All].
    destruct (substring_of query_lower (lower s0)) eqn:M; injection H as <-.
    + split; [simpl; lia|]. intros x [<- | Hx].
      * split; [now left | eauto].
      * destruct (All x Hx) as [I N]. split; [now right | exact N].
    + split; [simpl; lia|]. intros x Hx.
      destruct (All x Hx) as [I N]. split; [now right | exact N].
Qed.

(** X7. Whatever the snapshot and the query, a search of the local
    adapter that returns gives a list of at most 10 entries, each taken from
    the ["suburbs"] list of the snapshot and, for a non-empty query, each
    with a name that contains the query, case ignored. *)
Theorem search_results_are_bounded_matches (fs : file_system) (query : string)
    (out : value) :
  search_suburbs fs query = Ok out ->
  exists found,
    out = VList found
    /\ (List.length found <= 10)%nat
    /\ forall s, In s found ->
         (exists suburbs,
            get (_load_file fs "suburbs.json") "suburbs" (VList [])
            = Ok (VList suburbs) /\ In s suburbs)
         /\ (query <> "" ->
             exists n, get s "name" (VStr "") = Ok (VStr n)
                       /\ substring_of (lower query) (lower n) = true).
Proof.
  unfold search_suburbs. intros H.
  destruct (truthy (_load_file fs "suburbs.json")); cbn [negb] in H.
  - bind_inv H. destruct a; try discriminate H. bind_inv H.
    injection H as <-. exists (firstn 10 a). split; [reflexivity|].
    split; [apply firstn_le_length|].
    intros s Hs. apply in_firstn in Hs.
    destruct (query =? "")%string eqn:Q; cbn [negb] in E0.
    + injection E0 as <-. split; [eauto|].
      apply String.eqb_eq in Q. intros N. contradiction.
    + destruct (filter_by_name_sound _ _ _ E0) as [_ All].
      destruct (All s Hs) as [I N]. split; [eauto | intros _; exact N].
  - injection H as <-. exists []. split; [reflexivity|].
    split; [simpl; lia | intros s []].
Qed.

Lemma lower_ascii_idempotent (c : ascii) :
  lower_ascii (lower_ascii c) = lower_ascii c.
Proof. destruct c as [[] [] [] [] [] [] [] []]; reflexivity. Qed.

Lemma lower_idempotent (s : string) : lower (lower s) = lower s.
Proof.
  induction s as [|c s IH]; simpl; [reflexivity|].
  now rewrite lower_ascii_idempotent, IH.
Qed.

Lemma lower_empty (s : string) : (lower s =? "")%string = (s =? "")%string.
Proof. destruct s; reflexivity. Qed.

(** X8. The search of the local adapter ignores the case of the query:
    a query and its lower-cased form give the same outcome. *)
Theorem search_ignores_query_case (fs : file_system) (query : string) :
  search_suburbs fs (lower query) = search_suburbs fs query.
Proof.
  unfold search_suburbs. now rewrite lower_empty, lower_idempotent.
Qed.

End SearchFacts.

Lemma search_results_are_bounded_matches_witness :
  exists found,
    VList [VDict [("name", VStr "Carlton")];
           VDict [("name", VStr "Carlton North")]] = VList found
    /\ (List.length found <= 10)%nat.
Proof.
  destruct (search_results_are_bounded_matches Examples2.suburbs_snapshot
              "CARL"
              (VList [VDict [("name", VStr "Carlton")];
                      VDict [("name", VStr "Carlton North")]])
              eq_refl) as (found & E & L & _).
  exists found. split; [exact E | exact L].
Defined.

(** ** The local adapter behind the coordinator *)

Section WiringFacts.

Import Composite.

(** A request is recovered from the method name and the arguments it is
    sent with. *)
Lemma request_of_method_args (rq : request) :
  Wiring.request_of (method_of rq) (args_of rq) = rq.
Proof. destruct rq; reflexivity. Qed.

Context {W : Type}.
Variable api_repo : repository W.

(** X9. With the file repository as the local adapter: when the remote
    adapter has no data and the snapshot file is unavailable or parses to a
    JSON object, each of the twelve keyed operations returns, through the
    coordinator, a non-empty dict keyed by the requested identifier: the
    caller is never told that nothing was found. *)
Theorem remote_down_never_not_found (fs : FileRepo.file_system) (rq : request)
    (w w1 : W) (r : result value) :
  Wiring.keyed rq = true ->
  invoke api_repo (method_of rq) (args_of rq) w = (r, w1) ->
  Spec2.silent r = true ->
  (forall f, FileRepo.snapshot_of rq = Some f ->
             FileRepo.unavailable (fs f)
             \/ exists d, fs f = FileRepo.Parsed (VDict d)) ->
  exists x,
    fst (perform api_repo (Wiring.file_repository fs) rq (w, []))
    = Ok (VDict [(subject (args_of rq), x)]).
Proof.
  intros K E S H.
  assert (NS : forall q, rq <> Search q) by (intros q ->; discriminate K).
  destruct (object_snapshots_never_raise fs rq NS H) as (v & P).
  destruct (answers_are_keyed_by_request fs rq v K P) as (x & -> & T).
  exists x.
  rewrite (fallback_returns_local_data api_repo (Wiring.file_repository fs)
             rq w w1 w1 r (VDict [(subject (args_of rq), x)])).
  - reflexivity.
  - destruct rq; try discriminate K; reflexivity.
  - exact E.
  - exact S.
  - simpl. now rewrite request_of_method_args, P.
  - exact T.
Qed.

End WiringFacts.

Lemma remote_down_never_not_found_witness :
  exists x,
    fst (Composite.perform Examples.api_down
           (Wiring.file_repository Examples.fs_missing)
           (Composite.Demographics "carlton-3053") (0%nat, []))
    = Ok (VDict [("carlton-3053", x)]).
Proof.
  apply (remote_down_never_not_found Examples.api_down Examples.fs_missing
           (Composite.Demographics "carlton-3053") 0%nat 1%nat
           (Raise (OtherError "connection refused")) eq_refl eq_refl eq_refl).
  intros f _. left. left. reflexivity.
Defined.

(** ** Price-series extraction: filtering and round trip *)

Section ExtractionMoreFacts.

Import Aggregator.

Lemma extract_loop_filter (items : list value) (acc : list PricePoint) :
  extract_loop acc (filter kept items) = extract_loop acc items.
Proof.
  revert acc. induction items as [|item items IH]; intros acc; [reflexivity|].
  cbn [filter extract_loop]. destruct (kept item) eqn:K.
  - cbn [extract_loop]. destruct (extract_step acc item); [apply IH | reflexivity].
  - unfold extract_step. rewrite K. cbn [negb bind]. apply IH.
Qed.

(** X10. Records that are not kept (not a dict, another metric or
    property type, no date) have no influence on the extraction, not even
    through an exception: removing them beforehand changes nothing. *)
Theorem extraction_ignores_other_records (items : list value) :
  _extract_price_series (VList (filter kept items))
  = _extract_price_series (VList items).
Proof.
  unfold _extract_price_series. now rewrite extract_loop_filter.
Qed.

Lemma extract_step_to_record (acc : list PricePoint) (p : PricePoint) :
  date p <> "" ->
  extract_step acc (Spec2.to_record p)
  = Ok (if seen (date p) acc then acc else (acc ++ [p])%list).
Proof.
  intros D. destruct p as [d s c a]. cbn [date] in *.
  assert (T : negb (d =? "")%string = true).
  { apply negb_true_iff, String.eqb_neq. exact D. }
  unfold extract_step, kept, point_of, Spec2.to_record, Examples.record.
  simpl. rewrite T. reflexivity.
Qed.

Lemma extract_loop_records (l acc : list PricePoint) :
  Forall (fun p => date p <> "") l ->
  NoDup (map date (acc ++ l)) ->
  extract_loop acc (map Spec2.to_record l) = Ok (acc ++ l)%list.
Proof.
  revert acc. induction l as [|p l IH]; intros acc F N.
  - simpl. now rewrite app_nil_r.
  - inversion F as [|? ? D F']; subst. cbn [map extract_loop].
    rewrite (extract_step_to_record acc p D).
    assert (S : seen (date p) acc = false).
    { destruct (seen (date p) acc) eqn:S; [|reflexivity]. exfalso.
      apply seen_in in S. rewrite map_app in N. cbn [map] in N.
      apply NoDup_remove_2 in N. apply N. apply in_or_app. now left. }
    rewrite S. cbn [bind].
    replace (acc ++ p :: l)%list with ((acc ++ [p]) ++ l)%list
      by (rewrite <- app_assoc; reflexivity).
    apply IH; [exact F'|]. rewrite <- app_assoc. exact N.
Qed.

Lemma string_ltb_irrefl (s : string) : (s <? s)%string = false.
Proof. unfold String.ltb. now rewrite string_compare_refl. Qed.

Lemma strictly_sorted_distinct (l : list PricePoint) :
  StronglySorted Spec.date_lt l -> NoDup (map date l).
Proof.
  induction 1 as [|p l S IH F]; [constructor|].
  cbn [map]. constructor; [|exact IH].
  intros I. apply in_map_iff in I. destruct I as (q & E & Hq).
  rewrite Forall_forall in F. specialize (F q Hq).
  unfold Spec.date_lt in F. rewrite E, string_ltb_irrefl in F. discriminate F.
Qed.

Lemma sorted_by_date_fixed (l : list PricePoint) :
  StronglySorted Spec.date_lt l -> sorted_by_date l = l.
Proof.
  induction 1 as [|p l S IH F]; [reflexivity|].
  cbn [sorted_by_date]. rewrite IH. destruct l as [|q l']; [reflexivity|].
  cbn [insert_by_date]. inversion F as [|? ? L _]; subst.
  unfold Spec.date_lt in L.
  now rewrite (proj2 (string_leb_cases _ _) (or_introl L)).
Qed.

(** X11. Round trip: writing the points of a series with strictly
    ascending, non-empty dates as raw [sell_price]/[house] records and
    extracting them gives the series back. *)
Theorem extraction_round_trip (series : list PricePoint) :
  StronglySorted Spec.date_lt series ->
  Forall (fun p => date p <> "") series ->
  _extract_price_series (VList (map Spec2.to_record series)) = Ok series.
Proof.
  intros S F. unfold _extract_price_series.
  rewrite (extract_loop_records series [] F (strictly_sorted_distinct series S)).
  cbn [bind app]. now rewrite (sorted_by_date_fixed series S).
Qed.

End ExtractionMoreFacts.

Lemma extraction_round_trip_witness :
  Aggregator._extract_price_series
    (VList (map Spec2.to_record Examples.two_years))
  = Ok Examples.two_years.
Proof.
  apply (extraction_round_trip Examples.two_years).
  - repeat constructor.
  - repeat constructor; discriminate.
Defined.

(** ** Current metrics and regional comparison *)

Section MetricsMoreFacts.

Import Aggregator.

Variable arith : float_arith.
Variable strptime : string -> result Z.
Variable day_of : PricePoint -> Z.

(** X12. A series whose prices all equal the current price (a single
    point, a flat market) has 1-year, 5-year and total growth 0, provided
    its dates parse and the last one is at least 1825 days after
    [datetime.min]. *)
Theorem flat_series_has_no_growth (first : PricePoint) (rest : list PricePoint) :
  let series := first :: rest in
  let latest := last series first in
  (forall p, In p series -> strptime (date p) = Ok (day_of p)) ->
  (1 <= day_of latest - 1825)%Z ->
  (forall p, In p series -> suburb p == suburb latest) ->
  _calculate_current_metrics arith strptime series
  = Ok (mk_metrics (py_int (suburb latest)) 0 0 0).
Proof.
  intros series latest Hparse Hmin Hflat.
  assert (Hlatest : In latest series) by apply last_in_cons.
  assert (B : forall since,
             exists b, scan_baseline strptime since series (suburb latest) = Ok b
                       /\ b == suburb latest).
  { intros since. rewrite (scan_baseline_find strptime day_of _ _ _ Hparse).
    eexists. split; [reflexivity|].
    destruct (find _ series) as [p|] eqn:F; [|reflexivity].
    apply find_some in F. now apply Hflat. }
  unfold _calculate_current_metrics, series. fold series. fold latest.
  rewrite (Hparse latest Hlatest). cbn [bind]. unfold minus_days.
  replace (day_of latest - 365 <? 1)%Z with false by (symmetry; apply Z.ltb_ge; lia).
  replace (day_of latest - 365 * 5 <? 1)%Z with false by (symmetry; apply Z.ltb_ge; lia).
  cbn [bind].
  destruct (B (day_of latest - 365)%Z) as (b1 & -> & E1).
  destruct (B (day_of latest - 365 * 5)%Z) as (b5 & -> & E5).
  cbn [bind].
  rewrite (growth_of_equal arith _ _ E1), (growth_of_equal arith _ _ E5).
  rewrite growth_of_equal; [reflexivity|].
  destruct (Qltb 0 (suburb first)); [|reflexivity].
  apply Hflat. now left.
Qed.

Lemma region_status (suburb_price region_value : Q) :
  below_or_above (region_diff suburb_price region_value) = "below"
  <-> 0 < region_value /\ suburb_price < region_value.
Proof.
  unfold below_or_above, region_diff.
  destruct (Qltb 0 region_value) eqn:P.
  - apply Qltb_lt in P.
    assert (N : ~ region_value == 0) by (intros Z; rewrite Z in P; discriminate P).
    assert (E : (suburb_price - region_value) / region_value * 100 * region_value
                == (suburb_price - region_value) * 100) by (field; exact N).
    destruct (Qltb ((suburb_price - region_value) / region_value * 100) 0) eqn:L.
    + split; [intros _ | reflexivity]. split; [exact P|].
      apply Qltb_lt in L.
      apply (Qmult_lt_compat_r _ _ region_value P) in L.
      rewrite E, Qmult_0_l in L. lra.
    + split; [discriminate|]. intros [_ B]. exfalso.
      apply Qltb_ge in L.
      apply (Qmult_le_compat_r _ _ region_value) in L; [|now apply Qlt_le_weak].
      rewrite E, Qmult_0_l in L. lra.
  - apply Qltb_ge in P. split.
    + intros H. exfalso. revert H.
      assert (Z : Qltb 0 0 = false) by reflexivity. rewrite Z. discriminate.
    + intros [B _]. exfalso. exact (Qlt_not_le _ _ B P).
Qed.

(** X13. On a non-empty series the status of a regional comparison is
    "below" exactly when the region value is positive and the suburb value
    lies strictly under it; in every other case (equal or higher value,
    region value zero or negative) it is "above". *)
Theorem status_is_below_iff (first : PricePoint) (rest : list PricePoint) :
  let series := first :: rest in
  let latest := last series first in
  (status (cmp_cr (_calculate_regional_comparison series)) = "below"
   <-> 0 < cr latest /\ suburb latest < cr latest)
  /\ (status (cmp_sa3 (_calculate_regional_comparison series)) = "below"
      <-> 0 < sa3 latest /\ suburb latest < sa3 latest)
  /\ (status (cmp_cr (_calculate_regional_comparison series)) = "below"
      \/ status (cmp_cr (_calculate_regional_comparison series)) = "above").
Proof.
  intros series latest. unfold _calculate_regional_comparison, series.
  fold series. fold latest. cbn [cmp_cr cmp_sa3 status].
  split; [apply region_status | split; [apply region_status|]].
  unfold below_or_above. destruct (Qltb _ 0); auto.
Qed.

End MetricsMoreFacts.

Lemma flat_series_has_no_growth_witness :
  Aggregator._calculate_current_metrics exact_arith Calendar.iso_strptime
    [Aggregator.mk_point "2021-01-01" 550000 520000 0]
  = Ok (Aggregator.mk_metrics 550000 0 0 0).
Proof.
  apply (flat_series_has_no_growth exact_arith Calendar.iso_strptime
           Examples.day_of
           (Aggregator.mk_point "2021-01-01" 550000 520000 0) []).
  - intros p [<- | []]. reflexivity.
  - vm_compute. discriminate.
  - intros p [<- | []]. reflexivity.
Defined.

(** ** Trend detection *)

Section TrendFacts.

Import Aggregator.

Lemma positive_prices_positive (series : list PricePoint) (x : Q) :
  In x (positive_prices series) -> 0 < x.
Proof.
  unfold positive_prices. rewrite in_map_iff. intros (p & <- & Hp).
  apply filter_In in Hp. now apply Qltb_lt.
Qed.

Lemma positive_prices_length (series : list PricePoint) :
  (List.length (positive_prices series) <= List.length series)%nat.
Proof.
  unfold positive_prices. rewrite length_map. apply filter_length_le.
Qed.

(** The percentage change against a threshold, without the division. *)
Lemma change_above (first latest t : Q) :
  0 < first ->
  t < (latest - first) / first * 100 <-> first * (1 + t / 100) < latest.
Proof.
  intros P.
  assert (N : ~ first == 0) by (intros Z; rewrite Z in P; discriminate P).
  assert (E : (latest - first) / first * 100 * first == (latest - first) * 100)
    by (field; exact N).
  rewrite <- (Qmult_lt_r t _ first P), E.
  assert (D : first * (1 + t / 100) == first + t * first * (1 # 100)) by field.
  rewrite D. generalize (t * first). intros x. split; intros H; lra.
Qed.

Lemma change_below (first latest t : Q) :
  0 < first ->
  (latest - first) / first * 100 < t <-> latest < first * (1 + t / 100).
Proof.
  intros P.
  assert (N : ~ first == 0) by (intros Z; rewrite Z in P; discriminate P).
  assert (E : (latest - first) / first * 100 * first == (latest - first) * 100)
    by (field; exact N).
  rewrite <- (Qmult_lt_r _ t first P), E.
  assert (D : first * (1 + t / 100) == first + t * first * (1 # 100)) by field.
  rewrite D. generalize (t * first). intros x. split; intros H; lra.
Qed.

(** X14. Trend detection looks only at the positive prices of the recent
    points.  With fewer than two of them the trend is "stable"; otherwise
    it is "rising" exactly when the last one exceeds the first by more than
    2 percent, "declining" exactly when it falls short of it by more than
    2 percent, and "stable" in between, both bounds included. *)
Theorem trend_thresholds (recent_series : list PricePoint) :
  ((List.length (positive_prices recent_series) < 2)%nat ->
   _detect_trend recent_series = "stable")
  /\ forall first second rest,
       positive_prices recent_series = first :: second :: rest ->
       let latest := last (first :: second :: rest) first in
       (_detect_trend recent_series = "rising" <-> first * 1.02 < latest)
       /\ (_detect_trend recent_series = "declining" <-> latest < first * 0.98)
       /\ (_detect_trend recent_series = "stable"
           <-> first * 0.98 <= latest /\ latest <= first * 1.02).
Proof.
  split.
  - intros L. unfold _detect_trend.
    destruct (List.length recent_series <? 2)%nat; [reflexivity|].
    destruct (positive_prices recent_series) as [|a [|b l]]; try reflexivity.
    simpl in L. lia.
  - intros first second rest E latest.
    assert (P : 0 < first).
    { apply (positive_prices_positive recent_series). rewrite E. now left. }
    assert (L2 : (List.length recent_series <? 2)%nat = false).
    { apply Nat.ltb_ge. pose proof (positive_prices_length recent_series) as L.
      rewrite E in L. simpl in L. lia. }
    unfold _detect_trend. rewrite L2, E. fold latest.
    rewrite (proj2 (Qltb_lt _ _) P).
    pose proof (change_above first latest 2 P) as A.
    pose proof (change_below first latest (-2) P) as B.
    assert (Ea : first * (1 + 2 / 100) == first * 1.02) by (field).
    assert (Eb : first * (1 + -2 / 100) == first * 0.98) by (field).
    rewrite Ea in A. rewrite Eb in B.
    destruct (Qltb 2 ((latest - first) / first * 100)) eqn:R.
    + apply Qltb_lt in R. apply A in R.
      split; [tauto|]. split; (split; [discriminate|]); intros H; exfalso; lra.
    + apply Qltb_ge in R.
      assert (NR : latest <= first * 1.02).
      { apply Qnot_lt_le. intros H. apply A in H. exact (Qlt_not_le _ _ H R). }
      destruct (Qltb ((latest - first) / first * 100) (-2)) eqn:D.
      * apply Qltb_lt in D. apply B in D.
        split; [split; [discriminate | intros H; exfalso; lra]|].
        split; [tauto|]. split; [discriminate|]. intros H. exfalso. lra.
      * apply Qltb_ge in D.
        assert (ND : first * 0.98 <= latest).
        { apply Qnot_lt_le. intros H. apply B in H. exact (Qlt_not_le _ _ H D). }
        split; [split; [discriminate | intros H; exfalso; lra]|].
        split; [split; [discriminate | intros H; exfalso; lra]|].
        tauto.
Qed.

End TrendFacts.

Lemma trend_thresholds_witness :
  Aggregator._detect_trend Examples2.rising = "rising".
Proof.
  apply (proj2 (trend_thresholds Examples2.rising) 500000 515001 [] eq_refl).
  reflexivity.
Defined.

(** ** The investment score *)

Section ScoreFacts.

Import Aggregator.

Lemma round_half_even_choice (y : Q) :
  round_half_even y = Qfloor y
  \/ (round_half_even y = (Qfloor y + 1)%Z /\ inject_Z (Qfloor y) < y).
Proof.
  unfold round_half_even.
  destruct (Qcompare_spec (y - inject_Z (Qfloor y)) (1 # 2)) as [E | L | G].
  - destruct (Z.even (Qfloor y)); [now left | right].
    split; [reflexivity | lra].
  - now left.
  - right. split; [reflexivity | lra].
Qed.

(** Rounding to nearest never crosses an integer. *)
Lemma round_half_even_ge (z : Z) (y : Q) :
  inject_Z z <= y -> (z <= round_half_even y)%Z.
Proof.
  intros H. apply Qfloor_resp_le in H. rewrite Qfloor_Z in H.
  destruct (round_half_even_choice y) as [-> | [-> _]]; lia.
Qed.

Lemma round_half_even_le (z : Z) (y : Q) :
  y <= inject_Z z -> (round_half_even y <= z)%Z.
Proof.
  intros H.
  destruct (round_half_even_choice y) as [-> | [-> L]].
  - apply Qfloor_resp_le in H. now rewrite Qfloor_Z in H.
  - assert (S : inject_Z (Qfloor y) < inject_Z z)
      by (apply Qlt_le_trans with y; assumption).
    rewrite <- Zlt_Qlt in S. lia.
Qed.

Lemma round_to_1_between (lo hi : Z) (x : Q) :
  inject_Z lo <= x * 10 -> x * 10 <= inject_Z hi ->
  inject_Z lo * (1 # 10) <= round_to 1 x
  /\ round_to 1 x <= inject_Z hi * (1 # 10).
Proof.
  intros L H. unfold round_to. rewrite Qred_correct.
  change (inject_Z (Z.pos (scale 1))) with 10.
  pose proof (round_half_even_ge lo _ L) as A.
  pose proof (round_half_even_le hi _ H) as B.
  set (r := round_half_even (x * 10)) in *.
  change (r # scale 1) with (r # 10).
  assert (E : r # 10 == inject_Z r * (1 # 10))
    by (rewrite (Qmake_Qdiv r 10); unfold Qdiv; reflexivity).
  rewrite E. rewrite Zle_Qle in A, B. split; lra.
Qed.

Lemma growth_score_bounds (first : PricePoint) (rest : list PricePoint) :
  0 <= suburb (last (first :: rest) first) ->
  0 <= growth_score (first :: rest) /\ growth_score (first :: rest) <= 9.99.
Proof.
  intros H. unfold growth_score.
  assert (R : 0 <= growth_ratio (first :: rest)).
  { unfold growth_ratio. destruct (Qltb 0 (suburb first)) eqn:P; [|discriminate].
    apply Qltb_lt in P. apply Qle_shift_div_l; [exact P|]. now rewrite Qmult_0_l. }
  rewrite py_min_Qmin.
  pose proof (Q.le_min_r (growth_ratio (first :: rest)) 3) as U.
  assert (Lo : 0 <= Qmin (growth_ratio (first :: rest)) 3)
    by (apply Q.min_glb; [exact R | discriminate]).
  set (m := Qmin (growth_ratio (first :: rest)) 3) in *.
  split; lra.
Qed.

Lemma value_score_bounds (cr_diff : Q) :
  4 <= value_score cr_diff /\ value_score cr_diff <= 10.
Proof.
  unfold value_score.
  destruct (Qltb cr_diff (-10)); [split; discriminate|].
  destruct (Qltb cr_diff (-5)); [split; discriminate|].
  destruct (Qltb cr_diff 0); split; discriminate.
Qed.

Lemma stability_score_bounds (prices : list Q) :
  5 <= stability_score prices /\ stability_score prices <= 10.
Proof.
  unfold stability_score.
  destruct (volatility_ltb prices 0.1); [split; discriminate|].
  destruct (volatility_ltb prices 0.15); split; discriminate.
Qed.

(** X15. The investment score of a non-empty series whose last price is
    not negative lies between 2.7 and 10, whatever the regional
    comparison it is given. *)
Theorem investment_score_range (first : PricePoint) (rest : list PricePoint)
    (cmp : comparison) :
  0 <= suburb (last (first :: rest) first) ->
  2.7 <= score (_calculate_investment_score (first :: rest) cmp)
  /\ score (_calculate_investment_score (first :: rest) cmp) <= 10.
Proof.
  intros H. cbn [_calculate_investment_score score].
  destruct (growth_score_bounds first rest H) as [G0 G1].
  destruct (value_score_bounds (difference (cmp_cr cmp))) as [V0 V1].
  destruct (stability_score_bounds (positive_prices (first :: rest))) as [S0 S1].
  set (g := growth_score (first :: rest)) in *.
  set (v := value_score (difference (cmp_cr cmp))) in *.
  set (s := stability_score (positive_prices (first :: rest))) in *.
  destruct (round_to_1_between 27 100 (g * 0.4 + v * 0.3 + s * 0.3)) as [Lo Hi];
    [change (inject_Z 27) with 27; lra | change (inject_Z 100) with 100; lra |].
  change (inject_Z 27) with 27 in Lo. change (inject_Z 100) with 100 in Hi.
  split; lra.
Qed.

(** X16. The stability sub-score and the reported volatility bucket read
    the same volatility against different thresholds: the sub-score is 10
    below 0.10, 7 from there to below 0.15 and 5 from 0.15 on, while the
    bucket is "low" below 0.15, "medium" from there to below 0.25 and
    "high" from 0.25 on.  So the bucket is "low" exactly when the sub-score
    is not 5. *)
Theorem stability_and_bucket_thresholds (prices : list Q) :
  let vol := _calculate_volatility prices in
  (stability_score prices = 10 <-> (vol < Q2R 0.1)%R)
  /\ (stability_score prices = 7 <-> (Q2R 0.1 <= vol < Q2R 0.15)%R)
  /\ (stability_score prices = 5 <-> (Q2R 0.15 <= vol)%R)
  /\ (volatility_bucket prices = "low" <-> (vol < Q2R 0.15)%R)
  /\ (volatility_bucket prices = "medium" <-> (Q2R 0.15 <= vol < Q2R 0.25)%R)
  /\ (volatility_bucket prices = "high" <-> (Q2R 0.25 <= vol)%R)
  /\ (volatility_bucket prices = "low" <-> stability_score prices <> 5).
Proof.
  intros vol.
  pose proof (volatility_ltb_spec prices 0.1) as A.
  pose proof (volatility_ltb_spec prices 0.15) as B.
  pose proof (volatility_ltb_spec prices 0.25) as C.
  fold vol in A, B, C.
  assert (T1 : (Q2R 0.1 < Q2R 0.15)%R) by (apply Qlt_Rlt; reflexivity).
  assert (T2 : (Q2R 0.15 < Q2R 0.25)%R) by (apply Qlt_Rlt; reflexivity).
  unfold stability_score, volatility_bucket.
  destruct (volatility_ltb prices 0.1) eqn:a;
    destruct (volatility_ltb prices 0.15) eqn:b;
    destruct (volatility_ltb prices 0.25) eqn:c;
    repeat match goal with
           | H : true = true <-> _ |- _ => pose proof (proj1 H eq_refl); clear H
           | H : false = true <-> _ |- _ =>
               assert (~ _) by (intros X; apply H in X; discriminate X); clear H
           end;
    repeat split; intros; try discriminate; try congruence; try lra.
Qed.

End ScoreFacts.

Lemma investment_score_range_witness :
  2.7 <= Aggregator.score
           (Aggregator._calculate_investment_score Examples.tripled
              (Aggregator._calculate_regional_comparison Examples.tripled))
  /\ Aggregator.score
       (Aggregator._calculate_investment_score Examples.tripled
          (Aggregator._calculate_regional_comparison Examples.tripled)) <= 10.
Proof.
  apply (investment_score_range (Aggregator.mk_point "2015-06-30" 100 0 0)
           [Aggregator.mk_point "2020-06-30" 300 0 0]).
  discriminate.
Defined.

(** ** Volatility: sign, zero and change of unit *)

Section VolatilityMoreFacts.

Import Aggregator.

Lemma count_cons (x : Q) (xs : list Q) : count (x :: xs) == 1 + count xs.
Proof.
  unfold count. cbn [List.length]. rewrite Nat2Z.inj_succ, <- Z.add_1_l.
  rewrite inject_Z_plus. reflexivity.
Qed.

Lemma count_nonneg (xs : list Q) : 0 <= count xs.
Proof.
  unfold count. change 0 with (inject_Z 0). rewrite <- Zle_Qle. lia.
Qed.

Lemma total_positive (xs : list Q) :
  xs <> [] -> Forall (fun x => 0 < x) xs -> 0 < total xs.
Proof.
  intros N F. induction F as [|x xs P F IH]; [contradiction|].
  cbn [total fold_right]. destruct xs as [|y ys].
  - cbn. lra.
  - assert (0 < total (y :: ys)) by (apply IH; discriminate).
    unfold total in *. lra.
Qed.

Lemma mean_positive (xs : list Q) :
  xs <> [] -> Forall (fun x => 0 < x) xs -> 0 < mean xs.
Proof.
  intros N F. unfold mean. apply Qlt_shift_div_l.
  - destruct xs as [|x xs]; [contradiction|]. rewrite count_cons.
    pose proof (count_nonneg xs). lra.
  - rewrite Qmult_0_l. now apply total_positive.
Qed.

Lemma total_constant (c : Q) (xs : list Q) :
  (forall x, In x xs -> x == c) -> total xs == count xs * c.
Proof.
  induction xs as [|x xs IH]; intros H.
  - reflexivity.
  - rewrite count_cons. cbn [total fold_right]. fold (total xs).
    rewrite IH by (intros y Hy; apply H; now right).
    rewrite (H x (or_introl eq_refl)). ring.
Qed.

Lemma square_zero (a : Q) : a * a == 0 -> a == 0.
Proof.
  intros H. destruct (Qmult_integral _ _ H); assumption.
Qed.

Lemma square_nonneg (a : Q) : 0 <= a * a.
Proof.
  destruct (Qlt_le_dec a 0) as [N | P].
  - setoid_replace (a * a) with ((- a) * (- a)) by ring.
    apply Qmult_le_0_compat; lra.
  - now apply Qmult_le_0_compat.
Qed.

Lemma total_squares_zero (f : Q -> Q) (xs : list Q) :
  total (map (fun x => f x * f x) xs) == 0 <->
  forall x, In x xs -> f x == 0.
Proof.
  induction xs as [|x xs IH]; cbn [map total fold_right].
  - split; [intros _ y [] | reflexivity].
  - fold (total (map (fun x => f x * f x) xs)).
    pose proof (square_nonneg (f x)) as S.
    pose proof (total_squares_nonneg f xs) as T.
    split.
    + intros H y [<- | Hy].
      * apply square_zero. lra.
      * apply IH; [lra | exact Hy].
    + intros H.
      rewrite (proj2 IH) by (intros y Hy; apply H; now right).
      rewrite (H x (or_introl eq_refl)). ring.
Qed.

(** X17. For two or more positive prices the volatility is never
    negative, and it is 0 exactly when all the prices are equal. *)
Theorem volatility_zero_iff_constant (prices : list Q) :
  (2 <= List.length prices)%nat ->
  Forall (fun x => 0 < x) prices ->
  (0 <= _calculate_volatility prices)%R
  /\ (_calculate_volatility prices = 0%R
      <-> forall x y, In x prices -> In y prices -> x == y).
Proof.
  intros L F.
  assert (NE : prices <> []) by (destruct prices; [simpl in L; lia | discriminate]).
  pose proof (mean_positive prices NE F) as MP.
  assert (MN : ~ mean prices == 0) by (intros Z; rewrite Z in MP; discriminate MP).
  rewrite (volatility_defined prices L MN).
  pose proof (variance_nonneg prices L) as V.
  assert (M : (0 < Q2R (mean prices))%R)
    by (rewrite <- RMicromega.Q2R_0; now apply Qlt_Rlt).
  pose proof (count_minus_1_pos prices L) as C.
  assert (CN : ~ count prices - 1 == 0) by (intros Z; rewrite Z in C; discriminate C).
  split.
  - apply Rle_mult_inv_pos; [apply sqrt_pos | exact M].
  - assert (Z : (sqrt (Q2R (variance prices)) / Q2R (mean prices))%R = 0%R
                <-> sum_sq_dev prices == 0).
    { split.
      - intros H.
        assert (S : sqrt (Q2R (variance prices)) = 0%R).
        { apply (Rmult_eq_reg_r (/ Q2R (mean prices))).
          - unfold Rdiv in H. rewrite H. ring.
          - apply Rinv_neq_0_compat. lra. }
        apply sqrt_eq_0 in S; [|exact V].
        rewrite <- RMicromega.Q2R_0 in S. apply eqR_Qeq in S.
        unfold variance in S.
        setoid_replace (sum_sq_dev prices)
          with (sum_sq_dev prices / (count prices - 1) * (count prices - 1))
          by (field; exact CN).
        rewrite S. ring.
      - intros H.
        assert (E : variance prices == 0).
        { unfold variance. rewrite H. field. exact CN. }
        rewrite (Qeq_eqR _ _ E), RMicromega.Q2R_0, sqrt_0. unfold Rdiv. ring. }
    rewrite Z. unfold sum_sq_dev.
    rewrite (total_squares_zero (fun x => x - mean prices)). split.
    + intros H x y Hx Hy. pose proof (H x Hx). pose proof (H y Hy). lra.
    + intros H x Hx.
      assert (T : total prices == count prices * x).
      { apply total_constant. intros y Hy. now apply H. }
      unfold mean. rewrite T. field.
      intros Z0. rewrite Z0 in C. discriminate C.
Qed.

Lemma total_scaled (k : Q) (xs : list Q) :
  total (Spec2.scaled k xs) == k * total xs.
Proof.
  induction xs as [|x xs IH]; cbn [Spec2.scaled map total fold_right]; [ring|].
  fold (Spec2.scaled k xs). fold (total (Spec2.scaled k xs)). fold (total xs).
  rewrite IH. ring.
Qed.

Lemma count_scaled (k : Q) (xs : list Q) : count (Spec2.scaled k xs) = count xs.
Proof. unfold count, Spec2.scaled. now rewrite length_map. Qed.

Lemma mean_scaled (k : Q) (xs : list Q) :
  mean (Spec2.scaled k xs) == k * mean xs.
Proof.
  unfold mean. rewrite total_scaled, count_scaled. unfold Qdiv. ring.
Qed.

Lemma sum_sq_dev_scaled (k : Q) (xs : list Q) :
  sum_sq_dev (Spec2.scaled k xs) == k * k * sum_sq_dev xs.
Proof.
  unfold sum_sq_dev. generalize (mean_scaled k xs).
  generalize (mean (Spec2.scaled k xs)) as m'. generalize (mean xs) as m.
  intros m m' E. induction xs as [|x xs IH];
    cbn [Spec2.scaled map total fold_right]; [ring|].
  fold (Spec2.scaled k xs).
  fold (total (map (fun x => (x - m') * (x - m')) (Spec2.scaled k xs))).
  fold (total (map (fun x => (x - m) * (x - m)) xs)).
  rewrite IH, E. ring.
Qed.

(** X18. The volatility does not depend on the unit of the prices:
    multiplying every price by the same positive factor leaves it
    unchanged. *)
Theorem volatility_is_scale_free (k : Q) (prices : list Q) :
  0 < k ->
  _calculate_volatility (Spec2.scaled k prices) = _calculate_volatility prices.
Proof.
  intros K.
  assert (KN : ~ k == 0) by (intros Z; rewrite Z in K; discriminate K).
  unfold _calculate_volatility, stdev.
  replace (List.length (Spec2.scaled k prices)) with (List.length prices)
    by (unfold Spec2.scaled; now rewrite length_map).
  destruct (List.length prices <? 2)%nat eqn:L; [reflexivity|].
  apply Nat.ltb_ge in L.
  assert (EB : Qeq_bool (mean (Spec2.scaled k prices)) 0
               = Qeq_bool (mean prices) 0).
  { destruct (Qeq_bool (mean prices) 0) eqn:B.
    - apply Qeq_bool_iff. apply Qeq_bool_iff in B.
      rewrite mean_scaled, B. ring.
    - destruct (Qeq_bool (mean (Spec2.scaled k prices)) 0) eqn:B'; [|reflexivity].
      apply Qeq_bool_iff in B'. apply Qeq_bool_neq in B. exfalso. apply B.
      rewrite mean_scaled in B'.
      destruct (Qmult_integral _ _ B'); [contradiction | assumption]. }
  rewrite EB. destruct (Qeq_bool (mean prices) 0) eqn:B; [reflexivity|].
  apply Qeq_bool_neq in B.
  assert (EV : variance (Spec2.scaled k prices) == k * k * variance prices).
  { unfold variance. rewrite sum_sq_dev_scaled, count_scaled.
    unfold Qdiv. ring. }
  rewrite (Qeq_eqR _ _ EV), (Qeq_eqR _ _ (mean_scaled k prices)), !Q2R_mult.
  assert (KR : (0 < Q2R k)%R)
    by (rewrite <- RMicromega.Q2R_0; now apply Qlt_Rlt).
  assert (MR : Q2R (mean prices) <> 0%R).
  { intros Z. apply B. apply eqR_Qeq. now rewrite RMicromega.Q2R_0. }
  rewrite sqrt_mult; [| nra | now apply variance_nonneg].
  rewrite sqrt_square by lra. field. split; [exact MR | lra].
Qed.

End VolatilityMoreFacts.

Lemma volatility_zero_iff_constant_witness :
  (0 <= Aggregator._calculate_volatility [100%Q; 200%Q])%R.
Proof.
  apply (volatility_zero_iff_constant [100; 200]).
  - simpl. lia.
  - repeat constructor.
Defined.

Lemma volatility_is_scale_free_witness :
  Aggregator._calculate_volatility (Spec2.scaled 1000 [100; 200])
  = Aggregator._calculate_volatility [100; 200].
Proof.
  exact (volatility_is_scale_free 1000 [100; 200] eq_refl).
Defined.

(* ================================================================= *)
(** ** Amenities, developments, demographics and schools *)

Section TransformFacts.

Import Aggregator.

Ltac bind_as H x E :=
  match type of H with
  | Py.bind ?r _ = Ok _ =>
      destruct r as [x|] eqn:E; [cbn [Py.bind] in H | discriminate H]
  end.

Lemma getitem_dict (raw : value) (k : string) (v : value) :
  getitem raw k = Ok v ->
  exists d, raw = VDict d /\ lookup k d = Some v /\ truthy raw = true.
Proof.
  destruct raw as [| | | | |d]; try discriminate.
  cbn. destruct (lookup k d) as [x|] eqn:L; [|discriminate].
  intros [= <-]. exists d. repeat split; trivial.
  destruct d; [discriminate L | reflexivity].
Qed.

Lemma iterate_len (v : value) (items : list value) :
  iterate v = Ok items -> len v = Ok (List.length items).
Proof.
  destruct v as [| | |s|l|d]; cbn; try discriminate.
  - destruct (s =? "")%string; [|discriminate]. now intros [= <-].
  - now intros [= <-].
  - intros [= <-]. now rewrite length_map.
Qed.

Lemma slice_to_len (n : nat) (v : value) (shown : list value) :
  slice_to n v = Ok shown ->
  exists total, len v = Ok total /\
    (List.length shown <= n)%nat /\ (List.length shown <= total)%nat.
Proof.
  destruct v as [| | |s|l|d]; cbn; try discriminate.
  - destruct (s =? "")%string; [|discriminate]. intros [= <-].
    exists O. cbn. repeat split; lia.
  - intros [= <-]. exists (List.length l). rewrite length_firstn.
    repeat split; lia.
Qed.

(** *** Amenities *)

Local Abbreviation bump :=
  (fun c : option nat => match c with Some n => S n | None => 1%nat end).

Lemma upsert_bump_sum (k : value) (d : list (value * nat)) :
  list_sum (map snd (upsert k bump d)) = S (list_sum (map snd d)).
Proof.
  unfold list_sum.
  induction d as [|[k' a] d IH]; cbn; [reflexivity|].
  destruct (key_eqb k' k); cbn; [reflexivity|]. rewrite IH. lia.
Qed.

Lemma upsert_Forall {A : Type} (P : value -> Prop) (k : value)
    (f : option A -> A) (d : list (value * A)) :
  P k -> Forall (fun x => P (fst x)) d ->
  Forall (fun x => P (fst x)) (upsert k f d).
Proof.
  intros Pk. induction d as [|[k' a] d IH]; cbn; intros F.
  - constructor; [exact Pk | constructor].
  - inversion F as [|? ? Px Fd]; subst.
    destruct (key_eqb k' k); constructor; cbn; auto.
Qed.

Lemma upsert_distinct {A : Type} (k : value) (f : option A -> A)
    (d : list (value * A)) :
  Spec2.distinct_keys d -> Spec2.distinct_keys (upsert k f d).
Proof.
  unfold Spec2.distinct_keys.
  induction d as [|[k' a] d IH]; cbn; intros D.
  - constructor; constructor.
  - inversion D as [|? ? Fx Dd]; subst.
    destruct (key_eqb k' k) eqn:E.
    + constructor; [exact Fx | exact Dd].
    + constructor; [|auto].
      apply (upsert_Forall (fun y => key_eqb k' y = false)); assumption.
Qed.

Lemma tally_invariant (results : list value) :
  forall acc out,
    Spec2.distinct_keys acc ->
    tally acc results = Ok out ->
    Spec2.distinct_keys out /\
    list_sum (map snd out) = (list_sum (map snd acc) + List.length results)%nat.
Proof.
  induction results as [|item rest IH]; intros acc out D H.
  - cbn in H. injection H as <-. split; [exact D | cbn; lia].
  - cbn [tally] in H. bind_inv H.
    destruct (hashable a); [|discriminate].
    apply IH in H; [|now apply upsert_distinct].
    destruct H as [D' S']. split; [exact D'|].
    rewrite S', upsert_bump_sum. cbn. lia.
Qed.

Lemma insert_desc_Forall {A : Type} (P : A -> Prop) (key : A -> Q)
    (x : A) (l : list A) :
  P x -> Forall P l -> Forall P (insert_desc key x l).
Proof.
  intros Px. induction l as [|y l IH]; cbn; intros F.
  - constructor; [exact Px | constructor].
  - inversion F; subst.
    destruct (Qle_bool (key y) (key x)); constructor; auto.
Qed.

Lemma sort_desc_Forall {A : Type} (P : A -> Prop) (key : A -> Q)
    (l : list A) :
  Forall P l -> Forall P (sort_desc key l).
Proof.
  induction l as [|x l IH]; cbn; intros F; [constructor|].
  inversion F; subst. apply insert_desc_Forall; auto.
Qed.

Lemma insert_desc_descending {A : Type} (key : A -> Q) (x : A) (l : list A) :
  Spec2.descending key l -> Spec2.descending key (insert_desc key x l).
Proof.
  unfold Spec2.descending.
  induction l as [|y l IH]; cbn; intros S.
  - constructor; constructor.
  - inversion S as [|? ? Sl Fy]; subst.
    destruct (Qle_bool (key y) (key x)) eqn:E.
    + apply Qle_bool_iff in E.
      constructor; [exact S|].
      constructor; [exact E|].
      eapply Forall_impl; [|exact Fy]. cbn. intros z Hz.
      eapply Qle_trans; eassumption.
    + constructor; [auto|].
      apply insert_desc_Forall; [|exact Fy].
      destruct (Qlt_le_dec (key y) (key x)) as [Lt|Le]; [|exact Le].
      apply Qlt_le_weak, Qle_bool_iff in Lt. congruence.
Qed.

Lemma sort_desc_descending {A : Type} (key : A -> Q) (l : list A) :
  Spec2.descending key (sort_desc key l).
Proof.
  induction l as [|x l IH]; cbn.
  - constructor.
  - now apply insert_desc_descending.
Qed.

Lemma insert_desc_sum {A : Type} (key : A -> Q) (w : A -> nat) (x : A)
    (l : list A) :
  list_sum (map w (insert_desc key x l)) = (w x + list_sum (map w l))%nat.
Proof.
  unfold list_sum.
  induction l as [|y l IH]; cbn; [reflexivity|].
  destruct (Qle_bool (key y) (key x)); cbn; [reflexivity|]. rewrite IH. lia.
Qed.

Lemma sort_desc_sum {A : Type} (key : A -> Q) (w : A -> nat) (l : list A) :
  list_sum (map w (sort_desc key l)) = list_sum (map w l).
Proof.
  induction l as [|x l IH]; [reflexivity|].
  cbn [sort_desc]. rewrite insert_desc_sum, IH. reflexivity.
Qed.

Lemma key_eqb_sym (a b : value) : key_eqb a b = key_eqb b a.
Proof.
  assert (Q : forall x y, Qeq_bool x y = Qeq_bool y x).
  { intros x y. destruct (Qeq_bool x y) eqn:E, (Qeq_bool y x) eqn:F; trivial.
    - apply Qeq_bool_iff in E. symmetry in E. apply Qeq_bool_iff in E.
      congruence.
    - apply Qeq_bool_iff in F. symmetry in F. apply Qeq_bool_iff in F.
      congruence. }
  destruct a as [|x|x|s|l|d], b as [|y|y|t|m|e]; cbn; trivial;
    try apply Q; apply String.eqb_sym.
Qed.

Lemma insert_desc_distinct {A : Type} (key : value * A -> Q)
    (x : value * A) (l : list (value * A)) :
  Forall (fun y => key_eqb (fst x) (fst y) = false) l ->
  Spec2.distinct_keys l -> Spec2.distinct_keys (insert_desc key x l).
Proof.
  unfold Spec2.distinct_keys.
  induction l as [|y l IH]; cbn; intros F D.
  - constructor; constructor.
  - inversion F as [|? ? Fy Fl]; subst. inversion D as [|? ? Dy Dl]; subst.
    destruct (Qle_bool (key y) (key x)).
    + constructor; [exact F | exact D].
    + constructor; [|auto].
      apply insert_desc_Forall; [|exact Dy].
      now rewrite key_eqb_sym.
Qed.

Lemma sort_desc_distinct {A : Type} (key : value * A -> Q)
    (l : list (value * A)) :
  Spec2.distinct_keys l -> Spec2.distinct_keys (sort_desc key l).
Proof.
  unfold Spec2.distinct_keys.
  induction l as [|x l IH]; cbn; intros D; [constructor|].
  inversion D as [|? ? Fx Dl]; subst.
  apply insert_desc_distinct; [|now apply IH].
  now apply sort_desc_Forall.
Qed.

(** X19. When the raw amenities payload has a ["results"] entry and the
    transform returns, it returns one row per distinct category, largest
    count first, and the counts of the rows add up to the reported
    ["total"], the number of raw results. *)
Theorem amenities_counts_add_up (raw_data results t : value) :
  getitem raw_data "results" = Ok results ->
  _transform_amenities_data raw_data = Ok t ->
  exists rows total,
    len results = Ok total /\
    t = VDict [("categories", VList (map (category_entry total) rows));
               ("total", VNum (of_nat total))] /\
    list_sum (map snd rows) = total /\
    Spec2.descending (fun cc => of_nat (snd cc)) rows /\
    Spec2.distinct_keys rows.
Proof.
  intros G H. destruct (getitem_dict _ _ _ G) as (d & -> & L & T).
  unfold _transform_amenities_data in H. rewrite T in H.
  cbn [negb contains bind] in H. rewrite L in H. cbn [bind] in H.
  rewrite G in H. cbn [bind] in H.
  bind_inv H. bind_inv H. bind_inv H. injection H as <-.
  pose proof (iterate_len _ _ E) as Ln. rewrite Ln in E1.
  injection E1 as <-.
  destruct (tally_invariant _ _ _ (FOP_nil _) E0) as [D S].
  eexists _, _. split; [reflexivity|]. split; [reflexivity|].
  split; [|split].
  - rewrite sort_desc_sum. exact S.
  - apply sort_desc_descending.
  - now apply sort_desc_distinct.
Qed.

Lemma amenities_counts_add_up_witness :
  exists rows total,
    len (VList [VDict [("category", VStr "Cafe")];
                VDict [("category", VStr "Park")];
                VDict [("name", VStr "Corner shop")];
                VDict [("category", VStr "Park")]]) = Ok total /\
    VDict [("categories",
            VList [VDict [("name", VStr "Park"); ("count", VNum 2);
                          ("percentage", VNum 50)];
                   VDict [("name", VStr "Cafe"); ("count", VNum 1);
                          ("percentage", VNum 25)];
                   VDict [("name", VStr "Other"); ("count", VNum 1);
                          ("percentage", VNum 25)]]);
           ("total", VNum 4)]
    = VDict [("categories", VList (map (category_entry total) rows));
             ("total", VNum (of_nat total))] /\
    list_sum (map snd rows) = total /\
    Spec2.descending (fun cc => of_nat (snd cc)) rows /\
    Spec2.distinct_keys rows.
Proof.
  exact (amenities_counts_add_up Examples2.amenities_payload _ _
           eq_refl eq_refl).
Defined.

(** *** Developments *)

Lemma developments_loop_length (results : list value) :
  forall idx,
    (List.length (developments_loop idx results) <= List.length results)%nat.
Proof.
  induction results as [|item rest IH]; intros idx; cbn; [lia|].
  destruct (is_dict item); cbn; specialize (IH (S idx)); lia.
Qed.

Lemma developments_loop_keys (results : list value) :
  forall idx,
    Forall (fun dev => Spec2.keys_of dev = Some Spec2.development_keys)
      (developments_loop idx results).
Proof.
  induction results as [|item rest IH]; intros idx; cbn; [constructor|].
  destruct (is_dict item); [constructor|]; auto.
Qed.

(** X20. When the raw developments payload has a ["results"] entry and
    the transform returns, ["showing"] is the number of developments
    listed, which is at most 50 and at most ["total"], the number of raw
    results; every development listed has the eight fields of the frontend
    format, in order. *)
Theorem developments_are_capped (raw_data results t : value) :
  getitem raw_data "results" = Ok results ->
  _transform_developments_data raw_data = Ok t ->
  exists developments total,
    len results = Ok total /\
    t = VDict [("developments", VList developments);
               ("total", VNum (of_nat total));
               ("showing", VNum (of_nat (List.length developments)))] /\
    (List.length developments <= 50)%nat /\
    (List.length developments <= total)%nat /\
    Forall (fun dev => Spec2.keys_of dev = Some Spec2.development_keys)
      developments.
Proof.
  intros G H. destruct (getitem_dict _ _ _ G) as (d & -> & L & T).
  unfold _transform_developments_data in H. rewrite T in H.
  cbn [negb contains bind] in H. rewrite L in H. cbn [bind] in H.
  rewrite G in H. cbn [bind] in H.
  bind_inv H. bind_inv H. injection H as <-.
  destruct (slice_to_len _ _ _ E) as (total & Ln & B50 & Bt).
  rewrite Ln in E0. injection E0 as <-.
  pose proof (developments_loop_length a 0) as Le.
  eexists _, _. split; [reflexivity|]. split; [reflexivity|].
  split; [lia|]. split; [lia|]. apply developments_loop_keys.
Qed.

Lemma developments_are_capped_witness :
  exists developments total,
    len (VList [VDict [("description", VStr "Two dwellings")];
                VStr "withdrawn";
                VDict [("id", VStr "DA-7"); ("units", VNum 12)]]) = Ok total /\
    VDict [("developments",
            VList [development_entry 0
                     (VDict [("description", VStr "Two dwellings")]);
                   development_entry 2
                     (VDict [("id", VStr "DA-7"); ("units", VNum 12)])]);
           ("total", VNum 3); ("showing", VNum 2)]
    = VDict [("developments", VList developments);
             ("total", VNum (of_nat total));
             ("showing", VNum (of_nat (List.length developments)))] /\
    (List.length developments <= 50)%nat /\
    (List.length developments <= total)%nat /\
    Forall (fun dev => Spec2.keys_of dev = Some Spec2.development_keys)
      developments.
Proof.
  exact (developments_are_capped Examples2.developments_payload _ _
           eq_refl eq_refl).
Defined.

(** *** Demographics *)

Lemma ethnicities_loop_length (ethnicities : list value) :
  forall out,
    ethnicities_loop ethnicities = Ok out ->
    List.length out = List.length ethnicities.
Proof.
  induction ethnicities as [|eth rest IH]; intros out H.
  - cbn in H. now injection H as <-.
  - cbn [ethnicities_loop] in H.
    bind_inv H. bind_inv H. bind_inv H. bind_inv H. bind_inv H. bind_inv H.
    injection H as <-. cbn. f_equal. now apply IH.
Qed.

Lemma slice_to_length (n : nat) (v : value) (shown : list value) :
  slice_to n v = Ok shown -> (List.length shown <= n)%nat.
Proof.
  intros H. destruct (slice_to_len _ _ _ H) as (? & _ & B & _). exact B.
Qed.

(** X21. For a non-empty raw demographics payload, a transform that
    returns gives exactly the two lists of the frontend format, and the
    ethnicity list has at most ten rows, whichever of the two raw formats
    it is computed from. *)
Theorem demographics_lists_ten_ethnicities (raw_data t : value) :
  truthy raw_data = true ->
  _transform_demographics_data raw_data = Ok t ->
  exists age_distribution ethnicity,
    t = VDict [("ageDistribution", VList age_distribution);
               ("ethnicity", VList ethnicity)] /\
    (List.length ethnicity <= 10)%nat.
Proof.
  intros T H. unfold _transform_demographics_data in H. rewrite T in H.
  cbn [negb] in H.
  bind_as H has_age Ha. bind_as H ages Hb.
  bind_as H has_eth Hc. bind_as H eths Hd. injection H as <-.
  eexists _, _. split; [reflexivity|].
  destruct has_eth.
  - bind_as Hd ethnicities H1. bind_as Hd top H2.
    apply ethnicities_loop_length in Hd. rewrite Hd.
    eapply slice_to_length; eassumption.
  - bind_as Hd has_results H1.
    destruct has_results; [|injection Hd as <-; cbn; lia].
    bind_as Hd results H2. bind_as Hd areas H3. bind_as Hd tc H4.
    destruct tc as [totals count].
    set (top := firstn 10 _) in Hd.
    assert (Le : (List.length top <= 10)%nat) by apply firstn_le_length.
    clearbody top.
    destruct (0 <? count)%nat; injection Hd as <-; [|cbn; lia].
    now rewrite length_map.
Qed.

Lemma demographics_lists_ten_ethnicities_witness :
  exists age_distribution ethnicity,
    VDict [("ageDistribution", VList []);
           ("ethnicity",
            VList [VDict [("name", VStr "English"); ("percentage", VNum 25)];
                   VDict [("name", VStr "Chinese"); ("percentage", VNum (25 # 2))]])]
    = VDict [("ageDistribution", VList age_distribution);
             ("ethnicity", VList ethnicity)] /\
    (List.length ethnicity <= 10)%nat.
Proof.
  exact (demographics_lists_ten_ethnicities Examples2.demographics_payload _
           eq_refl eq_refl).
Defined.

(** *** Schools *)

Lemma schools_loop_length (results : list value) :
  forall schools,
    schools_loop results = Ok schools ->
    List.length schools = List.length (filter is_dict results).
Proof.
  induction results as [|item rest IH]; intros schools H.
  - cbn in H. now injection H as <-.
  - cbn [schools_loop] in H. cbn [filter].
    destruct (is_dict item).
    + bind_inv H. bind_inv H. injection H as <-. cbn. f_equal. now apply IH.
    + now apply IH.
Qed.

(** X22. When the raw schools payload has a ["results"] entry and the
    transform returns, the reported ["total"] is the number of schools
    listed, which is the number of raw results that are objects: other
    results are dropped without a trace. *)
Theorem schools_total_counts_objects (raw_data results t : value) :
  getitem raw_data "results" = Ok results ->
  _transform_schools_data raw_data = Ok t ->
  exists items schools,
    iterate results = Ok items /\
    t = VDict [("schools", VList schools);
               ("total", VNum (of_nat (List.length schools)))] /\
    List.length schools = List.length (filter is_dict items).
Proof.
  intros G H. destruct (getitem_dict _ _ _ G) as (d & -> & L & T).
  unfold _transform_schools_data in H. rewrite T in H.
  cbn [negb contains bind] in H. rewrite L in H. cbn [bind] in H.
  rewrite G in H. cbn [bind] in H.
  bind_inv H. bind_inv H. injection H as <-.
  eexists _, _. split; [reflexivity|]. split; [reflexivity|].
  now apply schools_loop_length.
Qed.

Lemma schools_total_counts_objects_witness :
  exists items schools,
    iterate (VList [VDict [("name", VStr "Carlton Primary");
                           ("naplan", VNum 18.5)];
                    VNone;
                    VDict [("name", VStr "Princes Hill"); ("boys", VNum 300);
                           ("girls", VNum 310)]]) = Ok items /\
    VDict [("schools",
            VList [VDict [("name", VStr "Carlton Primary");
                          ("type", VStr "Unknown"); ("sector", VStr "Unknown");
                          ("naplanScore", VNum 18.5); ("rating", VNum (185 # 2))];
                   VDict [("name", VStr "Princes Hill");
                          ("type", VStr "Unknown"); ("sector", VStr "Unknown");
                          ("students",
                           VDict [("boys", VNum 300); ("girls", VNum 310);
                                  ("total", VNum (300 + 310))])]]);
           ("total", VNum 2)]
    = VDict [("schools", VList schools);
             ("total", VNum (of_nat (List.length schools)))] /\
    List.length schools = List.length (filter is_dict items).
Proof.
  exact (schools_total_counts_objects Examples2.schools_payload _ _
           eq_refl eq_refl).
Defined.

Lemma scaled_round_raises (v : value) (k : Q) (e : exn) :
  scaled_round v k = Raise e -> e = TypeError.
Proof.
  unfold scaled_round. destruct (as_number v); [discriminate|].
  now intros [= <-].
Qed.

Lemma add_raises (a b : value) (e : exn) :
  add a b = Raise e -> e = TypeError.
Proof.
  unfold add.
  destruct (as_number a), (as_number b), a, b; try discriminate;
    now intros [= <-].
Qed.

Lemma school_entry_raises (item : value) (e : exn) :
  is_dict item = true -> school_entry item = Raise e -> e = TypeError.
Proof.
  destruct item as [| | | | |d]; try discriminate. intros _.
  unfold school_entry.
  destruct (naplan_fields d) as [n|e1] eqn:N; cbn [bind].
  - destruct (students_field (VDict d)) as [s|e2] eqn:S; cbn [bind];
      [discriminate|].
    intros [= <-]. unfold students_field in S.
    destruct (truthy _ || truthy _); [|discriminate].
    destruct (add _ _) eqn:A; [discriminate|].
    cbn [bind] in S. injection S as <-. eapply add_raises; eassumption.
  - intros [= <-]. unfold naplan_fields in N.
    destruct (lookup "naplan" d); [|discriminate].
    destruct (scaled_round v 5) eqn:R; [discriminate|].
    cbn [bind] in N. injection N as <-. eapply scaled_round_raises; eassumption.
Qed.

Lemma schools_loop_raises (results : list value) :
  forall e, schools_loop results = Raise e -> e = TypeError.
Proof.
  induction results as [|item rest IH]; intros e H; [discriminate|].
  cbn [schools_loop] in H. destruct (is_dict item) eqn:D; [|auto].
  destruct (school_entry item) eqn:S; cbn [bind] in H.
  - destruct (schools_loop rest) eqn:R; cbn [bind] in H; [discriminate|].
    injection H as <-. now apply IH.
  - injection H as <-. eapply school_entry_raises; eassumption.
Qed.

Lemma schools_loop_bad_score (results : list value) (d : list (string * value))
    (v : value) :
  In (VDict d) results ->
  lookup "naplan" d = Some v ->
  as_number v = None ->
  schools_loop results = Raise TypeError.
Proof.
  intros I L N.
  assert (B : school_entry (VDict d) = Raise TypeError).
  { unfold school_entry, naplan_fields, scaled_round. now rewrite L, N. }
  induction results as [|item rest IH]; [destruct I|].
  destruct (schools_loop (item :: rest)) as [out|e] eqn:H.
  - exfalso. cbn [schools_loop] in H. destruct I as [->|I].
    + cbn [is_dict] in H. rewrite B in H. discriminate.
    + rewrite (IH I) in H. destruct (is_dict item); [|discriminate].
      destruct (school_entry item); discriminate.
  - f_equal. eapply schools_loop_raises; eassumption.
Qed.

(** X23. One school record whose ["naplan"] entry is present but not a
    number (a JSON [null], say) makes the schools transform raise
    [TypeError] for the whole list, wherever the record stands in it. *)
Theorem school_without_score_fails (raw_data : value)
    (results : list value) (d : list (string * value)) (v : value) :
  getitem raw_data "results" = Ok (VList results) ->
  In (VDict d) results ->
  lookup "naplan" d = Some v ->
  as_number v = None ->
  _transform_schools_data raw_data = Raise TypeError.
Proof.
  intros G I L N. destruct (getitem_dict _ _ _ G) as (d0 & -> & L0 & T).
  unfold _transform_schools_data. rewrite T.
  cbn [negb contains bind]. rewrite L0. cbn [bind].
  rewrite G. cbn [bind iterate].
  now rewrite (schools_loop_bad_score _ _ _ I L N).
Qed.

Lemma school_without_score_fails_witness :
  _transform_schools_data
    (VDict [("results",
             VList [VDict [("name", VStr "Princes Hill")];
                    Examples2.school_without_score])])
  = Raise TypeError.
Proof.
  apply (school_without_score_fails _
           [VDict [("name", VStr "Princes Hill")];
            Examples2.school_without_score]
           [("name", VStr "Carlton Primary"); ("naplan", VNone)] VNone).
  - reflexivity.
  - right. left. reflexivity.
  - reflexivity.
  - reflexivity.
Defined.

End TransformFacts.

(* ================================================================= *)
(** ** The aggregation service *)

Section ServiceFacts.

Import Aggregator Service.

(** *** Street rankings and summaries *)

(** X24. Whatever the street insights hold, a call of
    [get_street_rankings] that returns gives a list, never [None] and
    never an object; and it does return when the insights are empty or an
    object, the two answers the repositories give. *)
Theorem street_rankings_are_a_list (insights : value) (suburb_id : string) :
  (forall out,
     get_street_rankings insights suburb_id = Ok out -> is_list out = true)
  /\ (truthy insights = false \/ is_dict insights = true ->
      exists l, get_street_rankings insights suburb_id = Ok (VList l)).
Proof.
  unfold get_street_rankings, truthy_with. split.
  - intros out H. destruct (truthy insights); cbn [bind negb] in H.
    + bind_inv H. destruct a; cbn [negb] in H; [|now injection H as <-].
      bind_inv H. destruct a as [| | | |l|d].
      1-4: now injection H as <-.
      * now injection H as <-.
      * destruct (lookup "results" d) as [[| | | |[|[| | | |[|x inner]|] rest]|]|];
          now injection H as <-.
    + now injection H as <-.
  - intros [F|D].
    + rewrite F. cbn. now exists [].
    + destruct insights as [| | | | |d]; try discriminate.
      destruct (truthy (VDict d)); cbn [bind negb contains];
        [|now exists []].
      destruct (lookup suburb_id d) as [raw|] eqn:L; cbn [bind negb get];
        [|now exists []].
      rewrite L. destruct raw as [| | | |l|e].
      1-4: now exists [].
      * now exists l.
      * destruct (lookup "results" e) as [[| | | |[|[| | | |[|x inner]|] rest]|]|];
          eexists; reflexivity.
Qed.

Lemma street_rankings_are_a_list_witness :
  is_list (VList [VDict [("street", VStr "Drummond Street")];
                  VDict [("street", VStr "Rathdowne Street")]]) = true
  /\ exists l,
       get_street_rankings Examples2.street_payload "carlton-3053"
       = Ok (VList l).
Proof.
  split.
  - exact (proj1 (street_rankings_are_a_list Examples2.street_payload
                    "carlton-3053") _ eq_refl).
  - exact (proj2 (street_rankings_are_a_list Examples2.street_payload
                    "carlton-3053") (or_intror eq_refl)).
Defined.

(** X25. A summary that [get_suburb_summary] returns for non-empty data
    is keyed by the requested identifier, and passing it through
    [get_suburb_summary] again leaves it as it is: the wrapping is done
    once. *)
Theorem summary_is_wrapped_once (data out : value) (suburb_id : string) :
  truthy data = true ->
  get_suburb_summary data suburb_id = Ok out ->
  contains out suburb_id = Ok true
  /\ get_suburb_summary out suburb_id = Ok out.
Proof.
  intros T H. unfold get_suburb_summary in H. rewrite T in H.
  cbn [negb] in H. bind_inv H. destruct a; injection H as <-.
  - split; [exact E|]. unfold get_suburb_summary. rewrite T, E. reflexivity.
  - assert (C : contains (VDict [(suburb_id, data)]) suburb_id = Ok true).
    { cbn. now rewrite String.eqb_refl. }
    split; [exact C|]. unfold get_suburb_summary. rewrite C. reflexivity.
Qed.

Lemma summary_is_wrapped_once_witness :
  contains (VDict [("carlton-3053", Examples2.summary_payload)]) "carlton-3053"
  = Ok true
  /\ get_suburb_summary (VDict [("carlton-3053", Examples2.summary_payload)])
       "carlton-3053"
     = Ok (VDict [("carlton-3053", Examples2.summary_payload)]).
Proof.
  exact (summary_is_wrapped_once Examples2.summary_payload _ "carlton-3053"
           eq_refl eq_refl).
Defined.

(** *** The suburb name *)

Lemma split_nonempty (sep : ascii) (s : string) : split sep s <> [].
Proof.
  destruct s as [|c s]; cbn; [discriminate|].
  destruct (Ascii.eqb c sep); [discriminate|].
  destruct (split sep s); discriminate.
Qed.

Lemma split_without_separator (sep : ascii) (s : string) :
  forallb (fun c => negb (Ascii.eqb c sep)) (list_ascii_of_string s) = true ->
  split sep s = [s].
Proof.
  induction s as [|c s IH]; cbn; [reflexivity|].
  intros H. apply andb_true_iff in H as [Hc Hs].
  apply negb_true_iff in Hc. rewrite Hc, (IH Hs). reflexivity.
Qed.

Lemma split_append (sep : ascii) (s t : string) :
  forallb (fun c => negb (Ascii.eqb c sep)) (list_ascii_of_string t) = true ->
  split sep (s ++ String sep t) = (split sep s ++ [t])%list.
Proof.
  intros H. induction s as [|c s IH]; cbn.
  - rewrite Ascii.eqb_refl, (split_without_separator _ _ H). reflexivity.
  - destruct (Ascii.eqb c sep); [now rewrite IH|].
    rewrite IH. pose proof (split_nonempty sep s) as N.
    destruct (split sep s); [contradiction|reflexivity].
Qed.

Lemma digit_is_no_hyphen (c : ascii) :
  is_digit c = true -> negb (Ascii.eqb c "-") = true.
Proof.
  intros D. destruct (Ascii.eqb c "-") eqn:E; [|reflexivity].
  apply Ascii.eqb_eq in E. subst c. discriminate D.
Qed.

Lemma digit_is_ascii (c : ascii) :
  is_digit c = true -> (nat_of_ascii c <? 128)%nat = true.
Proof.
  unfold is_digit. intros D. apply andb_true_iff in D as [_ D].
  apply Nat.leb_le in D. apply Nat.ltb_lt. lia.
Qed.

Lemma forallb_impl {A : Type} (f g : A -> bool) (l : list A) :
  (forall x, f x = true -> g x = true) ->
  forallb f l = true -> forallb g l = true.
Proof.
  intros I H. rewrite forallb_forall in *. auto.
Qed.

Lemma list_ascii_of_string_app (s t : string) :
  list_ascii_of_string (s ++ t)
  = (list_ascii_of_string s ++ list_ascii_of_string t)%list.
Proof.
  induction s as [|c s IH]; cbn; [reflexivity|]. now rewrite IH.
Qed.

Lemma name_parts_postcode (s postcode : string) :
  isdigit postcode = true ->
  name_parts (s ++ String "-" postcode) = split "-" s.
Proof.
  intros D. unfold name_parts.
  pose proof D as D'. unfold isdigit in D'.
  apply andb_true_iff in D' as [_ Ds].
  rewrite split_append
    by (eapply forallb_impl; [apply digit_is_no_hyphen | exact Ds]).
  rewrite last_last, D, removelast_last, length_app. cbn [List.length].
  pose proof (split_nonempty "-" s) as N.
  destruct (split "-" s) as [|p ps]; [contradiction|].
  cbn [List.length].
  replace (1 <? S (List.length ps) + 1)%nat with true; [reflexivity|].
  symmetry. apply Nat.ltb_lt. lia.
Qed.

(** X26. The name of a suburb does not depend on a postcode appended to
    its identifier: for an all-digit [postcode], the identifier
    [s-postcode] is named like [s], as long as [s] does not itself end in
    an all-digit token (which would then be dropped from [s] but kept
    from [s-postcode]). *)
Theorem name_ignores_the_postcode (s postcode : string) :
  isdigit postcode = true ->
  isdigit (last (split "-" s) "") = false ->
  suburb_name (s ++ "-" ++ postcode) = suburb_name s.
Proof.
  intros D N. change ("-" ++ postcode) with (String "-" postcode).
  unfold suburb_name. rewrite (name_parts_postcode _ _ D).
  unfold name_parts. rewrite N, andb_false_r.
  replace (is_ascii (s ++ String "-" postcode)) with (is_ascii s);
    [reflexivity|].
  unfold is_ascii. change (String "-" postcode) with ("-" ++ postcode).
  rewrite !list_ascii_of_string_app, !forallb_app.
  unfold isdigit in D. apply andb_true_iff in D as [_ Ds].
  rewrite (forallb_impl _ _ _ digit_is_ascii Ds).
  cbn. now rewrite andb_true_r.
Qed.

Lemma name_ignores_the_postcode_witness :
  suburb_name "carlton-north-3054" = suburb_name "carlton-north".
Proof.
  exact (name_ignores_the_postcode "carlton-north" "3054" eq_refl eq_refl).
Defined.

(** *** Suburb details *)

Lemma find_last {A : Type} (f : A -> bool) (l : list A) (x : A) :
  find f (l ++ [x])
  = match find f l with
    | Some y => Some y
    | None => if f x then Some x else None
    end.
Proof.
  induction l as [|y l IH]; cbn; [reflexivity|].
  destruct (f y); [reflexivity | exact IH].
Qed.

Lemma last_tagged_cons (metric : string) (item : value) (items : list value) :
  Spec2.last_tagged metric (item :: items)
  = match Spec2.last_tagged metric items with
    | Some y => Some y
    | None => if Spec2.tagged metric item then Some item else None
    end.
Proof. unfold Spec2.last_tagged. cbn [rev]. apply find_last. Qed.

Lemma eq_str_unique (v : value) (s t : string) :
  eq_str v s = true -> eq_str v t = true -> s = t.
Proof.
  destruct v; try discriminate. cbn. intros S T.
  apply String.eqb_eq in S, T. congruence.
Qed.

Lemma price_step_effect (prices prices' : Z * Z) (item : value) :
  price_step prices item = Ok prices' ->
  (if Spec2.tagged "sell_price" item
   then int_of (field item "value" (num 0)) = Ok (fst prices')
   else fst prices' = fst prices)
  /\ (if Spec2.tagged "rent_price" item
      then int_of (field item "value" (num 0)) = Ok (snd prices')
      else snd prices' = snd prices).
Proof.
  unfold price_step, Spec2.tagged. intros H.
  destruct (is_dict item); cbn [andb];
    [|injection H as <-; split; reflexivity].
  destruct (eq_str (field item "metric" VNone) "sell_price") eqn:S.
  - destruct (eq_str (field item "metric" VNone) "rent_price") eqn:R.
    + discriminate (eq_str_unique _ _ _ S R).
    + bind_inv H. injection H as <-. split; reflexivity.
  - destruct (eq_str (field item "metric" VNone) "rent_price") eqn:R.
    + bind_inv H. injection H as <-. split; reflexivity.
    + injection H as <-. split; reflexivity.
Qed.

Lemma price_loop_last (items : list value) :
  forall prices out,
    price_loop prices items = Ok out ->
    match Spec2.last_tagged "sell_price" items with
    | Some item => int_of (field item "value" (num 0)) = Ok (fst out)
    | None => fst out = fst prices
    end
    /\ match Spec2.last_tagged "rent_price" items with
       | Some item => int_of (field item "value" (num 0)) = Ok (snd out)
       | None => snd out = snd prices
       end.
Proof.
  induction items as [|item rest IH]; intros prices out H.
  - cbn in H. injection H as <-. split; reflexivity.
  - cbn [price_loop] in H. bind_inv H. rename a into prices'.
    apply IH in H. destruct H as [Hs Hr].
    apply price_step_effect in E. destruct E as [Es Er].
    rewrite !last_tagged_cons. split.
    + destruct (Spec2.last_tagged "sell_price" rest); [exact Hs|].
      destruct (Spec2.tagged "sell_price" item); congruence.
    + destruct (Spec2.last_tagged "rent_price" rest); [exact Hr|].
      destruct (Spec2.tagged "rent_price" item); congruence.
Qed.

(** X27. When the market payload holds a nested list of entries, the
    median house price of the suburb details is the value of the LAST
    [sell_price] entry of that list, as an integer, and 0 when there is
    none; likewise the median rent and the last [rent_price] entry. *)
Theorem last_price_entry_wins (market_data : value)
    (items more : list value) (house rent : Z) :
  getitem market_data "results" = Ok (VList (VList items :: more)) ->
  merge_market market_data = Ok (house, rent) ->
  match Spec2.last_tagged "sell_price" items with
  | Some item => int_of (field item "value" (num 0)) = Ok house
  | None => house = 0%Z
  end
  /\ match Spec2.last_tagged "rent_price" items with
     | Some item => int_of (field item "value" (num 0)) = Ok rent
     | None => rent = 0%Z
     end.
Proof.
  intros G H.
  destruct (getitem_dict _ _ _ G) as (d & -> & L & T).
  unfold merge_market, truthy_with in H. rewrite T in H.
  cbn [contains bind] in H. rewrite L in H. cbn [bind] in H.
  rewrite G in H. cbn [bind] in H.
  destruct items as [|item items].
  - injection H as <- <-. split; reflexivity.
  - apply price_loop_last in H. exact H.
Qed.

Lemma last_price_entry_wins_witness :
  int_of (field (VDict [("metric", VStr "sell_price"); ("value", VNum 950000.7)])
            "value" (num 0)) = Ok 950000%Z
  /\ int_of (field (VDict [("metric", VStr "rent_price"); ("value", VNum 650)])
               "value" (num 0)) = Ok 650%Z.
Proof.
  exact (last_price_entry_wins Examples2.market_payload _ [] _ _
           eq_refl eq_refl).
Defined.

(** X28. [get_suburb_details] answers [None] exactly when the three
    payloads are all empty.  Any other answer echoes the identifier and
    reports population, median age and the numbers of schools, amenities
    and development applications as 0, whatever the payloads hold. *)
Theorem details_leave_counts_at_zero (suburb_id : string)
    (info_data summary_data market_data out : value) :
  get_suburb_details suburb_id info_data summary_data market_data = Ok out ->
  (out = VNone <->
   truthy info_data = false /\ truthy summary_data = false
   /\ truthy market_data = false)
  /\ (out <> VNone ->
      get out "id" VNone = Ok (VStr suburb_id)
      /\ Forall (fun k => get out k VNone = Ok (num 0))
           ["population"; "medianAge"; "schoolsCount"; "amenitiesCount";
            "developmentApps"]).
Proof.
  unfold get_suburb_details. intros H.
  destruct (truthy info_data) eqn:Ti, (truthy summary_data) eqn:Ts,
           (truthy market_data) eqn:Tm; cbn [negb andb] in H;
    try (injection H as <-;
         split; [split; [intros _; auto | reflexivity] | congruence]);
    unfold _aggregate_suburb_data in H;
    bind_inv H; bind_inv H; bind_inv H; bind_inv H; injection H as <-;
    (split;
     [split; [discriminate | intros (? & ? & ?); discriminate]
     |intros _; split; [reflexivity | repeat constructor]]).
Qed.

Lemma details_leave_counts_at_zero_witness :
  (VDict [("id", VStr "carlton-3053"); ("name", VStr "Carlton");
          ("state", VStr "VIC"); ("postcode", VStr "3053");
          ("medianHousePrice", num 950000); ("medianRent", num 650);
          ("population", num 0); ("medianAge", num 0);
          ("schoolsCount", num 0); ("amenitiesCount", num 0);
          ("developmentApps", num 0)] = VNone <->
   truthy Examples2.info_payload = false
   /\ truthy Examples2.summary_payload = false
   /\ truthy Examples2.market_payload = false)
  /\ (VDict [("id", VStr "carlton-3053"); ("name", VStr "Carlton");
             ("state", VStr "VIC"); ("postcode", VStr "3053");
             ("medianHousePrice", num 950000); ("medianRent", num 650);
             ("population", num 0); ("medianAge", num 0);
             ("schoolsCount", num 0); ("amenitiesCount", num 0);
             ("developmentApps", num 0)] <> VNone ->
      get (VDict [("id", VStr "carlton-3053"); ("name", VStr "Carlton");
                  ("state", VStr "VIC"); ("postcode", VStr "3053");
                  ("medianHousePrice", num 950000); ("medianRent", num 650);
                  ("population", num 0); ("medianAge", num 0);
                  ("schoolsCount", num 0); ("amenitiesCount", num 0);
                  ("developmentApps", num 0)]) "id" VNone
      = Ok (VStr "carlton-3053")
      /\ Forall (fun k =>
                   get (VDict [("id", VStr "carlton-3053");
                               ("name", VStr "Carlton");
                               ("state", VStr "VIC"); ("postcode", VStr "3053");
                               ("medianHousePrice", num 950000);
                               ("medianRent", num 650);
                               ("population", num 0); ("medianAge", num 0);
                               ("schoolsCount", num 0); ("amenitiesCount", num 0);
                               ("developmentApps", num 0)]) k VNone
                   = Ok (num 0))
           ["population"; "medianAge"; "schoolsCount"; "amenitiesCount";
            "developmentApps"]).
Proof.
  exact (details_leave_counts_at_zero "carlton-3053" Examples2.info_payload
           Examples2.summary_payload Examples2.market_payload _ eq_refl).
Defined.

End ServiceFacts.
